(** * The tapas data pipeline: fetch, extract, transform

    A shallow embedding of [tapas/dataset.py] and [tapas/pipeline.py].

    Python [str] values are Rocq strings (characters below 256, where the
    only decimal digits are 0-9); [pathlib.Path] values are lists of path
    components read from the file-system root; the file system, the log of
    [loguru] calls and the list of HTTP requests issued form the state that
    the functions thread through a small state-and-exception monad. *)

From Stdlib Require Import String Ascii List Bool Arith NArith Lia.
From Stdlib Require Import DecimalString.
Import ListNotations.
Open Scope string_scope.
Open Scope list_scope.

Set Warnings "-register-all".

(** ** Strings *)

Module Str.

Definition chr (n : nat) : ascii := ascii_of_nat n.
Definition ord (c : ascii) : nat := nat_of_ascii c.

Definition between (lo hi : nat) (c : ascii) : bool :=
  (lo <=? ord c)%nat && (ord c <=? hi)%nat.

(** [\d] of the [re] module, on characters below 256. *)
Definition is_digit (c : ascii) : bool := between 48 57 c.
Definition is_upper (c : ascii) : bool := between 65 90 c.
Definition is_lower (c : ascii) : bool := between 97 122 c.
Definition is_alpha (c : ascii) : bool := is_upper c || is_lower c.
Definition is_ascii (c : ascii) : bool := (ord c <? 128)%nat.

Definition lower_char (c : ascii) : ascii :=
  if is_upper c then chr (ord c + 32) else c.

Fixpoint map (f : ascii -> ascii) (s : string) : string :=
  match s with
  | EmptyString => EmptyString
  | String c s' => String (f c) (map f s')
  end.

Fixpoint filter (f : ascii -> bool) (s : string) : string :=
  match s with
  | EmptyString => EmptyString
  | String c s' => if f c then String c (filter f s') else filter f s'
  end.

Fixpoint forallb (f : ascii -> bool) (s : string) : bool :=
  match s with
  | EmptyString => true
  | String c s' => f c && forallb f s'
  end.

Fixpoint existsb (f : ascii -> bool) (s : string) : bool :=
  match s with
  | EmptyString => false
  | String c s' => f c || existsb f s'
  end.

(** [c in s] for a one-character [c]. *)
Definition mem (c : ascii) (s : string) : bool := existsb (Ascii.eqb c) s.

Definition is_empty (s : string) : bool :=
  match s with EmptyString => true | _ => false end.

(** [s.lstrip(chars)] with the set [chars] given as a predicate. *)
Fixpoint lstrip (f : ascii -> bool) (s : string) : string :=
  match s with
  | EmptyString => EmptyString
  | String c s' => if f c then lstrip f s' else s
  end.

(** The longest prefix of [s] whose characters satisfy [f]. *)
Fixpoint span (f : ascii -> bool) (s : string) : string :=
  match s with
  | EmptyString => EmptyString
  | String c s' => if f c then String c (span f s') else EmptyString
  end.

(** [s.partition(c)]: the text before the first [c] and, when there is
    one, the text after it. *)
Fixpoint partition (c : ascii) (s : string) : string * option string :=
  match s with
  | EmptyString => (EmptyString, None)
  | String a s' =>
      if Ascii.eqb a c then (EmptyString, Some s')
      else let '(l, r) := partition c s' in (String a l, r)
  end.

(** [s.split(c)]: never empty, one more field than occurrences of [c]. *)
Fixpoint split (c : ascii) (s : string) : list string :=
  match s with
  | EmptyString => [EmptyString]
  | String a s' =>
      if Ascii.eqb a c then EmptyString :: split c s'
      else match split c s' with
           | f :: fs => String a f :: fs
           | [] => [String a EmptyString]
           end
  end.

(** [s.replace(a, b)] for one-character [a] and [b]. *)
Definition replace (a b : ascii) (s : string) : string :=
  map (fun c => if Ascii.eqb c a then b else c) s.

(** [s.startswith(p)] and what follows the prefix. *)
Fixpoint strip_prefix (p s : string) : option string :=
  match p, s with
  | EmptyString, _ => Some s
  | String a p', String b s' =>
      if Ascii.eqb a b then strip_prefix p' s' else None
  | String _ _, EmptyString => None
  end.

Definition startswith (s p : string) : bool :=
  match strip_prefix p s with Some _ => true | None => false end.

Fixpoint rev_acc (s acc : string) : string :=
  match s with
  | EmptyString => acc
  | String c s' => rev_acc s' (String c acc)
  end.

Definition rev (s : string) : string := rev_acc s EmptyString.

Definition endswith (s p : string) : bool := startswith (rev s) (rev p).

(** [s[:-1]]. *)
Fixpoint drop_last (s : string) : string :=
  match s with
  | EmptyString => EmptyString
  | String c EmptyString => EmptyString
  | String c s' => String c (drop_last s')
  end.

(** [sep.join(parts)]. *)
Definition join (sep : string) (parts : list string) : string :=
  String.concat sep parts.

(** [c * n]. *)
Fixpoint repeat (c : ascii) (n : nat) : string :=
  match n with
  | O => EmptyString
  | S n' => String c (repeat c n')
  end.

(** [str(n)] for a natural number. *)
Definition of_nat (n : nat) : string :=
  NilZero.string_of_uint (Nat.to_uint n).

End Str.

(** ** Exceptions and results *)

Inductive exn_class : Type :=
  | ValueError
  | IndexError
  | FileNotFoundError
  | FileExistsError
  | NotADirectoryError
  | IsADirectoryError
  | OSError
  | BadZipFile
  | ParserError
  | HTTPError
  | ConnectionError
  | KeyError.

(** A raised exception: its class and [str(e)]. *)
Record exn : Type := Exn { exn_cls : exn_class; exn_msg : string }.

Inductive result (A : Type) : Type :=
  | Ok (a : A)
  | Raised (e : exn).

Arguments Ok {A} a.
Arguments Raised {A} e.

(** ** [urllib.parse]

    [urlsplit], [urlparse], [parse_qsl] and [parse_qs] as the standard
    library defines them, with the keyword arguments left at their
    defaults.  Three parts of the library are taken as parameters: the
    decoding of percent escapes (which produces characters from the whole
    of Unicode), the validation of a bracketed host and the NFKC check of
    a host that is not ASCII. *)

Record urllib : Type := {
  (** [unquote] on a string that holds a percent sign *)
  unquote_escapes : string -> string;
  (** [_check_bracketed_netloc]: [false] when it raises *)
  bracketed_netloc_ok : string -> bool;
  (** [_checknetloc] on a host that is not ASCII: [false] when it raises *)
  nfkc_netloc_ok : string -> bool
}.

Module Urllib.

Record SplitResult : Type := {
  sr_scheme : string;
  sr_netloc : string;
  sr_path : string;
  sr_query : string;
  sr_fragment : string
}.

Record ParseResult : Type := {
  scheme : string;
  netloc : string;
  path : string;
  params : string;
  query : string;
  fragment : string
}.

(** [_WHATWG_C0_CONTROL_OR_SPACE] *)
Definition c0_control_or_space (c : ascii) : bool := (Str.ord c <=? 32)%nat.

(** [_UNSAFE_URL_BYTES_TO_REMOVE]: tab, carriage return, line feed *)
Definition unsafe_url_byte (c : ascii) : bool :=
  Ascii.eqb c (Str.chr 9) || Ascii.eqb c (Str.chr 13) || Ascii.eqb c (Str.chr 10).

(** [scheme_chars]: letters, digits and ["+-."] *)
Definition scheme_char (c : ascii) : bool :=
  Str.is_alpha c || Str.is_digit c || Str.mem c "+-.".

(** The scheme, when [url] starts with one, and what follows its colon. *)
Definition split_scheme (url : string) : string * string :=
  match Str.partition ":" url with
  | (before, Some after) =>
      match before with
      | String c0 _ =>
          if Str.is_ascii c0 && Str.is_alpha c0 && Str.forallb scheme_char before
          then (Str.map Str.lower_char before, after)
          else (EmptyString, url)
      | EmptyString => (EmptyString, url)
      end
  | (_, None) => (EmptyString, url)
  end.

Definition netloc_delim (c : ascii) : bool := Str.mem c "/?#".

(** [_splitnetloc(url, 2)] on what follows the two slashes. *)
Fixpoint splitnetloc (s : string) : string * string :=
  match s with
  | EmptyString => (EmptyString, EmptyString)
  | String c s' =>
      if netloc_delim c then (EmptyString, s)
      else let '(n, r) := splitnetloc s' in (String c n, r)
  end.

Definition invalid_ipv6 : exn := Exn ValueError "Invalid IPv6 URL".
Definition invalid_nfkc : exn :=
  Exn ValueError "netloc contains invalid characters under NFKC normalization".

Definition checknetloc (lib : urllib) (nl : string) : bool :=
  if Str.is_empty nl || Str.forallb Str.is_ascii nl then true
  else nfkc_netloc_ok lib nl.

Definition urlsplit (lib : urllib) (url : string) : result SplitResult :=
  let url := Str.lstrip c0_control_or_space url in
  let url := Str.filter (fun c => negb (unsafe_url_byte c)) url in
  let '(sch, url) := split_scheme url in
  let '(nl, url) :=
    match Str.strip_prefix "//" url with
    | Some rest => splitnetloc rest
    | None => (EmptyString, url)
    end in
  let lb := Str.mem "[" nl in
  let rb := Str.mem "]" nl in
  if (lb && negb rb) || (rb && negb lb) then Raised invalid_ipv6
  else if lb && rb && negb (bracketed_netloc_ok lib nl) then Raised invalid_ipv6
  else
    let '(url, frag) :=
      match Str.partition "#" url with
      | (u, Some f) => (u, f)
      | (u, None) => (u, EmptyString)
      end in
    let '(url, qs) :=
      match Str.partition "?" url with
      | (u, Some q) => (u, q)
      | (u, None) => (u, EmptyString)
      end in
    if checknetloc lib nl
    then Ok {| sr_scheme := sch; sr_netloc := nl; sr_path := url;
               sr_query := qs; sr_fragment := frag |}
    else Raised invalid_nfkc.

(** [uses_params] *)
Definition uses_params : list string :=
  [""; "ftp"; "hdl"; "prospero"; "http"; "imap"; "https"; "shttp"; "rtsp";
   "rtspu"; "sip"; "sips"; "mms"; "sftp"; "tel"].

(** What follows the last slash of [s], and what comes before it with
    the slash; the whole of [s] when it has no slash. *)
Fixpoint last_segment (s : string) : string * string :=
  match s with
  | EmptyString => (EmptyString, EmptyString)
  | String c s' =>
      let '(h, t) := last_segment s' in
      if Str.mem "/" s then (String c h, t) else (EmptyString, s)
  end.

(** [_splitparams] *)
Definition splitparams (url : string) : string * string :=
  let '(h, t) := last_segment url in
  match Str.partition ";" t with
  | (seg, Some ps) => ((h ++ seg)%string, ps)
  | (_, None) =>
      if Str.mem "/" url then (url, EmptyString) else (Str.drop_last url, url)
  end.

Definition urlparse (lib : urllib) (url : string) : result ParseResult :=
  match urlsplit lib url with
  | Raised e => Raised e
  | Ok r =>
      let '(p, ps) :=
        if existsb (String.eqb (sr_scheme r)) uses_params
           && Str.mem ";" (sr_path r)
        then splitparams (sr_path r)
        else (sr_path r, EmptyString) in
      Ok {| scheme := sr_scheme r; netloc := sr_netloc r; path := p;
            params := ps; query := sr_query r; fragment := sr_fragment r |}
  end.

(** [unquote] *)
Definition unquote (lib : urllib) (s : string) : string :=
  if Str.mem "%" s then unquote_escapes lib s else s.

Definition parse_qsl (lib : urllib) (qs : string) : list (string * string) :=
  let query_args := if Str.is_empty qs then [] else Str.split "&" qs in
  flat_map
    (fun name_value =>
       if Str.is_empty name_value then []
       else match Str.partition "=" name_value with
            | (_, None) => []
            | (n, Some v) =>
                if Str.is_empty v then []
                else [(unquote lib (Str.replace "+" " " n),
                       unquote lib (Str.replace "+" " " v))]
            end)
    query_args.

(** A [dict] from strings to lists of strings, in insertion order. *)
Definition qdict : Type := list (string * list string).

Fixpoint dict_get (k : string) (d : qdict) : option (list string) :=
  match d with
  | [] => None
  | (k', vs) :: d' => if String.eqb k k' then Some vs else dict_get k d'
  end.

(** [d[k].append(v)] when [k in d], [d[k] = [v]] otherwise. *)
Fixpoint dict_add (k v : string) (d : qdict) : qdict :=
  match d with
  | [] => [(k, [v])]
  | (k', vs) :: d' =>
      if String.eqb k k' then (k', vs ++ [v]) :: d'
      else (k', vs) :: dict_add k v d'
  end.

Definition parse_qs (lib : urllib) (qs : string) : qdict :=
  fold_left (fun d nv => dict_add (fst nv) (snd nv) d) (parse_qsl lib qs) [].

End Urllib.

(** ** [re.search(r"/files/(\d+)", url)]: group 1 of the leftmost match *)

Fixpoint re_search_files (s : string) : option string :=
  match s with
  | EmptyString => None
  | String _ s' =>
      match Str.strip_prefix "/files/" s with
      | Some rest =>
          match Str.span Str.is_digit rest with
          | EmptyString => re_search_files s'
          | digits => Some digits
          end
      | None => re_search_files s'
      end
  end.


(** ** Paths and the file system

    A path is the list of its components below the root.  A directory
    keeps its entries in the order in which a listing returns them. *)

Definition path : Type := list string.

(** What a file holds, as the libraries that read it see it: a table
    ([pandas.read_csv] succeeds), an archive ([zipfile.ZipFile] succeeds)
    or bytes that are neither. *)
Inductive filedata : Type :=
  | Opaque (bytes : string)
  | Table (columns : list string) (rows : list (list string))
  | Archive (members : list (string * filedata)).

Inductive node : Type :=
  | File (data : filedata)
  | Dir (entries : list (string * node)).

Module Path.

(** [p / name] *)
Definition div (p : path) (name : string) : path := p ++ [name].

(** [p.name] *)
Definition name (p : path) : string := last p EmptyString.

(** [p.parent] *)
Definition parent (p : path) : path := removelast p.

(** [str(p)] *)
Definition str (p : path) : string := ("/" ++ Str.join "/" p)%string.

(** [p.relative_to(base)]: the components of [p] below [base]. *)
Fixpoint relative_to (p base : path) : result path :=
  match base, p with
  | [], _ => Ok p
  | b :: base', c :: p' =>
      if String.eqb b c then relative_to p' base'
      else Raised (Exn ValueError "path is not in the subpath of the base")
  | _ :: _, [] => Raised (Exn ValueError "path is not in the subpath of the base")
  end.

(** [str] of a relative path. *)
Definition str_rel (p : path) : string := Str.join "/" p.

End Path.

Notation "p // name" := (Path.div p name) (at level 40, left associativity).

Module FS.

Definition entries : Type := list (string * node).

Fixpoint assoc (k : string) (es : entries) : option node :=
  match es with
  | [] => None
  | (k', n) :: es' => if String.eqb k k' then Some n else assoc k es'
  end.

(** Replace the entry [k], or add it after the others. *)
Fixpoint put (k : string) (n : node) (es : entries) : entries :=
  match es with
  | [] => [(k, n)]
  | (k', n') :: es' =>
      if String.eqb k k' then (k', n) :: es' else (k', n') :: put k n es'
  end.

Definition enoent (p : path) : exn :=
  Exn FileNotFoundError ("[Errno 2] No such file or directory: " ++ Path.str p).
Definition enotdir (p : path) : exn :=
  Exn NotADirectoryError ("[Errno 20] Not a directory: " ++ Path.str p).
Definition eisdir (p : path) : exn :=
  Exn IsADirectoryError ("[Errno 21] Is a directory: " ++ Path.str p).
Definition eexist (p : path) : exn :=
  Exn FileExistsError ("[Errno 17] File exists: " ++ Path.str p).

(** The node at [p] below [o]; [o] is [None] where nothing exists. *)
Fixpoint lookup_opt (o : option node) (p : path) : option node :=
  match p with
  | [] => o
  | c :: p' =>
      match o with
      | Some (Dir es) => lookup_opt (assoc c es) p'
      | _ => None
      end
  end.

Definition lookup (n : node) (p : path) : option node := lookup_opt (Some n) p.

(** [os.path.exists], [os.path.isdir] *)
Definition exists_ (n : node) (p : path) : bool :=
  match lookup n p with Some _ => true | None => false end.

Definition is_dir (n : node) (p : path) : bool :=
  match lookup n p with Some (Dir _) => true | _ => false end.

(** Replace what is at [p] below [o] by what [g] makes of it; every
    directory above [p] has to exist.  [full] is the whole path, for the
    error message. *)
Fixpoint alter (full : path) (p : path) (g : option node -> result node)
  (o : option node) : result node :=
  match p with
  | [] => g o
  | c :: p' =>
      match o with
      | None => Raised (enoent full)
      | Some (File _) => Raised (enotdir full)
      | Some (Dir es) =>
          match alter full p' g (assoc c es) with
          | Ok x => Ok (Dir (put c x es))
          | Raised e => Raised e
          end
      end
  end.

(** [open(p, "wb")], the writes and the close: [p] holds [d] afterwards. *)
Definition write_file (n : node) (p : path) (d : filedata) : result node :=
  alter p p
    (fun o => match o with
              | Some (Dir _) => Raised (eisdir p)
              | _ => Ok (File d)
              end)
    (Some n).

(** [os.mkdir(p)] *)
Definition mkdir (n : node) (p : path) : result node :=
  alter p p
    (fun o => match o with
              | Some _ => Raised (eexist p)
              | None => Ok (Dir [])
              end)
    (Some n).

(** A chain of new, empty directories. *)
Fixpoint fresh_dirs (p : path) : node :=
  match p with
  | [] => Dir []
  | c :: p' => Dir [(c, fresh_dirs p')]
  end.

(** [Path.mkdir(parents=True, exist_ok=True)] and
    [os.makedirs(p, exist_ok=True)] on what is at [p] below [o]. *)
Fixpoint makedirs_opt (full : path) (p : path) (o : option node) : result node :=
  match o with
  | None => Ok (fresh_dirs p)
  | Some (File _) =>
      match p with
      | [] => Raised (eexist full)
      | _ :: _ => Raised (enotdir full)
      end
  | Some (Dir es) =>
      match p with
      | [] => Ok (Dir es)
      | c :: p' =>
          match makedirs_opt full p' (assoc c es) with
          | Ok x => Ok (Dir (put c x es))
          | Raised e => Raised e
          end
      end
  end.

Definition makedirs (n : node) (p : path) : result node :=
  makedirs_opt p p (Some n).

(** The entries of the directory at [p], in listing order; nothing when
    [p] is not a directory. *)
Definition scandir (n : node) (p : path) : list string :=
  match lookup n p with
  | Some (Dir es) => map fst es
  | _ => []
  end.

End FS.

(** ** The state and the monad *)

Inductive level : Type := INFO | SUCCESS | WARNING | ERROR.

(** What [requests.get] returns: the status, the [content-length] header
    as [int] reads it ([None] when [int] raises), what the body holds when
    the stream completes, and, when it breaks, the bytes that arrived and
    the exception. *)
Record response : Type := {
  status_code : nat;
  content_length : option (option nat);
  body : filedata;
  broken_stream : option (string * exn)
}.

Record world : Type := {
  fs : node;
  remote : string -> result response;
  requests : list string;
  logged : list (level * string)
}.

Definition M (A : Type) : Type := world -> result A * world.

Definition ret {A : Type} (a : A) : M A := fun w => (Ok a, w).

Definition bind {A B : Type} (m : M A) (k : A -> M B) : M B :=
  fun w =>
    match m w with
    | (Ok a, w') => k a w'
    | (Raised e, w') => (Raised e, w')
    end.

Definition raise {A : Type} (e : exn) : M A := fun w => (Raised e, w).

(** [try: body except Exception as e: handler e] *)
Definition try_except {A : Type} (body : M A) (handler : exn -> M A) : M A :=
  fun w =>
    match body w with
    | (Ok a, w') => (Ok a, w')
    | (Raised e, w') => handler e w'
    end.

Notation "x <- m ;; k" := (bind m (fun x => k))
  (at level 61, m at next level, right associativity).
Notation "m ;; k" := (bind m (fun _ => k))
  (at level 61, right associativity).

Definition with_fs (w : world) (n : node) : world :=
  {| fs := n; remote := remote w; requests := requests w; logged := logged w |}.

Definition add_log (w : world) (entry : level * string) : world :=
  {| fs := fs w; remote := remote w; requests := requests w;
     logged := logged w ++ [entry] |}.

Definition add_logs (w : world) (entries : list (level * string)) : world :=
  fold_left add_log entries w.

Definition add_request (w : world) (url : string) : world :=
  {| fs := fs w; remote := remote w; requests := requests w ++ [url];
     logged := logged w |}.

Definition get_fs : M node := fun w => (Ok (fs w), w).

Definition set_fs (n : node) : M unit := fun w => (Ok tt, with_fs w n).

(** Run a file-system operation: the state changes only when it succeeds. *)
Definition fs_op (f : node -> result node) : M unit :=
  n <- get_fs ;;
  match f n with
  | Ok n' => set_fs n'
  | Raised e => raise e
  end.

Definition lift {A : Type} (r : result A) : M A := fun w => (r, w).

(** A [loguru] call. *)
Definition logger (l : level) (msg : string) : M unit :=
  fun w => (Ok tt, add_log w (l, msg)).

Definition path_exists (p : path) : M bool :=
  n <- get_fs ;; ret (FS.exists_ n p).

Definition mkdir_parents (p : path) : M unit := fs_op (fun n => FS.makedirs n p).

Definition str_bool (b : bool) : string := if b then "True" else "False".

(** ** [requests] *)

Definition requests_get (url : string) : M response :=
  fun w => (remote w url, add_request w url).

Definition raise_for_status (r : response) : M unit :=
  if (400 <=? status_code r)%nat && (status_code r <? 600)%nat
  then raise (Exn HTTPError (Str.of_nat (status_code r) ++ " Error"))
  else ret tt.

(** ** [pandas] *)

Record DataFrame : Type := {
  df_columns : list string;
  df_rows : list (list string)
}.

(** [df.shape] *)
Definition shape (df : DataFrame) : nat * nat :=
  (length (df_rows df), length (df_columns df)).

Definition read_csv (p : path) : M DataFrame :=
  n <- get_fs ;;
  match FS.lookup n p with
  | None => raise (FS.enoent p)
  | Some (Dir _) => raise (FS.eisdir p)
  | Some (File (Table cols rows)) => ret {| df_columns := cols; df_rows := rows |}
  | Some (File _) => raise (Exn ParserError "Error tokenizing data")
  end.

(** The rows with the row number in front, as [to_csv] writes them when
    [index] is true. *)
Fixpoint with_index (i : nat) (rows : list (list string)) : list (list string) :=
  match rows with
  | [] => []
  | r :: rows' => (Str.of_nat i :: r) :: with_index (S i) rows'
  end.

Definition csv_of (df : DataFrame) (index : bool) : filedata :=
  if index
  then Table (EmptyString :: df_columns df) (with_index 0 (df_rows df))
  else Table (df_columns df) (df_rows df).

(** [df.to_csv(p, index=index)] *)
Definition to_csv (df : DataFrame) (p : path) (index : bool) : M unit :=
  n <- get_fs ;;
  if FS.is_dir n (Path.parent p)
  then fs_op (fun n => FS.write_file n p (csv_of df index))
  else raise (Exn OSError ("Cannot save file into a non-existent directory: '"
                           ++ Path.str (Path.parent p) ++ "'")).

(** ** [zipfile] *)

Definition member : Type := (string * filedata)%type.

(** [zipfile.ZipFile(p, "r")] *)
Definition ZipFile (p : path) : M (list member) :=
  n <- get_fs ;;
  match FS.lookup n p with
  | None => raise (FS.enoent p)
  | Some (Dir _) => raise (FS.eisdir p)
  | Some (File (Archive ms)) => ret ms
  | Some (File _) => raise (Exn BadZipFile "File is not a zip file")
  end.

Definition namelist (ms : list member) : list string := map fst ms.

(** [getinfo]: of the members that share a name, the last one. *)
Fixpoint getinfo (ms : list member) (name : string) : option filedata :=
  match ms with
  | [] => None
  | (k, d) :: ms' =>
      match getinfo ms' name with
      | Some d' => Some d'
      | None => if String.eqb name k then Some d else None
      end
  end.

Definition invalid_path_part (x : string) : bool :=
  String.eqb x "" || String.eqb x "." || String.eqb x "..".

(** The components of the member's name that [extract] keeps. *)
Definition arcname (name : string) : path :=
  filter (fun x => negb (invalid_path_part x)) (Str.split "/" name).

(** [ZipInfo.is_dir] *)
Definition member_is_dir (name : string) : bool := Str.endswith name "/".

(** [zip_ref.extract(name, dest)] *)
Definition extract (ms : list member) (name : string) (dest : path) : M unit :=
  match getinfo ms name with
  | None => raise (Exn KeyError "There is no item named in the archive")
  | Some data =>
      let parts := arcname name in
      if match parts with [] => negb (member_is_dir name) | _ => false end
      then raise (Exn ValueError "Empty filename.")
      else
        let targetpath := dest ++ parts in
        let upperdirs := Path.parent targetpath in
        n <- get_fs ;;
        (if FS.exists_ n upperdirs then ret tt else mkdir_parents upperdirs) ;;
        if member_is_dir name
        then n <- get_fs ;;
             if FS.is_dir n targetpath then ret tt
             else fs_op (fun n => FS.mkdir n targetpath)
        else fs_op (fun n => FS.write_file n targetpath data)
  end.

(** [for x in xs: body x] *)
Fixpoint for_each {A : Type} (xs : list A) (body : A -> M unit) : M unit :=
  match xs with
  | [] => ret tt
  | x :: xs' => body x ;; for_each xs' body
  end.

(** ** [tapas/dataset.py] *)

(** Lines 36 to 48 of [download_from_figshare]: the file identifier. *)
Definition figshare_file_id (lib : urllib) (url : string) : result string :=
  match Urllib.urlparse lib url with
  | Raised e => Raised e
  | Ok parsed_url =>
      let query_params := Urllib.parse_qs lib (Urllib.query parsed_url) in
      match Urllib.dict_get "file" query_params with
      | None =>
          match re_search_files url with
          | Some file_id => Ok file_id
          | None =>
              Raised (Exn ValueError ("Could not extract file ID from URL: " ++ url))
          end
      | Some values =>
          match values with
          | file_id :: _ => Ok file_id
          | [] => Raised (Exn IndexError "list index out of range")
          end
      end
  end.

Definition download_url_of (file_id : string) : string :=
  "https://ndownloader.figshare.com/files/" ++ file_id.

(** The progress bar only displays and is left out.  The chunks are
    written one after the other: the file is created empty, and holds the
    body once the stream has completed, or what arrived when it broke. *)
Definition download_from_figshare (lib : urllib) (url : string)
  (output_path : path) (chunk_size : N) : M unit :=
  file_id <- lift (figshare_file_id lib url) ;;
  logger INFO ("Downloading file ID " ++ file_id ++ " from figshare...") ;;
  let download_url := download_url_of file_id in
  response <- requests_get download_url ;;
  raise_for_status response ;;
  total_size <- match content_length response with
                | None => ret 0
                | Some (Some n) => ret n
                | Some None =>
                    raise (Exn ValueError "invalid literal for int() with base 10")
                end ;;
  mkdir_parents (Path.parent output_path) ;;
  fs_op (fun n => FS.write_file n output_path (Opaque "")) ;;
  match broken_stream response with
  | Some (received, e) =>
      fs_op (fun n => FS.write_file n output_path (Opaque received)) ;;
      raise e
  | None => fs_op (fun n => FS.write_file n output_path (body response))
  end ;;
  logger SUCCESS ("Downloaded " ++ Path.name output_path ++ " to "
                  ++ Path.str (Path.parent output_path)).

Definition download (lib : urllib) (url : string) (output_path : path) : M unit :=
  download_from_figshare lib url output_path 8192%N.

(** The entries that [extract_zip] keeps from the archive's name list. *)
Definition file_list (names : list string) : list string :=
  filter (fun f => negb (Str.startswith f "__MACOSX")
                   && negb (Str.endswith f ".DS_Store")) names.

Definition extract_zip (zip_path extract_to : path) : M path :=
  logger INFO ("Extracting " ++ Path.name zip_path ++ " to "
               ++ Path.str extract_to ++ "...") ;;
  mkdir_parents extract_to ;;
  zip_ref <- ZipFile zip_path ;;
  for_each (file_list (namelist zip_ref))
    (fun file => extract zip_ref file extract_to) ;;
  let data_dir := extract_to // "Data" in
  found <- path_exists data_dir ;;
  if found
  then logger SUCCESS ("Extracted data to " ++ Path.str data_dir) ;;
       ret data_dir
  else logger WARNING ("Data directory not found in " ++ Path.str extract_to) ;;
       ret extract_to.

(** One entry of [processed_matrices]. *)
Record matrix_record : Type := {
  filename : string;
  mr_shape : nat * nat;
  file_path : string
}.

(** [str] of a pair of numbers. *)
Definition str_shape (sh : nat * nat) : string :=
  "(" ++ Str.of_nat (fst sh) ++ ", " ++ Str.of_nat (snd sh) ++ ")".

(** [pd.DataFrame(processed_matrices)] *)
Definition DataFrame_of_records (rs : list matrix_record) : DataFrame :=
  {| df_columns := ["filename"; "shape"; "file_path"];
     df_rows := map (fun r => [filename r; str_shape (mr_shape r); file_path r]) rs |}.

(** [dir.glob("*.csv")]: the entries whose name ends in [.csv], in listing
    order. *)
Definition glob_csv (dir : path) : M (list path) :=
  n <- get_fs ;;
  ret (map (fun name => dir // name)
           (filter (fun name => Str.endswith name ".csv") (FS.scandir n dir))).

(** Step 2 of [process_dataset]: the prevalence table. *)
Definition process_prevalence (prevalence_path output_dir : path) : M unit :=
  found <- path_exists prevalence_path ;;
  if found
  then
    logger INFO "Processing prevalence data..." ;;
    try_except
      (prevalence_df <- read_csv prevalence_path ;;
       logger INFO ("Loaded prevalence data: "
                    ++ Str.of_nat (length (df_rows prevalence_df)) ++ " rows, "
                    ++ Str.of_nat (length (df_columns prevalence_df))
                    ++ " columns") ;;
       mkdir_parents output_dir ;;
       let prevalence_output := output_dir // "prevalence_data.csv" in
       to_csv prevalence_df prevalence_output false ;;
       logger SUCCESS ("Saved processed prevalence data to "
                       ++ Path.str prevalence_output))
      (fun e => logger ERROR ("Error processing prevalence data: " ++ exn_msg e))
  else ret tt.

(** The body of the sampling loop for one file. *)
Definition sample_matrix (data_dir adj_file : path)
  (processed_matrices : list matrix_record) : M (list matrix_record) :=
  try_except
    (adj_df <- read_csv adj_file ;;
     rel <- lift (Path.relative_to adj_file data_dir) ;;
     ret (processed_matrices
            ++ [{| filename := Path.name adj_file;
                   mr_shape := shape adj_df;
                   file_path := Path.str_rel rel |}]))
    (fun e =>
       logger WARNING ("Error processing " ++ Path.name adj_file ++ ": "
                       ++ exn_msg e) ;;
       ret processed_matrices).

(** The sampling loop: [processed_matrices] is threaded through. *)
Fixpoint sample_matrices (data_dir : path) (adj_files : list path)
  (processed_matrices : list matrix_record) : M (list matrix_record) :=
  match adj_files with
  | [] => ret processed_matrices
  | adj_file :: rest =>
      processed_matrices <- sample_matrix data_dir adj_file processed_matrices ;;
      sample_matrices data_dir rest processed_matrices
  end.

(** Step 3 of [process_dataset]: the adjacency matrices. *)
Definition process_adjacency (data_dir adj_matrices_dir output_dir : path) : M unit :=
  found <- path_exists adj_matrices_dir ;;
  if found
  then
    logger INFO "Processing adjacency matrices..." ;;
    adj_files <- glob_csv adj_matrices_dir ;;
    match adj_files with
    | _ :: _ =>
        logger INFO ("Found " ++ Str.of_nat (length adj_files)
                     ++ " adjacency matrix files") ;;
        processed_matrices <- sample_matrices data_dir (firstn 5 adj_files) [] ;;
        match processed_matrices with
        | _ :: _ =>
            let matrices_metadata := DataFrame_of_records processed_matrices in
            let metadata_output := output_dir // "adjacency_matrices_metadata.csv" in
            to_csv matrices_metadata metadata_output false ;;
            logger SUCCESS ("Saved adjacency matrices metadata to "
                            ++ Path.str metadata_output)
        | [] => ret tt
        end
    | [] => logger WARNING "No adjacency matrix CSV files found"
    end
  else ret tt.

(** Step 4 of [process_dataset]: what the tree holds, and the last lines. *)
Definition report_structure (data_dir prevalence_path adj_matrices_dir output_dir : path)
  : M unit :=
  logger INFO "Dataset structure:" ;;
  b <- path_exists prevalence_path ;;
  logger INFO ("  - Prevalence data: " ++ str_bool b) ;;
  b <- path_exists adj_matrices_dir ;;
  logger INFO ("  - Adjacency matrices: " ++ str_bool b) ;;
  let contingency_dir := data_dir // "2.ContingencyTables" in
  let graphs_dir := data_dir // "4.Graphs-gexffiles" in
  b <- path_exists contingency_dir ;;
  logger INFO ("  - Contingency tables: " ++ str_bool b) ;;
  b <- path_exists graphs_dir ;;
  logger INFO ("  - Graph files: " ++ str_bool b) ;;
  logger SUCCESS "Dataset processing complete!" ;;
  logger INFO ("Processed data saved to: " ++ Path.str output_dir) ;;
  logger INFO ("Extracted data available at: " ++ Path.str data_dir).

Definition process_dataset (input_path output_dir extract_to : path) : M unit :=
  found <- path_exists input_path ;;
  if negb found
  then
    logger ERROR ("Input file not found: " ++ Path.str input_path) ;;
    logger INFO "Run 'python -m tapas.dataset download' first to download the dataset." ;;
    raise (Exn FileNotFoundError ("Input file not found: " ++ Path.str input_path))
  else
    logger INFO "Starting dataset processing..." ;;
    data_dir <- extract_zip input_path extract_to ;;
    let prevalence_path :=
      data_dir // "1.Prevalence" // "Prevalence_Sex_Age_Year_ICD.csv" in
    process_prevalence prevalence_path output_dir ;;
    let adj_matrices_dir := data_dir // "3.AdjacencyMatrices" in
    process_adjacency data_dir adj_matrices_dir output_dir ;;
    report_structure data_dir prevalence_path adj_matrices_dir output_dir.

Definition main (input_path output_dir extract_to : path) : M unit :=
  process_dataset input_path output_dir extract_to.

(** ** [tapas/pipeline.py] *)

Definition banner : string := Str.repeat "=" 60.

Definition newline : string := String (Str.chr 10) EmptyString.

Definition run (lib : urllib) (url : string)
  (download_path extract_to output_dir : path) (skip_download : bool) : M unit :=
  logger INFO banner ;;
  logger INFO "Starting Comorbidity Networks Data Pipeline" ;;
  logger INFO banner ;;
  (if negb skip_download
   then
     logger INFO (newline ++ "[Step 1/2] Downloading dataset from figshare...") ;;
     found <- path_exists download_path ;;
     if found
     then
       logger WARNING ("File already exists: " ++ Path.str download_path) ;;
       logger INFO "Skipping download, using existing file." ;;
       logger INFO "To force re-download, delete the file or use --skip-download=False"
     else
       try_except
         (download_from_figshare lib url download_path 8192%N ;;
          logger SUCCESS "Download complete!")
         (fun e => logger ERROR ("Download failed: " ++ exn_msg e) ;; raise e)
   else
     logger INFO (newline ++ "[Step 1/2] Skipping download (skip_download=True)") ;;
     found <- path_exists download_path ;;
     if negb found
     then
       logger ERROR ("Download file not found: " ++ Path.str download_path) ;;
       logger INFO "Set skip_download=False or download the file first." ;;
       raise (Exn FileNotFoundError
                ("Download file not found: " ++ Path.str download_path))
     else ret tt) ;;
  logger INFO (newline ++ "[Step 2/2] Processing dataset...") ;;
  try_except
    (process_dataset download_path output_dir extract_to ;;
     logger SUCCESS "Processing complete!")
    (fun e => logger ERROR ("Processing failed: " ++ exn_msg e) ;; raise e) ;;
  logger INFO (newline ++ banner) ;;
  logger SUCCESS "Pipeline completed successfully!" ;;
  logger INFO banner ;;
  logger INFO ("Raw data: " ++ Path.str download_path) ;;
  logger INFO ("Extracted data: " ++ Path.str extract_to) ;;
  logger INFO ("Processed data: " ++ Path.str output_dir).


(** * Vocabulary of the statements *)

(** ** Computations that issue no request, that leave the file system
    alone, that do not raise *)

Definition offline {A : Type} (m : M A) : Prop :=
  forall w, requests (snd (m w)) = requests w.

Definition readonly {A : Type} (m : M A) : Prop :=
  forall w, fs (snd (m w)) = fs w.

Definition total {A : Type} (m : M A) : Prop :=
  forall w, exists a w', m w = (Ok a, w').

(** An update that refuses to replace a directory. *)
Definition keeps_dirs (g : option node -> result node) : Prop :=
  forall es y, g (Some (Dir es)) = Ok y -> False.

Open Scope string_scope.

(** What [run] logs before it looks at the download path. *)
Definition run_prologue : list (level * string) :=
  [(INFO, banner);
   (INFO, "Starting Comorbidity Networks Data Pipeline");
   (INFO, banner)].

(** What [run] does with the outcome of [process_dataset]. *)
Definition run_epilogue (download_path extract_to output_dir : path)
  (r : result unit * world) : result unit * world :=
  match r with
  | (Ok _, w) =>
      (Ok tt,
       add_logs w
         [(SUCCESS, "Processing complete!");
          (INFO, newline ++ banner);
          (SUCCESS, "Pipeline completed successfully!");
          (INFO, banner);
          (INFO, "Raw data: " ++ Path.str download_path);
          (INFO, "Extracted data: " ++ Path.str extract_to);
          (INFO, "Processed data: " ++ Path.str output_dir)])
  | (Raised e, w) =>
      (Raised e, add_log w (ERROR, "Processing failed: " ++ exn_msg e))
  end.

(** The first part of [extract_zip], up to the end of the extraction
    loop. *)
Definition unpack (zip_path extract_to : path) : M unit :=
  logger INFO ("Extracting " ++ Path.name zip_path ++ " to "
               ++ Path.str extract_to ++ "...") ;;
  mkdir_parents extract_to ;;
  zip_ref <- ZipFile zip_path ;;
  for_each (file_list (namelist zip_ref))
    (fun file => extract zip_ref file extract_to).

(** The names that [glob("*.csv")] finds in a directory. *)
Definition csv_names (n : node) (dir : path) : list string :=
  filter (fun name => Str.endswith name ".csv") (FS.scandir n dir).

(** What the body of the sampling loop makes of one file, read off the
    file system: the record, or the exception that the loop logs. *)
Definition load_matrix (n : node) (data_dir adj_file : path) : result matrix_record :=
  match FS.lookup n adj_file with
  | None => Raised (FS.enoent adj_file)
  | Some (Dir _) => Raised (FS.eisdir adj_file)
  | Some (File (Table cols rows)) =>
      match Path.relative_to adj_file data_dir with
      | Ok rel => Ok {| filename := Path.name adj_file;
                        mr_shape := (length rows, length cols);
                        file_path := Path.str_rel rel |}
      | Raised e => Raised e
      end
  | Some (File _) => Raised (Exn ParserError "Error tokenizing data")
  end.

(** A computation under which the file at [q] keeps holding [x]. *)
Definition keeps_file (q : path) (x : filedata) {A : Type} (m : M A) : Prop :=
  forall w, FS.lookup (fs w) q = Some (File x) ->
            FS.lookup (fs (snd (m w))) q = Some (File x).

Definition metadata_name : string := "adjacency_matrices_metadata.csv".
Definition prevalence_name : string := "prevalence_data.csv".

(** The path of the prevalence table below the data directory. *)
Definition prevalence_path_of (data_dir : path) : path :=
  data_dir // "1.Prevalence" // "Prevalence_Sex_Age_Year_ICD.csv".

Definition adj_matrices_dir_of (data_dir : path) : path :=
  data_dir // "3.AdjacencyMatrices".

(** The shape of a table, as [DataFrame.shape] gives it. *)
Definition table_shape (d : filedata) : option (nat * nat) :=
  match d with
  | Table cols rows => Some (length rows, length cols)
  | _ => None
  end.

(** The row of the metadata table for the entry [name] of the adjacency
    directory [adj] in the file system [n]. *)
Definition metadata_row (n : node) (adj : path) (name : string) (row : list string) : Prop :=
  exists cols rows,
    FS.lookup n (adj // name) = Some (File (Table cols rows))
    /\ row = [name; str_shape (length rows, length cols);
              "3.AdjacencyMatrices/" ++ name].

(** An entry that [extract_zip] leaves out. *)
Definition excluded (f : string) : bool :=
  Str.startswith f "__MACOSX" || Str.endswith f ".DS_Store".

(** The archive without the entries that [extract_zip] leaves out. *)
Definition kept_members (ms : list member) : list member :=
  filter (fun m => negb (excluded (fst m))) ms.

(** Where [extract] puts the member [name] below [dest]. *)
Definition target (dest : path) (name : string) : path := (dest ++ arcname name)%list.

(** [n'] has every file of [n], with what it holds, and every directory. *)
Definition extends (n n' : node) : Prop :=
  (forall q x, FS.lookup n q = Some (File x) -> FS.lookup n' q = Some (File x))
  /\ (forall q, FS.is_dir n q = true -> FS.is_dir n' q = true).

(** A component that [extract] keeps as it is. *)
Definition plain_component (c : string) : Prop :=
  c <> "" /\ c <> "." /\ c <> ".." /\ Str.mem "/" c = false.

(** The values that [pairs] gives to the name [k], in order. *)
Definition values_of (k : string) (pairs : list (string * string)) : list string :=
  map snd (filter (fun nv => String.eqb k (fst nv)) pairs).

(** How [parse_qsl] decodes a name or a value. *)
Definition decode (lib : urllib) (s : string) : string :=
  Urllib.unquote lib (Str.replace "+" " " s).

(** The values of the [file] parameters of a query string that are not
    empty, decoded, in the order of the query string. *)
Definition file_values (lib : urllib) (qs : string) : list string :=
  flat_map
    (fun field =>
       match Str.partition "=" field with
       | (n, Some v) =>
           if String.eqb "file" (decode lib n) && negb (Str.is_empty v)
           then [decode lib v] else []
       | (_, None) => []
       end)
    (Str.split "&" qs).

(** A URL without spaces and control characters: [urlsplit] strips and
    removes nothing. *)
Definition printable (url : string) : bool :=
  Str.forallb (fun c => negb (Urllib.c0_control_or_space c)) url.

(** A character that can stand in a host without further checks: ASCII
    and not a square bracket. *)
Definition plain_host_char (c : ascii) : bool :=
  Str.is_ascii c && negb (Ascii.eqb c "[") && negb (Ascii.eqb c "]").

(** A text in which a question mark comes before any other one and any
    hash. *)
Definition before_query (s q : string) : Prop :=
  exists pre, s = (pre ++ String "?" q)%string
              /\ Str.mem "?" pre = false /\ Str.mem "#" pre = false.

(** The digits that follow [/files/] at the start of [s]. *)
Definition match_at (s : string) : string :=
  match Str.strip_prefix "/files/" s with
  | Some rest => Str.span Str.is_digit rest
  | None => EmptyString
  end.

(** What lines 39 to 46 do when the query has no [file] parameter. *)
Definition path_segment_id (url : string) : result string :=
  match re_search_files url with
  | Some file_id => Ok file_id
  | None => Raised (Exn ValueError ("Could not extract file ID from URL: " ++ url))
  end.

(** ** Sample states *)

Module Sample.

Definition lib : urllib :=
  {| unquote_escapes := fun s => s;
     bracketed_netloc_ok := fun _ => true;
     nfkc_netloc_ok := fun _ => true |}.

Definition no_network : string -> result response :=
  fun _ => Raised (Exn ConnectionError "Network is unreachable").

Definition world_of (root : node) : world :=
  {| fs := root; remote := no_network; requests := []; logged := [] |}.

Definition raw_zip : path := ["raw"; "comorbidity_networks_data.zip"].
Definition extracted : path := ["interim"; "extracted"].
Definition processed : path := ["processed"].

(** The download path holds bytes that are not an archive. *)
Definition not_an_archive : world :=
  world_of (Dir [("raw", Dir [("comorbidity_networks_data.zip",
                               File (Opaque "<html>404</html>"))])]).

(** Nothing on disk. *)
Definition empty : world := world_of (Dir []).

Definition figshare_url : string :=
  "https://figshare.com/articles/dataset/Comorbidity_Networks_From_Population-Wide_Health_Data_Aggregated_Data_of_8_9M_Hospital_Patients_1997-2014_/27102553?file=52015403".

Definition prevalence_table : filedata :=
  Table ["sex"; "age_group"; "year"; "icd_code"; "p"]
        [["Female"; "1"; "2003"; "A04"; "0.0012"];
         ["Male"; "1"; "2003"; "A04"; "0.0015"];
         ["Male"; "2"; "2005"; "B37"; "0.0003"]].

Definition adjacency_table : filedata :=
  Table ["A04"; "B37"; "C18"] [["0"; "1.2"; "0"]; ["1.2"; "0"; "3.4"]; ["0"; "3.4"; "0"]].

Definition matrices : list member :=
  [("Data/3.AdjacencyMatrices/Adj_Matrix_Female_ICD_age_1.csv", adjacency_table);
   ("Data/3.AdjacencyMatrices/Adj_Matrix_Female_ICD_age_2.csv", adjacency_table);
   ("Data/3.AdjacencyMatrices/Adj_Matrix_Female_ICD_age_3.csv", adjacency_table);
   ("Data/3.AdjacencyMatrices/Adj_Matrix_Male_ICD_age_1.csv", adjacency_table);
   ("Data/3.AdjacencyMatrices/Adj_Matrix_Male_ICD_age_2.csv", adjacency_table);
   ("Data/3.AdjacencyMatrices/Adj_Matrix_Male_ICD_age_3.csv", adjacency_table);
   ("Data/3.AdjacencyMatrices/README.txt", Opaque "adjacency matrices")].

Definition prevalence_member : member :=
  ("Data/1.Prevalence/Prevalence_Sex_Age_Year_ICD.csv", prevalence_table).

Definition artifacts : list member :=
  [("__MACOSX/._Data", Opaque "Mac OS X"); ("Data/", Opaque "");
   ("Data/.DS_Store", Opaque "Bud1")].

Definition archive : list member := (artifacts ++ prevalence_member :: matrices)%list.

Definition archive_without_prevalence : list member := (artifacts ++ matrices)%list.

Definition holding (ms : list member) : world :=
  world_of (Dir [("raw", Dir [("comorbidity_networks_data.zip", File (Archive ms))])]).

(** The archive is downloaded, nothing else is there. *)
Definition downloaded : world := holding archive.

Definition downloaded_without_prevalence : world := holding archive_without_prevalence.

Definition data_dir : path := extracted // "Data".

Definition started (w : world) : world :=
  add_log w (INFO, "Starting dataset processing...").

End Sample.

(** * Vocabulary of the further properties *)

(** [p] is [q] or lies above it. *)
Fixpoint is_prefix (p q : path) : bool :=
  match p, q with
  | [], _ => true
  | a :: p', b :: q' => String.eqb a b && is_prefix p' q'
  | _ :: _, [] => false
  end.

(** Nothing of [n] is gone in [n']: a file is still a file, a directory
    still a directory. *)
Definition persists (n n' : node) : Prop :=
  (forall q x, FS.lookup n q = Some (File x) ->
               exists x', FS.lookup n' q = Some (File x'))
  /\ (forall q, FS.is_dir n q = true -> FS.is_dir n' q = true).

(** A computation that deletes nothing, whether it returns or raises. *)
Definition never_deletes {A : Type} (m : M A) : Prop :=
  forall w, persists (fs w) (fs (snd (m w))).

(** Every file of [n'] was in [n] with the same data, or is at a path
    that [allowed] holds of. *)
Definition new_files_in (allowed : path -> Prop) (n n' : node) : Prop :=
  forall q d, FS.lookup n' q = Some (File d) ->
              FS.lookup n q = Some (File d) \/ allowed q.

(** A computation that creates and rewrites files at allowed paths only,
    whether it returns or raises. *)
Definition writes_only (allowed : path -> Prop) {A : Type} (m : M A) : Prop :=
  forall w, new_files_in allowed (fs w) (fs (snd (m w))).

(** The paths below the directory [dir]. *)
Definition below (dir : path) : path -> Prop := fun q => is_prefix dir q = true.

(** The paths at which [process_dataset] may leave a file that was not
    there, or not with that data. *)
Definition process_outputs (output_dir extract_to : path) : path -> Prop :=
  fun q => below extract_to q
           \/ q = output_dir // prevalence_name
           \/ q = output_dir // metadata_name.

(** The same for [run]. *)
Definition run_outputs (download_path extract_to output_dir : path) : path -> Prop :=
  fun q => q = download_path \/ process_outputs output_dir extract_to q.

(** A status on which [raise_for_status] raises. *)
Definition error_status (r : response) : bool :=
  (400 <=? status_code r)%nat && (status_code r <? 600)%nat.

(** What [download_from_figshare] logs first, and the state in which the
    response arrives. *)
Definition announced (w : world) (file_id : string) : world :=
  add_request
    (add_log w (INFO, "Downloading file ID " ++ file_id ++ " from figshare..."))
    (download_url_of file_id).

(** What the file holds once the stream has ended, completed or broken. *)
Definition received_data (r : response) : filedata :=
  match broken_stream r with
  | Some (received, _) => Opaque received
  | None => body r
  end.

(** What [run] has logged when it calls [download_from_figshare]. *)
Definition run_download_log : list (level * string) :=
  app run_prologue
    [(INFO, newline ++ "[Step 1/2] Downloading dataset from figshare...")].

(** The records of the files that load, in the order of the files. *)
Definition loaded (n : node) (data_dir : path) (files : list path)
  : list matrix_record :=
  flat_map (fun f => match load_matrix n data_dir f with
                     | Ok r => [r]
                     | Raised _ => []
                     end) files.

(** The warnings for the files that do not load, in the order of the
    files. *)
Definition load_warnings (n : node) (data_dir : path) (files : list path)
  : list (level * string) :=
  flat_map (fun f => match load_matrix n data_dir f with
                     | Ok _ => []
                     | Raised e =>
                         [(WARNING, "Error processing " ++ Path.name f ++ ": "
                                    ++ exn_msg e)]
                     end) files.

(** The files that the sampling loop of [process_dataset] goes through. *)
Definition sampled (n : node) (data_dir : path) : list path :=
  map (fun name => adj_matrices_dir_of data_dir // name)
      (firstn 5 (csv_names n (adj_matrices_dir_of data_dir))).

(** The rows of the metadata table for the records [recs]. *)
Definition metadata_rows (recs : list matrix_record) : list (list string) :=
  map (fun r => [filename r; str_shape (mr_shape r); file_path r]) recs.

(** What [run] logs between a download and the processing. *)
Definition run_downloaded_log : list (level * string) :=
  [(SUCCESS, "Download complete!");
   (INFO, newline ++ "[Step 2/2] Processing dataset...")].

(** ** Further sample states *)

Module Cases.

(** An archive whose entries try to leave the destination. *)
Definition hostile : list member :=
  [("../../etc/passwd", Opaque "root::0:0");
   ("/tmp/absolute.txt", Opaque "absolute");
   ("Data/./a/../b.csv", Opaque "dots")].

Definition hostile_download : world := Sample.holding hostile.

(** An archive with nothing but platform artifacts. *)
Definition only_artifacts : world := Sample.holding Sample.artifacts.

(** The archive as the server sends it. *)
Definition archive_response : response :=
  {| status_code := 200;
     content_length := Some (Some 1024);
     body := Archive Sample.archive;
     broken_stream := None |}.

Definition truncated_response : response :=
  {| status_code := 200;
     content_length := None;
     body := Archive Sample.archive;
     broken_stream := Some ("PK", Exn ConnectionError "Connection broken") |}.

Definition not_found_response : response :=
  {| status_code := 404;
     content_length := None;
     body := Opaque "";
     broken_stream := None |}.

Definition serving (r : response) : world :=
  {| fs := Dir [];
     remote := fun u =>
       if String.eqb u (download_url_of "52015403") then Ok r
       else Raised (Exn ConnectionError "Name or service not known");
     requests := [];
     logged := [] |}.

(** The prevalence file is there and holds no table; two of the three
    matrices do not load. *)
Definition damaged : world :=
  Sample.world_of
    (Dir [("data",
           Dir [("1.Prevalence",
                 Dir [("Prevalence_Sex_Age_Year_ICD.csv", File (Opaque ""))]);
                ("3.AdjacencyMatrices",
                 Dir [("a.csv", File (Opaque ""));
                      ("b.csv", File Sample.adjacency_table);
                      ("c.csv", Dir [])])]);
          ("processed", Dir [])]).

(** The archive brings a prevalence file that holds no table. *)
Definition corrupt_prevalence : world :=
  Sample.holding
    [("Data/1.Prevalence/Prevalence_Sex_Age_Year_ICD.csv", Opaque "<html>")].

(** The destination has a [Data] directory from an earlier run, and the
    archive brings none. *)
Definition stale : world :=
  Sample.world_of
    (Dir [("raw", Dir [("comorbidity_networks_data.zip",
                        File (Archive [("README.txt", Opaque "read me")]))]);
          ("interim", Dir [("extracted", Dir [("Data", Dir [])])])]).

End Cases.
(** * Properties *)

Open Scope list_scope.

(** ** Invariants of computations *)

(** ** The monad *)

Section Monad.

Context {A B : Type}.

Lemma bind_ok {m : M A} (k : A -> M B) {w w' : world} {a : A} :
  m w = (Ok a, w') -> bind m k w = k a w'.
Proof. intros H. unfold bind. now rewrite H. Qed.

Lemma bind_raised {m : M A} (k : A -> M B) {w w' : world} {e : exn} :
  m w = (Raised e, w') -> bind m k w = (Raised e, w').
Proof. intros H. unfold bind. now rewrite H. Qed.

Lemma bind_inv (m : M A) (k : A -> M B) (w w2 : world) (r : result B) :
  bind m k w = (r, w2) ->
  (exists a w1, m w = (Ok a, w1) /\ k a w1 = (r, w2))
  \/ (exists e, m w = (Raised e, w2) /\ r = Raised e).
Proof.
  unfold bind. destruct (m w) as [[a | e] w1]; intros H.
  - left. now exists a, w1.
  - right. exists e. now inversion H.
Qed.

End Monad.

Lemma logger_eq (l : level) (msg : string) (w : world) :
  logger l msg w = (Ok tt, add_log w (l, msg)).
Proof. reflexivity. Qed.

Lemma path_exists_eq (p : path) (w : world) :
  path_exists p w = (Ok (FS.exists_ (fs w) p), w).
Proof. reflexivity. Qed.

Lemma add_logs_app (w : world) (l1 l2 : list (level * string)) :
  add_logs (add_logs w l1) l2 = add_logs w (l1 ++ l2).
Proof. unfold add_logs. now rewrite fold_left_app. Qed.

Lemma fs_add_logs (w : world) (l : list (level * string)) :
  fs (add_logs w l) = fs w.
Proof. revert w. induction l as [|x l IH]; intros w; [easy|]. simpl. now rewrite IH. Qed.

Lemma requests_add_logs (w : world) (l : list (level * string)) :
  requests (add_logs w l) = requests w.
Proof. revert w. induction l as [|x l IH]; intros w; [easy|]. simpl. now rewrite IH. Qed.

Lemma logged_add_logs (w : world) (l : list (level * string)) :
  logged (add_logs w l) = logged w ++ l.
Proof.
  revert w. induction l as [|x l IH]; intros w; simpl.
  - now rewrite app_nil_r.
  - rewrite IH. simpl. now rewrite <- app_assoc.
Qed.


Create HintDb offline.
Create HintDb readonly.
Create HintDb total.

Section Combinators.

Context {A B : Type}.

Lemma offline_ret (a : A) : offline (ret a).
Proof. easy. Qed.

Lemma offline_raise (e : exn) : offline (@raise A e).
Proof. easy. Qed.

Lemma offline_lift (r : result A) : offline (lift r).
Proof. easy. Qed.

Lemma offline_bind (m : M A) (k : A -> M B) :
  offline m -> (forall a, offline (k a)) -> offline (bind m k).
Proof.
  intros Hm Hk w. unfold bind. specialize (Hm w).
  destruct (m w) as [[a | e] w1]; simpl in *; [|easy].
  now rewrite Hk.
Qed.

Lemma offline_try (m : M A) (h : exn -> M A) :
  offline m -> (forall e, offline (h e)) -> offline (try_except m h).
Proof.
  intros Hm Hh w. unfold try_except. specialize (Hm w).
  destruct (m w) as [[a | e] w1]; simpl in *; [easy|].
  now rewrite Hh.
Qed.

Lemma offline_if (b : bool) (m1 m2 : M A) :
  offline m1 -> offline m2 -> offline (if b then m1 else m2).
Proof. now destruct b. Qed.

Lemma readonly_ret (a : A) : readonly (ret a).
Proof. easy. Qed.

Lemma readonly_raise (e : exn) : readonly (@raise A e).
Proof. easy. Qed.

Lemma readonly_lift (r : result A) : readonly (lift r).
Proof. easy. Qed.

Lemma readonly_bind (m : M A) (k : A -> M B) :
  readonly m -> (forall a, readonly (k a)) -> readonly (bind m k).
Proof.
  intros Hm Hk w. unfold bind. specialize (Hm w).
  destruct (m w) as [[a | e] w1]; simpl in *; [|easy].
  now rewrite Hk.
Qed.

Lemma readonly_try (m : M A) (h : exn -> M A) :
  readonly m -> (forall e, readonly (h e)) -> readonly (try_except m h).
Proof.
  intros Hm Hh w. unfold try_except. specialize (Hm w).
  destruct (m w) as [[a | e] w1]; simpl in *; [easy|].
  now rewrite Hh.
Qed.

Lemma readonly_if (b : bool) (m1 m2 : M A) :
  readonly m1 -> readonly m2 -> readonly (if b then m1 else m2).
Proof. now destruct b. Qed.

Lemma total_ret (a : A) : total (ret a).
Proof. intros w. now exists a, w. Qed.

Lemma total_bind (m : M A) (k : A -> M B) :
  total m -> (forall a, total (k a)) -> total (bind m k).
Proof.
  intros Hm Hk w. destruct (Hm w) as (a & w1 & H1).
  destruct (Hk a w1) as (b & w2 & H2). exists b, w2.
  now rewrite (bind_ok k H1).
Qed.

Lemma total_try (m : M A) (h : exn -> M A) :
  (forall e, total (h e)) -> total (try_except m h).
Proof.
  intros Hh w. unfold try_except. destruct (m w) as [[a | e] w1].
  - now exists a, w1.
  - apply Hh.
Qed.

Lemma total_if (b : bool) (m1 m2 : M A) :
  total m1 -> total m2 -> total (if b then m1 else m2).
Proof. now destruct b. Qed.

End Combinators.

Lemma offline_logger l msg : offline (logger l msg).
Proof. easy. Qed.

Lemma offline_get_fs : offline get_fs.
Proof. easy. Qed.

Lemma offline_fs_op f : offline (fs_op f).
Proof. intros w. unfold fs_op, bind, get_fs. now destruct (f (fs w)). Qed.

Lemma readonly_logger l msg : readonly (logger l msg).
Proof. easy. Qed.

Lemma readonly_get_fs : readonly get_fs.
Proof. easy. Qed.

Lemma total_logger l msg : total (logger l msg).
Proof. intros w. now eexists _, _. Qed.

Lemma total_get_fs : total get_fs.
Proof. intros w. now eexists _, _. Qed.

#[export] Hint Resolve offline_ret offline_raise offline_lift offline_bind
  offline_try offline_if offline_logger offline_get_fs offline_fs_op : offline.
#[export] Hint Resolve readonly_ret readonly_raise readonly_lift readonly_bind
  readonly_try readonly_if readonly_logger readonly_get_fs : readonly.
#[export] Hint Resolve total_ret total_bind total_try total_if total_logger
  total_get_fs : total.

Ltac combinators :=
  repeat (intros;
          match goal with
          | |- offline (bind _ _) => apply offline_bind
          | |- readonly (bind _ _) => apply readonly_bind
          | |- total (bind _ _) => apply total_bind
          | |- offline (try_except _ _) => apply offline_try
          | |- readonly (try_except _ _) => apply readonly_try
          | |- total (try_except _ _) => apply total_try
          | |- context [match ?x with _ => _ end] => destruct x
          | _ => solve [auto with offline readonly total]
          end).

Lemma offline_path_exists p : offline (path_exists p).
Proof. easy. Qed.

Lemma readonly_path_exists p : readonly (path_exists p).
Proof. easy. Qed.

Lemma total_path_exists p : total (path_exists p).
Proof. intros w. now eexists _, _. Qed.

Lemma offline_read_csv p : offline (read_csv p).
Proof. unfold read_csv. combinators. Qed.

Lemma readonly_read_csv p : readonly (read_csv p).
Proof. unfold read_csv. combinators. Qed.

Lemma offline_to_csv df p i : offline (to_csv df p i).
Proof. unfold to_csv. combinators. Qed.

Lemma offline_mkdir_parents p : offline (mkdir_parents p).
Proof. unfold mkdir_parents. auto with offline. Qed.

#[export] Hint Resolve offline_path_exists offline_read_csv offline_to_csv
  offline_mkdir_parents : offline.
#[export] Hint Resolve readonly_path_exists readonly_read_csv : readonly.
#[export] Hint Resolve total_path_exists : total.

(** ** The file system *)

Module FSFacts.

Import FS.

Lemma assoc_put_same (k : string) (n : node) (es : entries) :
  assoc k (put k n es) = Some n.
Proof.
  induction es as [|[k' n'] es IH]; simpl.
  - now rewrite String.eqb_refl.
  - destruct (String.eqb k k') eqn:E; simpl; rewrite E; [reflexivity | exact IH].
Qed.

Lemma assoc_put_other (k k' : string) (n : node) (es : entries) :
  k' <> k -> assoc k' (put k n es) = assoc k' es.
Proof.
  intros Hne. induction es as [|[k0 n0] es IH]; simpl.
  - apply String.eqb_neq in Hne. now rewrite Hne.
  - destruct (String.eqb k k0) eqn:E; simpl.
    + apply String.eqb_eq in E. subst k0.
      apply String.eqb_neq in Hne. now rewrite Hne.
    + destruct (String.eqb k' k0); [reflexivity | exact IH].
Qed.

Lemma lookup_opt_none (p : path) : lookup_opt None p = None.
Proof. now destruct p. Qed.

Lemma lookup_opt_file (d : filedata) (p : path) :
  p <> [] -> lookup_opt (Some (File d)) p = None.
Proof. now destruct p. Qed.

Lemma lookup_opt_app (o : option node) (p q : path) :
  lookup_opt o (p ++ q) = lookup_opt (lookup_opt o p) q.
Proof.
  revert o. induction p as [|c p IH]; intros o; simpl; [reflexivity|].
  destruct o as [[d | es]|]; try (now rewrite lookup_opt_none).
  apply IH.
Qed.

Lemma lookup_fresh_dirs (p : path) :
  lookup_opt (Some (fresh_dirs p)) p = Some (Dir []).
Proof.
  induction p as [|c p IH]; simpl; [reflexivity|].
  now rewrite String.eqb_refl.
Qed.


Section Alter.

Variable full : path.
Variable g : option node -> result node.

Lemma alter_target (p : path) (o : option node) (x : node) :
  alter full p g o = Ok x ->
  exists y, g (lookup_opt o p) = Ok y /\ lookup_opt (Some x) p = Some y.
Proof.
  revert o x. induction p as [|c p IH]; intros o x H; simpl in *.
  - now exists x.
  - destruct o as [[d | es]|]; try discriminate.
    destruct (alter full p g (assoc c es)) as [x' |] eqn:E; [|discriminate].
    inversion H; subst x. rewrite assoc_put_same. now apply IH.
Qed.

Lemma alter_file_other (p q : path) (o : option node) (x : node) (d : filedata) :
  keeps_dirs g ->
  alter full p g o = Ok x ->
  lookup_opt o q = Some (File d) -> q <> p ->
  lookup_opt (Some x) q = Some (File d).
Proof.
  intros Hg. revert o x q. induction p as [|c p IH]; intros o x q H Hq Hne; simpl in *.
  - destruct q as [|k q]; [congruence|]. simpl in Hq.
    destruct o as [[d0 | es]|]; try discriminate.
    exfalso. eapply Hg. exact H.
  - destruct o as [[d0 | es]|]; try discriminate.
    destruct (alter full p g (assoc c es)) as [x' |] eqn:E; [|discriminate].
    inversion H; subst x.
    destruct q as [|k q]; [discriminate|]. simpl in *.
    destruct (string_dec k c) as [-> | Hk].
    + rewrite assoc_put_same. eapply IH; eauto. congruence.
    + now rewrite assoc_put_other.
Qed.

Lemma alter_dir (p q : path) (o : option node) (x : node) (es : entries) :
  keeps_dirs g ->
  alter full p g o = Ok x ->
  lookup_opt o q = Some (Dir es) ->
  exists es', lookup_opt (Some x) q = Some (Dir es').
Proof.
  intros Hg. revert o x q. induction p as [|c p IH]; intros o x q H Hq; simpl in *.
  - exfalso. destruct q as [|k q]; simpl in Hq.
    + subst o. eapply Hg. exact H.
    + destruct o as [[d0 | es0]|]; try discriminate. eapply Hg. exact H.
  - destruct o as [[d0 | es0]|]; try discriminate.
    destruct (alter full p g (assoc c es0)) as [x' |] eqn:E; [|discriminate].
    inversion H; subst x.
    destruct q as [|k q]; simpl in *; [eauto|].
    destruct (string_dec k c) as [-> | Hk].
    + rewrite assoc_put_same. eapply IH; eauto.
    + rewrite assoc_put_other by assumption. eauto.
Qed.

Lemma alter_succeeds (p : path) (name : string) (o : option node)
  (es : entries) (y : node) :
  lookup_opt o p = Some (Dir es) ->
  g (assoc name es) = Ok y ->
  exists x, alter full (p ++ [name]) g o = Ok x.
Proof.
  revert o. induction p as [|c p IH]; intros o Hp Hy; simpl in *.
  - subst o. rewrite Hy. eauto.
  - destruct o as [[d0 | es0]|]; try discriminate.
    destruct (IH _ Hp Hy) as (x & ->). eauto.
Qed.

End Alter.

Lemma write_keeps_dirs (p : path) (d : filedata) :
  keeps_dirs (fun o => match o with
                       | Some (Dir _) => Raised (eisdir p)
                       | _ => Ok (File d)
                       end).
Proof. intros es y H. discriminate. Qed.

Lemma mkdir_keeps_dirs (p : path) :
  keeps_dirs (fun o => match o with
                       | Some _ => Raised (eexist p)
                       | None => Ok (Dir [])
                       end).
Proof. intros es y H. discriminate. Qed.

Lemma write_file_same (n n' : node) (p : path) (d : filedata) :
  write_file n p d = Ok n' -> lookup n' p = Some (File d).
Proof.
  intros H. apply alter_target in H. destruct H as (y & Hy & Hl).
  unfold lookup. rewrite Hl. f_equal.
  destruct (lookup_opt (Some n) p) as [[|]|]; congruence.
Qed.

Lemma write_file_other (n n' : node) (p q : path) (d d0 : filedata) :
  write_file n p d = Ok n' ->
  lookup n q = Some (File d0) -> q <> p -> lookup n' q = Some (File d0).
Proof. intros H. eapply alter_file_other; eauto using write_keeps_dirs. Qed.

Lemma write_file_dir (n n' : node) (p q : path) (d : filedata) :
  write_file n p d = Ok n' -> is_dir n q = true -> is_dir n' q = true.
Proof.
  unfold is_dir, lookup. intros H Hq.
  destruct (lookup_opt (Some n) q) as [[|es]|] eqn:E; try discriminate.
  destruct (alter_dir _ _ _ _ _ _ _ (write_keeps_dirs p d) H E) as (es' & ->).
  reflexivity.
Qed.

Lemma write_file_succeeds (n : node) (o : path) (name : string) (d : filedata) :
  is_dir n o = true -> is_dir n (o ++ [name]) = false ->
  exists n', write_file n (o ++ [name]) d = Ok n'.
Proof.
  unfold is_dir, lookup. intros Ho Ht.
  destruct (lookup_opt (Some n) o) as [[|es]|] eqn:E; try discriminate.
  rewrite lookup_opt_app, E in Ht. simpl in Ht.
  unfold write_file.
  eapply alter_succeeds with (y := File d); [exact E|].
  destruct (assoc name es) as [[|]|]; congruence.
Qed.

Lemma mkdir_is_dir (n n' : node) (p : path) :
  mkdir n p = Ok n' -> is_dir n' p = true.
Proof.
  intros H. apply alter_target in H. destruct H as (y & Hy & Hl).
  unfold is_dir, lookup. rewrite Hl.
  destruct (lookup_opt (Some n) p); now inversion Hy.
Qed.

Lemma mkdir_file (n n' : node) (p q : path) (d0 : filedata) :
  mkdir n p = Ok n' -> lookup n q = Some (File d0) -> lookup n' q = Some (File d0).
Proof.
  intros H Hq. eapply alter_file_other; eauto using mkdir_keeps_dirs.
  intros ->. apply alter_target in H. destruct H as (y & Hy & _).
  unfold lookup in Hq. rewrite Hq in Hy. discriminate.
Qed.

Lemma mkdir_dir (n n' : node) (p q : path) :
  mkdir n p = Ok n' -> is_dir n q = true -> is_dir n' q = true.
Proof.
  unfold is_dir, lookup. intros H Hq.
  destruct (lookup_opt (Some n) q) as [[|es]|] eqn:E; try discriminate.
  destruct (alter_dir _ _ _ _ _ _ _ (mkdir_keeps_dirs p) H E) as (es' & ->).
  reflexivity.
Qed.

Section Makedirs.

Variable full : path.

Lemma makedirs_opt_target (p : path) (o : option node) (x : node) :
  makedirs_opt full p o = Ok x ->
  exists es, lookup_opt (Some x) p = Some (Dir es).
Proof.
  revert o x. induction p as [|c p IH]; intros o x H.
  - destruct o as [[d | es]|]; simpl in *; inversion H; eauto.
  - destruct o as [[d | es]|]; simpl in H; try discriminate.
    + destruct (makedirs_opt full p (assoc c es)) as [x' |] eqn:E; [|discriminate].
      inversion H; subst x. simpl. rewrite assoc_put_same. eauto.
    + inversion H; subst x. exists []. apply (lookup_fresh_dirs (c :: p)).
Qed.

Lemma makedirs_opt_file (p q : path) (o : option node) (x : node) (d : filedata) :
  makedirs_opt full p o = Ok x ->
  lookup_opt o q = Some (File d) -> lookup_opt (Some x) q = Some (File d).
Proof.
  revert o x q. induction p as [|c p IH]; intros o x q H Hq.
  - destruct o as [[d0 | es]|]; simpl in H; try discriminate.
    + now inversion H; subst x.
    + now rewrite lookup_opt_none in Hq.
  - destruct o as [[d0 | es]|]; simpl in H; try discriminate.
    + destruct (makedirs_opt full p (assoc c es)) as [x' |] eqn:E; [|discriminate].
      inversion H; subst x.
      destruct q as [|k q]; [discriminate|]. simpl in *.
      destruct (string_dec k c) as [-> | Hk].
      * rewrite assoc_put_same. eauto.
      * now rewrite assoc_put_other.
    + now rewrite lookup_opt_none in Hq.
Qed.

Lemma makedirs_opt_dir (p q : path) (o : option node) (x : node) (es : entries) :
  makedirs_opt full p o = Ok x ->
  lookup_opt o q = Some (Dir es) ->
  exists es', lookup_opt (Some x) q = Some (Dir es').
Proof.
  revert o x q. induction p as [|c p IH]; intros o x q H Hq.
  - destruct o as [[d0 | es0]|]; simpl in H; try discriminate.
    + inversion H; subst x. eauto.
    + now rewrite lookup_opt_none in Hq.
  - destruct o as [[d0 | es0]|]; simpl in H; try discriminate.
    + destruct (makedirs_opt full p (assoc c es0)) as [x' |] eqn:E; [|discriminate].
      inversion H; subst x.
      destruct q as [|k q]; simpl in *; [eauto|].
      destruct (string_dec k c) as [-> | Hk].
      * rewrite assoc_put_same. eauto.
      * rewrite assoc_put_other by assumption. eauto.
    + now rewrite lookup_opt_none in Hq.
Qed.

End Makedirs.

Lemma makedirs_is_dir (n n' : node) (p : path) :
  makedirs n p = Ok n' -> is_dir n' p = true.
Proof.
  intros H. apply makedirs_opt_target in H. destruct H as (es & H).
  unfold is_dir, lookup. now rewrite H.
Qed.

Lemma makedirs_file (n n' : node) (p q : path) (d : filedata) :
  makedirs n p = Ok n' -> lookup n q = Some (File d) -> lookup n' q = Some (File d).
Proof. apply makedirs_opt_file. Qed.

Lemma makedirs_dir (n n' : node) (p q : path) :
  makedirs n p = Ok n' -> is_dir n q = true -> is_dir n' q = true.
Proof.
  unfold is_dir, lookup. intros H Hq.
  destruct (lookup_opt (Some n) q) as [[|es]|] eqn:E; try discriminate.
  destruct (makedirs_opt_dir _ _ _ _ _ _ H E) as (es' & ->). reflexivity.
Qed.

Lemma parent_div (p : path) (name : string) : Path.parent (p // name) = p.
Proof. apply removelast_last. Qed.

Lemma name_div (p : path) (name : string) : Path.name (p // name) = name.
Proof. apply last_last. Qed.

End FSFacts.

(** ** Only the fetcher touches the network *)

Lemma offline_for_each {A : Type} (xs : list A) (body : A -> M unit) :
  (forall x, offline (body x)) -> offline (for_each xs body).
Proof. intros H. induction xs; simpl; auto with offline. Qed.

Lemma offline_ZipFile p : offline (ZipFile p).
Proof. unfold ZipFile. combinators. Qed.

Lemma offline_extract ms name dest : offline (extract ms name dest).
Proof. unfold extract. combinators. Qed.

#[export] Hint Resolve offline_for_each offline_ZipFile offline_extract : offline.

Lemma offline_extract_zip z e : offline (extract_zip z e).
Proof. unfold extract_zip. combinators. Qed.

Lemma offline_sample_matrices d fs acc : offline (sample_matrices d fs acc).
Proof.
  revert acc. induction fs as [|f fs IH]; intros acc; simpl; [auto with offline|].
  unfold sample_matrix. combinators.
Qed.

Lemma offline_glob_csv d : offline (glob_csv d).
Proof. unfold glob_csv. combinators. Qed.

#[export] Hint Resolve offline_extract_zip offline_sample_matrices
  offline_glob_csv : offline.

Lemma offline_process_prevalence p o : offline (process_prevalence p o).
Proof. unfold process_prevalence. combinators. Qed.

Lemma offline_process_adjacency d a o : offline (process_adjacency d a o).
Proof. unfold process_adjacency. combinators. Qed.

Lemma offline_report_structure d p a o : offline (report_structure d p a o).
Proof. unfold report_structure. combinators. Qed.

#[export] Hint Resolve offline_process_prevalence offline_process_adjacency
  offline_report_structure : offline.

Lemma offline_process_dataset i o e : offline (process_dataset i o e).
Proof. unfold process_dataset. combinators. Qed.

(** ** The orchestrator *)

Open Scope string_scope.


(** C6.  When the download path exists and [skip_download] is false,
    [run] logs a warning and hands the unchanged file system to
    [process_dataset] without having issued a request, and the whole run
    issues none.  When [skip_download] is true and the download path is
    absent, [run] raises [FileNotFoundError] right after the check: the
    file system is untouched and nothing of step 2 has been logged. *)
Theorem run_download_step (lib : urllib) (url : string)
  (download_path extract_to output_dir : path) (w : world) :
  (FS.exists_ (fs w) download_path = true ->
   let w1 :=
     add_logs w
       (app run_prologue
        [(INFO, newline ++ "[Step 1/2] Downloading dataset from figshare...");
         (WARNING, "File already exists: " ++ Path.str download_path);
         (INFO, "Skipping download, using existing file.");
         (INFO, "To force re-download, delete the file or use --skip-download=False");
         (INFO, newline ++ "[Step 2/2] Processing dataset...")]) in
   run lib url download_path extract_to output_dir false w
   = run_epilogue download_path extract_to output_dir
       (process_dataset download_path output_dir extract_to w1)
   /\ fs w1 = fs w /\ requests w1 = requests w
   /\ requests (snd (run lib url download_path extract_to output_dir false w))
      = requests w)
  /\
  (FS.exists_ (fs w) download_path = false ->
   run lib url download_path extract_to output_dir true w
   = (Raised (Exn FileNotFoundError
                ("Download file not found: " ++ Path.str download_path)),
      add_logs w
        (app run_prologue
         [(INFO, newline ++ "[Step 1/2] Skipping download (skip_download=True)");
          (ERROR, "Download file not found: " ++ Path.str download_path);
          (INFO, "Set skip_download=False or download the file first.")]))).
Proof.
  split; intros H.
  - assert (E : forall w1,
      requests (snd (run_epilogue download_path extract_to output_dir
                       (process_dataset download_path output_dir extract_to w1)))
      = requests w1).
    { intros w1. pose proof (offline_process_dataset download_path output_dir extract_to w1) as Hp.
      destruct (process_dataset download_path output_dir extract_to w1) as [[[] | e] w2];
        simpl in *; exact Hp. }
    assert (R : run lib url download_path extract_to output_dir false w
      = run_epilogue download_path extract_to output_dir
          (process_dataset download_path output_dir extract_to
             (add_logs w
               (app run_prologue
                [(INFO, newline ++ "[Step 1/2] Downloading dataset from figshare...");
                 (WARNING, "File already exists: " ++ Path.str download_path);
                 (INFO, "Skipping download, using existing file.");
                 (INFO, "To force re-download, delete the file or use --skip-download=False");
                 (INFO, newline ++ "[Step 2/2] Processing dataset...")])))).
    { unfold run, run_epilogue.
      cbv beta iota delta [bind logger path_exists get_fs ret try_except negb].
      cbn [fs add_log]. rewrite H.
      cbv beta iota delta [bind logger ret].
      unfold run_prologue, add_logs. cbv beta iota delta [app fold_left].
      destruct (process_dataset _ _ _ _) as [[[] | e] w2]; reflexivity. }
    cbv zeta. split; [exact R|]. split; [apply fs_add_logs|].
    split; [apply requests_add_logs|].
    rewrite R, E. apply requests_add_logs.
  - unfold run.
    cbv beta iota delta [bind logger path_exists get_fs ret try_except negb raise].
    cbn [fs add_log]. rewrite H. reflexivity.
Qed.

(** ** The extractor's return value *)

Lemma extract_zip_unpack (z e : path) (w : world) :
  extract_zip z e w
  = match unpack z e w with
    | (Ok _, w1) =>
        if FS.exists_ (fs w1) (e // "Data")
        then (Ok (e // "Data"),
              add_log w1 (SUCCESS, "Extracted data to " ++ Path.str (e // "Data")))
        else (Ok e,
              add_log w1 (WARNING, "Data directory not found in " ++ Path.str e))
    | (Raised ex, w1) => (Raised ex, w1)
    end.
Proof.
  cbv beta iota zeta delta [extract_zip unpack bind logger path_exists get_fs ret].
  destruct (mkdir_parents e _) as [[[] | ex] w2]; [|reflexivity].
  destruct (ZipFile z w2) as [[ms | ex] w3]; [|reflexivity].
  destruct (for_each _ _ w3) as [[[] | ex] w4]; [|reflexivity].
  destruct (FS.exists_ (fs w4) (e // "Data")); reflexivity.
Qed.

(** C8.  Once the entries are extracted, [extract_zip] returns
    [extract_to / "Data"], a path whose last component is [Data], when
    that path exists, and [extract_to] itself with a warning logged when
    it does not; it raises only what the extraction raised. *)
Theorem extract_zip_returns (zip_path extract_to : path) (w : world) :
  match unpack zip_path extract_to w with
  | (Ok _, w1) =>
      if FS.exists_ (fs w1) (extract_to // "Data")
      then exists p,
             extract_zip zip_path extract_to w
             = (Ok p, add_log w1 (SUCCESS, "Extracted data to " ++ Path.str p))
             /\ p = extract_to // "Data" /\ Path.name p = "Data"
      else extract_zip zip_path extract_to w
           = (Ok extract_to,
              add_log w1 (WARNING, "Data directory not found in "
                                   ++ Path.str extract_to))
  | (Raised ex, w1) => extract_zip zip_path extract_to w = (Raised ex, w1)
  end.
Proof.
  rewrite extract_zip_unpack.
  destruct (unpack zip_path extract_to w) as [[[] | ex] w1]; [|reflexivity].
  destruct (FS.exists_ (fs w1) (extract_to // "Data")); [|reflexivity].
  exists (extract_to // "Data"). repeat split. apply FSFacts.name_div.
Qed.

(** ** Which errors leave [process_dataset] *)

Lemma total_process_prevalence p o : total (process_prevalence p o).
Proof. unfold process_prevalence. combinators. Qed.

Lemma total_sample_matrix d f acc : total (sample_matrix d f acc).
Proof. unfold sample_matrix. combinators. Qed.

Lemma total_sample_matrices d fs acc : total (sample_matrices d fs acc).
Proof.
  revert acc. induction fs as [|f fs IH]; intros acc; simpl.
  - auto with total.
  - apply total_bind; [apply total_sample_matrix | auto].
Qed.

Lemma total_glob_csv d : total (glob_csv d).
Proof. unfold glob_csv. combinators. Qed.

Lemma total_report_structure d p a o : total (report_structure d p a o).
Proof. unfold report_structure. combinators. Qed.

#[export] Hint Resolve total_process_prevalence total_sample_matrices
  total_glob_csv total_report_structure : total.

Lemma total_not_raised {A : Type} (m : M A) (w w' : world) (e : exn) :
  total m -> m w = (Raised e, w') -> False.
Proof. intros Ht H. destruct (Ht w) as (a & w1 & H1). congruence. Qed.

(** When the adjacency step raises, the write of the metadata table did. *)
Lemma process_adjacency_raised (d a o : path) (w w' : world) (ex : exn) :
  process_adjacency d a o w = (Raised ex, w') ->
  exists df w1,
    to_csv df (o // "adjacency_matrices_metadata.csv") false w1 = (Raised ex, w').
Proof.
  unfold process_adjacency. intros H.
  apply bind_inv in H. destruct H as [(b & w1 & H1 & H) | (e & H1 & _)];
    [|now apply total_not_raised in H1; auto with total].
  destruct b; [|discriminate].
  apply bind_inv in H. destruct H as [([] & w2 & H2 & H) | (e & H2 & _)];
    [|discriminate].
  apply bind_inv in H. destruct H as [(fs & w3 & H3 & H) | (e & H3 & _)];
    [|now apply total_not_raised in H3; auto with total].
  destruct fs as [|f fs]; [discriminate|].
  apply bind_inv in H. destruct H as [([] & w4 & H4 & H) | (e & H4 & _)];
    [|discriminate].
  apply bind_inv in H. destruct H as [(recs & w5 & H5 & H) | (e & H5 & _)];
    [|now apply total_not_raised in H5; auto with total].
  destruct recs as [|r recs]; [discriminate|].
  apply bind_inv in H. destruct H as [([] & w6 & H6 & H) | (e & H6 & E)];
    [discriminate|].
  inversion E; subst. eauto.
Qed.

(** The claim of C2 fails: the download path exists, it does not hold an
    archive, and [zipfile.BadZipFile] leaves [process_dataset]. *)
Lemma process_dataset_bad_archive :
  FS.exists_ (fs Sample.not_an_archive) Sample.raw_zip = true
  /\ fst (process_dataset Sample.raw_zip Sample.processed Sample.extracted
            Sample.not_an_archive)
     = Raised (Exn BadZipFile "File is not a zip file").
Proof. split; reflexivity. Qed.

(** C2, amended.  When the input path does not exist, [process_dataset]
    raises [FileNotFoundError] at once and the file system is as it was.
    When it exists, what [extract_zip] raises leaves [process_dataset]
    unchanged, and an error that leaves it was raised either by
    [extract_zip] or by the write of the metadata table: the prevalence
    step and the loading of the sampled matrices raise nothing. *)
Theorem process_dataset_fatal (input_path output_dir extract_to : path) (w : world) :
  (FS.exists_ (fs w) input_path = false ->
   process_dataset input_path output_dir extract_to w
   = (Raised (Exn FileNotFoundError
                ("Input file not found: " ++ Path.str input_path)),
      add_logs w
        [(ERROR, "Input file not found: " ++ Path.str input_path);
         (INFO, "Run 'python -m tapas.dataset download' first to download the dataset.")])
   /\ fs (snd (process_dataset input_path output_dir extract_to w)) = fs w)
  /\
  (FS.exists_ (fs w) input_path = true ->
   let w0 := add_log w (INFO, "Starting dataset processing...") in
   (forall ex w1,
      extract_zip input_path extract_to w0 = (Raised ex, w1) ->
      process_dataset input_path output_dir extract_to w = (Raised ex, w1))
   /\
   (forall ex w',
      process_dataset input_path output_dir extract_to w = (Raised ex, w') ->
      extract_zip input_path extract_to w0 = (Raised ex, w')
      \/ exists df w1,
           to_csv df (output_dir // "adjacency_matrices_metadata.csv") false w1
           = (Raised ex, w'))).
Proof.
  split; intros Hex.
  - assert (E : process_dataset input_path output_dir extract_to w
      = (Raised (Exn FileNotFoundError
                   ("Input file not found: " ++ Path.str input_path)),
         add_logs w
           [(ERROR, "Input file not found: " ++ Path.str input_path);
            (INFO, "Run 'python -m tapas.dataset download' first to download the dataset.")])).
    { unfold process_dataset. rewrite (bind_ok _ (path_exists_eq _ _)), Hex.
      reflexivity. }
    split; [exact E|]. now rewrite E.
  - cbv zeta. unfold process_dataset.
    rewrite (bind_ok _ (path_exists_eq _ _)), Hex. cbn [negb].
    rewrite (bind_ok _ (logger_eq _ _ _)). split.
    + intros ex w1 H. now rewrite (bind_raised _ H).
    + intros ex w' H.
      apply bind_inv in H. destruct H as [(d & w1 & H1 & H) | (e & H1 & E)];
        [|inversion E; subst; now left].
      right.
      apply bind_inv in H. destruct H as [([] & w2 & H2 & H) | (e & H2 & _)];
        [|now apply total_not_raised in H2; auto with total].
      apply bind_inv in H. destruct H as [([] & w3 & H3 & H) | (e & H3 & E)].
      * now apply total_not_raised in H; auto with total.
      * inversion E; subst. eapply process_adjacency_raised; eauto.
Qed.

(** ** The transformer's steps *)

Lemma glob_csv_eq (dir : path) (w : world) :
  glob_csv dir w = (Ok (map (fun name => dir // name) (csv_names (fs w) dir)), w).
Proof. reflexivity. Qed.

Lemma read_csv_eq (p : path) (w : world) :
  read_csv p w
  = (match FS.lookup (fs w) p with
     | None => Raised (FS.enoent p)
     | Some (Dir _) => Raised (FS.eisdir p)
     | Some (File (Table cols rows)) => Ok {| df_columns := cols; df_rows := rows |}
     | Some (File _) => Raised (Exn ParserError "Error tokenizing data")
     end, w).
Proof.
  unfold read_csv, bind, get_fs.
  destruct (FS.lookup (fs w) p) as [[[]|]|]; reflexivity.
Qed.

Lemma read_csv_table (p : path) (w : world)
  (cols : list string) (rows : list (list string)) :
  FS.lookup (fs w) p = Some (File (Table cols rows)) ->
  read_csv p w = (Ok {| df_columns := cols; df_rows := rows |}, w).
Proof. intros H. now rewrite read_csv_eq, H. Qed.

Lemma sample_matrix_eq (d f : path) (acc : list matrix_record) (w : world) :
  sample_matrix d f acc w
  = match load_matrix (fs w) d f with
    | Ok r => (Ok (acc ++ [r])%list, w)
    | Raised e =>
        (Ok acc,
         add_log w (WARNING, "Error processing " ++ Path.name f ++ ": " ++ exn_msg e))
    end.
Proof.
  unfold sample_matrix, try_except, load_matrix.
  rewrite (bind_ok _ (read_csv_eq f w)) || unfold bind at 1; rewrite ?read_csv_eq.
  destruct (FS.lookup (fs w) f) as [[[]|]|]; try reflexivity.
  unfold bind, lift. destruct (Path.relative_to f d); reflexivity.
Qed.

Lemma readonly_sample_matrices d fs acc : readonly (sample_matrices d fs acc).
Proof.
  revert acc. induction fs as [|f fs IH]; intros acc; simpl; [auto with readonly|].
  unfold sample_matrix. combinators.
Qed.

Lemma readonly_glob_csv d : readonly (glob_csv d).
Proof. easy. Qed.

Lemma readonly_report_structure d p a o : readonly (report_structure d p a o).
Proof. unfold report_structure. combinators. Qed.

#[export] Hint Resolve readonly_sample_matrices readonly_glob_csv
  readonly_report_structure : readonly.

(** When every file loads, the loop returns their records in order and
    leaves the state as it was. *)
Lemma sample_matrices_all (d : path) (files : list path)
  (recs acc : list matrix_record) (w : world) :
  Forall2 (fun f r => load_matrix (fs w) d f = Ok r) files recs ->
  sample_matrices d files acc w = (Ok (acc ++ recs)%list, w).
Proof.
  intros H. revert acc. induction H as [|f r files recs Hf _ IH]; intros acc; simpl.
  - now rewrite app_nil_r.
  - unfold bind. rewrite sample_matrix_eq, Hf, IH. now rewrite <- app_assoc.
Qed.

(** A file that loads leaves a record, whatever the other files do. *)
Lemma sample_matrices_some (d : path) (files : list path)
  (acc : list matrix_record) (w : world) (f : path) (r : matrix_record) :
  In f files -> load_matrix (fs w) d f = Ok r ->
  exists recs w', sample_matrices d files acc w = (Ok recs, w')
                  /\ recs <> [] /\ fs w' = fs w.
Proof.
  intros Hin Hl.
  assert (G : forall files acc w, acc <> [] ->
            exists recs w', sample_matrices d files acc w = (Ok recs, w')
                            /\ recs <> [] /\ fs w' = fs w).
  { clear. induction files as [|f files IH]; intros acc w Hacc; simpl.
    - now exists acc, w.
    - unfold bind. rewrite sample_matrix_eq.
      destruct (load_matrix (fs w) d f) as [r | e].
      + apply IH. now destruct acc.
      + destruct (IH acc (add_log w (WARNING,
            "Error processing " ++ Path.name f ++ ": " ++ exn_msg e)) Hacc)
          as (recs & w' & H1 & H2 & H3). now exists recs, w'. }
  revert acc w Hl. induction files as [|f0 files IH]; intros acc w Hl; [easy|].
  simpl. unfold bind. rewrite sample_matrix_eq.
  destruct Hin as [-> | Hin].
  - rewrite Hl. apply G. now destruct acc.
  - destruct (load_matrix (fs w) d f0) as [r0 | e].
    + apply G. now destruct acc.
    + destruct (IH Hin acc (add_log w (WARNING,
          "Error processing " ++ Path.name f0 ++ ": " ++ exn_msg e)) Hl)
        as (recs & w' & H1 & H2 & H3). now exists recs, w'.
Qed.

Lemma relative_to_app (base rel : path) : Path.relative_to (base ++ rel)%list base = Ok rel.
Proof.
  induction base as [|b base IH]; simpl; [now destruct rel|].
  now rewrite String.eqb_refl.
Qed.

(** What the loop records for a table found below the adjacency directory. *)
Lemma load_matrix_table (n : node) (d : path) (name : string)
  (cols : list string) (rows : list (list string)) :
  FS.lookup n (adj_matrices_dir_of d // name) = Some (File (Table cols rows)) ->
  load_matrix n d (adj_matrices_dir_of d // name)
  = Ok {| filename := name;
          mr_shape := (length rows, length cols);
          file_path := "3.AdjacencyMatrices/" ++ name |}.
Proof.
  intros H. unfold load_matrix. rewrite H.
  unfold adj_matrices_dir_of, Path.div at 1 2. rewrite <- app_assoc, relative_to_app.
  now rewrite FSFacts.name_div.
Qed.

(** [to_csv] into a directory that exists. *)
Lemma to_csv_ok (df : DataFrame) (o : path) (name : string) (index : bool) (w : world) :
  FS.is_dir (fs w) o = true -> FS.is_dir (fs w) (o // name) = false ->
  exists n',
    to_csv df (o // name) index w = (Ok tt, with_fs w n')
    /\ FS.write_file (fs w) (o // name) (csv_of df index) = Ok n'.
Proof.
  intros Ho Ht. unfold to_csv. rewrite FSFacts.parent_div.
  unfold bind at 1, get_fs. rewrite Ho.
  destruct (FSFacts.write_file_succeeds (fs w) o name (csv_of df index) Ho Ht)
    as (n' & Hw).
  exists n'. split; [|exact Hw].
  unfold fs_op, bind, get_fs. unfold Path.div. now rewrite Hw.
Qed.

(** [to_csv] into a directory that does not exist. *)
Lemma to_csv_no_dir (df : DataFrame) (o : path) (name : string) (index : bool) (w : world) :
  FS.is_dir (fs w) o = false ->
  to_csv df (o // name) index w
  = (Raised (Exn OSError ("Cannot save file into a non-existent directory: '"
                          ++ Path.str o ++ "'")), w).
Proof.
  intros Ho. unfold to_csv. rewrite FSFacts.parent_div.
  unfold bind, get_fs. now rewrite Ho.
Qed.

Create HintDb keeps.

Section KeepsFile.

Variable q : path.
Variable x : filedata.

Lemma keeps_file_readonly {A : Type} (m : M A) : readonly m -> keeps_file q x m.
Proof. intros H w Hq. now rewrite H. Qed.

Lemma keeps_file_bind {A B : Type} (m : M A) (k : A -> M B) :
  keeps_file q x m -> (forall a, keeps_file q x (k a)) -> keeps_file q x (bind m k).
Proof.
  intros Hm Hk w Hq. unfold bind. specialize (Hm w Hq).
  destruct (m w) as [[a | e] w1]; simpl in *; [|exact Hm].
  now apply Hk.
Qed.

Lemma keeps_file_try {A : Type} (m : M A) (h : exn -> M A) :
  keeps_file q x m -> (forall e, keeps_file q x (h e)) -> keeps_file q x (try_except m h).
Proof.
  intros Hm Hh w Hq. unfold try_except. specialize (Hm w Hq).
  destruct (m w) as [[a | e] w1]; simpl in *; [exact Hm|].
  now apply Hh.
Qed.

Lemma keeps_file_to_csv (df : DataFrame) (p : path) (index : bool) :
  q <> p -> keeps_file q x (to_csv df p index).
Proof.
  intros Hne w Hq. unfold to_csv, bind, get_fs, fs_op, bind, get_fs.
  destruct (FS.is_dir (fs w) (Path.parent p)); [|exact Hq].
  destruct (FS.write_file (fs w) p (csv_of df index)) as [n' |] eqn:E; [|exact Hq].
  simpl. eapply FSFacts.write_file_other; eauto.
Qed.

Lemma keeps_file_process_adjacency (d a o : path) :
  q <> o // metadata_name -> keeps_file q x (process_adjacency d a o).
Proof.
  intros Hne. unfold process_adjacency.
  repeat (intros;
          match goal with
          | |- keeps_file _ _ (bind _ _) => apply keeps_file_bind
          | |- keeps_file _ _ (to_csv _ _ _) => now apply keeps_file_to_csv
          | |- context [match ?y with _ => _ end] => destruct y
          | _ => solve [apply keeps_file_readonly; auto with readonly]
          end).
Qed.

End KeepsFile.

(** A computation that neither raises nor writes. *)
Lemma total_readonly {A : Type} (m : M A) (w : world) :
  total m -> readonly m -> exists a w', m w = (Ok a, w') /\ fs w' = fs w.
Proof.
  intros Ht Hr. destruct (Ht w) as (a & w' & H). exists a, w'.
  split; [exact H|]. specialize (Hr w). now rewrite H in Hr.
Qed.

(** [process_dataset] once the archive is extracted. *)
Lemma process_dataset_steps (i o e d : path) (w w1 : world) :
  FS.exists_ (fs w) i = true ->
  extract_zip i e (add_log w (INFO, "Starting dataset processing...")) = (Ok d, w1) ->
  process_dataset i o e w
  = (process_prevalence (prevalence_path_of d) o ;;
     process_adjacency d (adj_matrices_dir_of d) o ;;
     report_structure d (prevalence_path_of d) (adj_matrices_dir_of d) o) w1.
Proof.
  intros Hex Hz. unfold process_dataset.
  rewrite (bind_ok _ (path_exists_eq _ _)), Hex. cbn [negb].
  rewrite (bind_ok _ (logger_eq _ _ _)), (bind_ok _ Hz). reflexivity.
Qed.

Lemma csv_names_exists (n : node) (dir : path) (name : string) :
  In name (csv_names n dir) -> FS.exists_ n dir = true.
Proof.
  unfold csv_names, FS.scandir, FS.exists_. intros H.
  apply filter_In in H. destruct H as [H _].
  now destruct (FS.lookup n dir) as [[|]|].
Qed.

Lemma is_dir_exists (n : node) (p : path) :
  FS.exists_ n p = false -> FS.is_dir n p = false.
Proof. unfold FS.exists_, FS.is_dir. now destruct (FS.lookup n p). Qed.

Lemma child_of_absent (n : node) (p : path) (name : string) :
  FS.exists_ n p = false -> FS.exists_ n (p // name) = false.
Proof.
  unfold FS.exists_, FS.lookup, Path.div. rewrite FSFacts.lookup_opt_app.
  destruct (FS.lookup_opt (Some n) p); [discriminate|]. reflexivity.
Qed.

Lemma in_firstn {A : Type} (n : nat) (l : list A) (a : A) :
  In a (firstn n l) -> In a l.
Proof.
  intros H. rewrite <- (firstn_skipn n l). apply in_or_app. now left.
Qed.

(** The adjacency step when a sampled file loads and the output directory
    is missing. *)
Lemma process_adjacency_no_dir (d o : path) (w : world) (name : string)
  (cols : list string) (rows : list (list string)) :
  In name (firstn 5 (csv_names (fs w) (adj_matrices_dir_of d))) ->
  FS.lookup (fs w) (adj_matrices_dir_of d // name) = Some (File (Table cols rows)) ->
  FS.exists_ (fs w) o = false ->
  exists w',
    process_adjacency d (adj_matrices_dir_of d) o w
    = (Raised (Exn OSError ("Cannot save file into a non-existent directory: '"
                            ++ Path.str o ++ "'")), w')
    /\ fs w' = fs w.
Proof.
  intros Hin Hl Ho. set (a := adj_matrices_dir_of d) in *.
  assert (Hname : In name (csv_names (fs w) a)).
  { eapply in_firstn; eauto. }
  unfold process_adjacency.
  rewrite (bind_ok _ (path_exists_eq _ _)), (csv_names_exists _ _ _ Hname).
  rewrite (bind_ok _ (logger_eq _ _ _)).
  rewrite (bind_ok _ (glob_csv_eq _ _)). cbn [fs add_log].
  destruct (csv_names (fs w) a) as [|n0 names] eqn:En; [easy|].
  cbn [map]. rewrite (bind_ok _ (logger_eq _ _ _)).
  change ((a // n0) :: map (fun name => a // name) names)
    with (map (fun name => a // name) (n0 :: names)).
  rewrite firstn_map.
  match goal with |- context [bind (sample_matrices d ?files []) _ ?w0] =>
    destruct (sample_matrices_some d files [] w0 (a // name)
                {| filename := name; mr_shape := (length rows, length cols);
                   file_path := "3.AdjacencyMatrices/" ++ name |})
      as (recs & w' & Hs & Hne & Hfs)
  end.
  - apply in_map with (f := fun name => a // name). exact Hin.
  - now apply load_matrix_table.
  - rewrite (bind_ok _ Hs). destruct recs as [|r recs]; [easy|].
    exists w'. split; [|exact Hfs].
    apply bind_raised. apply to_csv_no_dir. rewrite Hfs. now apply is_dir_exists.
Qed.

Lemma Forall2_map_left {A B C : Type} (f : A -> B) (R : B -> C -> Prop)
  (l : list A) (l' : list C) :
  Forall2 (fun a c => R (f a) c) l l' -> Forall2 R (map f l) l'.
Proof. induction 1; simpl; constructor; auto. Qed.

Lemma Forall2_map_right {A B C : Type} (f : B -> C) (R : A -> C -> Prop)
  (l : list A) (l' : list B) :
  Forall2 (fun a b => R a (f b)) l l' -> Forall2 R l (map f l').
Proof. induction 1; simpl; constructor; auto. Qed.

Lemma Forall2_length {A B : Type} (R : A -> B -> Prop) (l : list A) (l' : list B) :
  Forall2 R l l' -> length l = length l'.
Proof. induction 1; simpl; congruence. Qed.

(** The records of entries that all hold tables. *)
Lemma tables_load (n : node) (d : path) (names : list string) :
  (forall name, In name names ->
     exists cols rows,
       FS.lookup n (adj_matrices_dir_of d // name) = Some (File (Table cols rows))) ->
  exists recs,
    Forall2 (fun name r => load_matrix n d (adj_matrices_dir_of d // name) = Ok r)
      names recs
    /\ Forall2 (fun name r =>
                  metadata_row n (adj_matrices_dir_of d) name
                    [filename r; str_shape (mr_shape r); file_path r])
         names recs.
Proof.
  induction names as [|name names IH]; intros H.
  - exists []. split; constructor.
  - destruct (H name (or_introl eq_refl)) as (cols & rows & Hl).
    destruct IH as (recs & H1 & H2); [intros; apply H; now right|].
    exists ({| filename := name; mr_shape := (length rows, length cols);
               file_path := "3.AdjacencyMatrices/" ++ name |} :: recs).
    split; constructor; auto.
    + now apply load_matrix_table.
    + exists cols, rows. split; [exact Hl | reflexivity].
Qed.

(** The adjacency step when the sampled files load and the output
    directory exists. *)
Lemma process_adjacency_writes (d o : path) (w : world) (recs : list matrix_record) :
  csv_names (fs w) (adj_matrices_dir_of d) <> [] ->
  Forall2 (fun name r => load_matrix (fs w) d (adj_matrices_dir_of d // name) = Ok r)
    (firstn 5 (csv_names (fs w) (adj_matrices_dir_of d))) recs ->
  FS.is_dir (fs w) o = true ->
  FS.is_dir (fs w) (o // metadata_name) = false ->
  exists w',
    process_adjacency d (adj_matrices_dir_of d) o w = (Ok tt, w')
    /\ FS.write_file (fs w) (o // metadata_name)
         (csv_of (DataFrame_of_records recs) false) = Ok (fs w').
Proof.
  intros Hne Hall Ho Ht. set (a := adj_matrices_dir_of d) in *.
  destruct (csv_names (fs w) a) as [|n0 names] eqn:En; [easy|].
  assert (Hex : FS.exists_ (fs w) a = true).
  { apply csv_names_exists with (name := n0). rewrite En. now left. }
  unfold process_adjacency.
  rewrite (bind_ok _ (path_exists_eq _ _)), Hex.
  rewrite (bind_ok _ (logger_eq _ _ _)).
  rewrite (bind_ok _ (glob_csv_eq _ _)). cbn [fs add_log]. rewrite En.
  cbn [map]. rewrite (bind_ok _ (logger_eq _ _ _)).
  change ((a // n0) :: map (fun name => a // name) names)
    with (map (fun name => a // name) (n0 :: names)).
  rewrite firstn_map.
  match goal with |- context [bind (sample_matrices d ?files ?acc) _ ?w0] =>
    rewrite (bind_ok _ (sample_matrices_all d files recs acc w0
               (Forall2_map_left (fun name => a // name)
                  (fun f r => load_matrix (fs w) d f = Ok r) _ _ Hall)))
  end.
  cbn [app]. destruct recs as [|r recs]; [inversion Hall|].
  match goal with |- context [bind (to_csv ?df _ _) _ ?w0] =>
    destruct (to_csv_ok df o metadata_name false w0 Ho Ht) as (n' & Hc & Hw)
  end.
  unfold metadata_name in *. rewrite (bind_ok _ Hc), logger_eq.
  eexists. split; [reflexivity|]. exact Hw.
Qed.

(** The prevalence step when the table is there and the output directory
    can be made. *)
Lemma process_prevalence_copies (pp o : path) (w : world)
  (cols : list string) (rows : list (list string)) (n2 : node) :
  FS.lookup (fs w) pp = Some (File (Table cols rows)) ->
  FS.makedirs (fs w) o = Ok n2 ->
  FS.is_dir n2 (o // prevalence_name) = false ->
  exists w',
    process_prevalence pp o w = (Ok tt, w')
    /\ FS.lookup (fs w') (o // prevalence_name) = Some (File (Table cols rows)).
Proof.
  intros Hl Hm Ht. unfold process_prevalence.
  rewrite (bind_ok _ (path_exists_eq _ _)). unfold FS.exists_. rewrite Hl.
  rewrite (bind_ok _ (logger_eq _ _ _)). unfold try_except.
  match goal with |- context [bind (read_csv ?p) _ ?w0] =>
    rewrite (bind_ok _ (read_csv_table p w0 cols rows Hl))
  end.
  rewrite (bind_ok _ (logger_eq _ _ _)).
  assert (Hmk : forall w0, fs w0 = fs w ->
            mkdir_parents o w0 = (Ok tt, with_fs w0 n2)).
  { intros w0 E. unfold mkdir_parents, fs_op, bind, get_fs. now rewrite E, Hm. }
  match goal with |- context [bind (mkdir_parents o) _ ?w0] =>
    rewrite (bind_ok _ (Hmk w0 eq_refl))
  end.
  match goal with |- context [bind (to_csv ?df _ _) _ ?w0] =>
    destruct (to_csv_ok df o prevalence_name false w0
                (FSFacts.makedirs_is_dir _ _ _ Hm) Ht) as (n' & Hc & Hw)
  end.
  unfold prevalence_name in *. rewrite (bind_ok _ Hc), logger_eq.
  eexists. split; [reflexivity|]. cbn [fs add_log with_fs].
  apply FSFacts.write_file_same in Hw. exact Hw.
Qed.

(** ** The transformer's claims *)

(** C7.  When a sampled file fails to load, the loop logs one warning,
    leaves the collected records as they are and goes on with the files
    that remain; the loop as a whole returns and writes nothing, and when
    the adjacency step does raise, it is the write of the metadata table
    that raised. *)
Theorem sampling_tolerates_load_failure (data_dir adj_file : path)
  (rest : list path) (processed_matrices : list matrix_record)
  (w w1 : world) (e : exn) :
  read_csv adj_file w = (Raised e, w1) ->
  sample_matrices data_dir (adj_file :: rest) processed_matrices w
  = sample_matrices data_dir rest processed_matrices
      (add_log w (WARNING, "Error processing " ++ Path.name adj_file ++ ": "
                           ++ exn_msg e))
  /\ (forall files acc w0,
        exists recs w', sample_matrices data_dir files acc w0 = (Ok recs, w')
                        /\ fs w' = fs w0)
  /\ (forall a o w0 w' ex,
        process_adjacency data_dir a o w0 = (Raised ex, w') ->
        exists df w2, to_csv df (o // metadata_name) false w2 = (Raised ex, w')).
Proof.
  intros H. repeat split.
  - simpl. unfold bind at 1. rewrite sample_matrix_eq.
    rewrite read_csv_eq in H. unfold load_matrix.
    destruct (FS.lookup (fs w) adj_file) as [[[]|]|]; inversion H; reflexivity.
  - intros files acc w0. apply total_readonly; auto with total readonly.
  - intros a o w0 w' ex. apply process_adjacency_raised.
Qed.

(** C10.  [process_dataset] makes the output directory in the prevalence
    step only.  When the prevalence file is absent after extraction, one
    of the sampled files holds a table and the output directory does not
    exist, the prevalence step changes nothing, and the write of the
    metadata table raises [OSError]: the error leaves [process_dataset],
    and neither the output directory nor the metadata file exists
    afterwards. *)
Theorem metadata_write_without_output_dir (input_path output_dir extract_to data_dir : path)
  (w w1 : world) (name : string) (cols : list string) (rows : list (list string)) :
  FS.exists_ (fs w) input_path = true ->
  extract_zip input_path extract_to
    (add_log w (INFO, "Starting dataset processing...")) = (Ok data_dir, w1) ->
  FS.exists_ (fs w1) (prevalence_path_of data_dir) = false ->
  In name (firstn 5 (csv_names (fs w1) (adj_matrices_dir_of data_dir))) ->
  FS.lookup (fs w1) (adj_matrices_dir_of data_dir // name)
  = Some (File (Table cols rows)) ->
  FS.exists_ (fs w1) output_dir = false ->
  process_prevalence (prevalence_path_of data_dir) output_dir w1 = (Ok tt, w1)
  /\ exists w',
       process_dataset input_path output_dir extract_to w
       = (Raised (Exn OSError ("Cannot save file into a non-existent directory: '"
                               ++ Path.str output_dir ++ "'")), w')
       /\ fs w' = fs w1
       /\ FS.exists_ (fs w') output_dir = false
       /\ FS.exists_ (fs w') (output_dir // metadata_name) = false.
Proof.
  intros Hex Hz Hp Hin Hl Ho.
  assert (Hprev : process_prevalence (prevalence_path_of data_dir) output_dir w1
                  = (Ok tt, w1)).
  { unfold process_prevalence. now rewrite (bind_ok _ (path_exists_eq _ _)), Hp. }
  split; [exact Hprev|].
  destruct (process_adjacency_no_dir data_dir output_dir w1 name cols rows Hin Hl Ho)
    as (w' & Ha & Hfs).
  exists w'. rewrite (process_dataset_steps input_path output_dir extract_to data_dir w w1 Hex Hz).
  rewrite (bind_ok _ Hprev), (bind_raised _ Ha), Hfs.
  repeat split; [exact Ho | now apply child_of_absent].
Qed.

(** C3.  When the files that the adjacency step samples all hold tables
    and the output directory exists, the metadata table that
    [process_dataset] writes has one record for each of the first five
    CSV entries of the adjacency directory, in listing order, with the
    entry's name, the shape of its table and its path below the data
    directory: five records when the directory has more than five CSV
    entries, as many as there are when it has fewer. *)
Theorem metadata_table_records (input_path output_dir extract_to data_dir : path)
  (w w1 : world) :
  FS.exists_ (fs w) input_path = true ->
  extract_zip input_path extract_to
    (add_log w (INFO, "Starting dataset processing...")) = (Ok data_dir, w1) ->
  let w2 := snd (process_prevalence (prevalence_path_of data_dir) output_dir w1) in
  let adj := adj_matrices_dir_of data_dir in
  let names := csv_names (fs w2) adj in
  names <> [] ->
  (forall name, In name (firstn 5 names) ->
     exists cols rows,
       FS.lookup (fs w2) (adj // name) = Some (File (Table cols rows))) ->
  FS.is_dir (fs w2) output_dir = true ->
  FS.is_dir (fs w2) (output_dir // metadata_name) = false ->
  exists w' table,
    process_dataset input_path output_dir extract_to w = (Ok tt, w')
    /\ FS.lookup (fs w') (output_dir // metadata_name)
       = Some (File (Table ["filename"; "shape"; "file_path"] table))
    /\ Forall2 (metadata_row (fs w2) adj) (firstn 5 names) table
    /\ length table = Nat.min 5 (length names)
    /\ (5 < length names -> length table = 5)
    /\ (length names < 5 -> length table = length names).
Proof.
  intros Hex Hz w2 adj names Hne Hall Ho Ht.
  destruct (total_process_prevalence (prevalence_path_of data_dir) output_dir w1)
    as ([] & w2' & Hprev).
  assert (E2 : w2 = w2') by (unfold w2; now rewrite Hprev). clearbody w2. subst w2'.
  destruct (tables_load (fs w2) data_dir (firstn 5 names) Hall) as (recs & Hload & Hrows).
  destruct (process_adjacency_writes data_dir output_dir w2 recs Hne Hload Ho Ht)
    as (w3 & Ha & Hw).
  destruct (total_readonly
              (report_structure data_dir (prevalence_path_of data_dir) adj output_dir)
              w3) as ([] & w' & Hr & Hfs); auto with total readonly.
  exists w', (df_rows (DataFrame_of_records recs)).
  rewrite (process_dataset_steps input_path output_dir extract_to data_dir w w1 Hex Hz).
  rewrite (bind_ok _ Hprev), (bind_ok _ Ha).
  assert (Hlen : length (df_rows (DataFrame_of_records recs))
                 = Nat.min 5 (length names)).
  { simpl. rewrite length_map, <- (Forall2_length _ _ _ Hload). apply length_firstn. }
  split; [exact Hr|]. split.
  - rewrite Hfs. apply (FSFacts.write_file_same _ _ _ _ Hw).
  - split; [|split; [exact Hlen | rewrite Hlen; split; intros; lia]].
    simpl. apply Forall2_map_right. exact Hrows.
Qed.

(** C5.  When the prevalence file holds a table after extraction and the
    output directory can be made, [prevalence_data.csv] holds, when
    [process_dataset] ends, the same columns and the same rows: as many
    data rows, as many columns, no column for the index. *)
Theorem prevalence_copy (input_path output_dir extract_to data_dir : path)
  (w w1 : world) (cols : list string) (rows : list (list string)) (made : node) :
  FS.exists_ (fs w) input_path = true ->
  extract_zip input_path extract_to
    (add_log w (INFO, "Starting dataset processing...")) = (Ok data_dir, w1) ->
  FS.lookup (fs w1) (prevalence_path_of data_dir) = Some (File (Table cols rows)) ->
  FS.makedirs (fs w1) output_dir = Ok made ->
  FS.is_dir made (output_dir // prevalence_name) = false ->
  exists copy,
    FS.lookup (fs (snd (process_dataset input_path output_dir extract_to w)))
      (output_dir // prevalence_name) = Some (File copy)
    /\ copy = csv_of {| df_columns := cols; df_rows := rows |} false
    /\ copy = Table cols rows
    /\ table_shape copy = Some (length rows, length cols).
Proof.
  intros Hex Hz Hl Hm Ht.
  destruct (process_prevalence_copies _ output_dir w1 _ _ _ Hl Hm Ht) as (w2 & Hp & Hc).
  exists (Table cols rows). repeat split.
  rewrite (process_dataset_steps input_path output_dir extract_to data_dir w w1 Hex Hz), (bind_ok _ Hp).
  revert Hc. generalize w2.
  change (keeps_file (output_dir // prevalence_name) (Table cols rows)
            (process_adjacency data_dir (adj_matrices_dir_of data_dir) output_dir ;;
             report_structure data_dir (prevalence_path_of data_dir)
               (adj_matrices_dir_of data_dir) output_dir)).
  apply keeps_file_bind.
  - apply keeps_file_process_adjacency. unfold Path.div. intros E.
    apply app_inj_tail in E. destruct E as [_ E]. discriminate.
  - intros _. apply keeps_file_readonly. auto with readonly.
Qed.

(** ** Extraction *)

Lemma fs_op_ok (f : node -> result node) (w w' : world) :
  fs_op f w = (Ok tt, w') -> exists n', f (fs w) = Ok n' /\ w' = with_fs w n'.
Proof.
  unfold fs_op, bind, get_fs. destruct (f (fs w)) as [n' | e]; intros H.
  - exists n'. split; [reflexivity|]. now inversion H.
  - discriminate.
Qed.

Lemma extends_refl (n : node) : extends n n.
Proof. now split. Qed.

Lemma extends_trans (n1 n2 n3 : node) : extends n1 n2 -> extends n2 n3 -> extends n1 n3.
Proof. intros [F1 D1] [F2 D2]. split; auto. Qed.

Lemma extends_makedirs (n n' : node) (p : path) :
  FS.makedirs n p = Ok n' -> extends n n'.
Proof.
  intros H. split; intros.
  - eapply FSFacts.makedirs_file; eauto.
  - eapply FSFacts.makedirs_dir; eauto.
Qed.

Lemma extends_mkdir (n n' : node) (p : path) :
  FS.mkdir n p = Ok n' -> extends n n'.
Proof.
  intros H. split; intros.
  - eapply FSFacts.mkdir_file; eauto.
  - eapply FSFacts.mkdir_dir; eauto.
Qed.

Lemma file_not_dir (n : node) (q : path) (x : filedata) :
  FS.lookup n q = Some (File x) -> FS.is_dir n q = false.
Proof. unfold FS.is_dir. now intros ->. Qed.

(** What one successful [extract] does to the file system. *)
Lemma extract_ok (ms : list member) (name : string) (dest : path) (w w' : world) :
  extract ms name dest w = (Ok tt, w') ->
  exists data,
    getinfo ms name = Some data
    /\ (if member_is_dir name
        then FS.is_dir (fs w') (target dest name) = true /\ extends (fs w) (fs w')
        else FS.lookup (fs w') (target dest name) = Some (File data)
             /\ (forall q x, FS.lookup (fs w) q = Some (File x) ->
                             q <> target dest name ->
                             FS.lookup (fs w') q = Some (File x))
             /\ (forall q, FS.is_dir (fs w) q = true -> FS.is_dir (fs w') q = true)).
Proof.
  unfold extract, target. intros H.
  destruct (getinfo ms name) as [data|]; [|discriminate]. exists data.
  split; [reflexivity|].
  destruct (match arcname name with [] => negb (member_is_dir name) | _ => false end);
    [discriminate|].
  apply bind_inv in H. destruct H as [(n & w0 & H0 & H) | (e & H0 & _)];
    [|discriminate].
  inversion H0; subst n w0. clear H0.
  apply bind_inv in H. destruct H as [([] & w1 & H1 & H) | (e & H1 & E)];
    [|discriminate].
  assert (E1 : extends (fs w) (fs w1)).
  { destruct (FS.exists_ (fs w) (Path.parent (dest ++ arcname name)%list)).
    - inversion H1. apply extends_refl.
    - apply fs_op_ok in H1. destruct H1 as (n1 & Hm & ->).
      simpl. eapply extends_makedirs; eauto. }
  destruct (member_is_dir name).
  - apply bind_inv in H. destruct H as [(n & w2 & H2 & H) | (e & H2 & _)];
      [|discriminate].
    inversion H2; subst n w2. clear H2.
    destruct (FS.is_dir (fs w1) (dest ++ arcname name)%list) eqn:Ed.
    + inversion H; subst w'. now split.
    + apply fs_op_ok in H. destruct H as (n2 & Hm & ->). simpl. split.
      * eapply FSFacts.mkdir_is_dir; eauto.
      * eapply extends_trans; [exact E1|]. eapply extends_mkdir; eauto.
  - apply fs_op_ok in H. destruct H as (n2 & Hw & ->). simpl.
    destruct E1 as [F1 D1]. repeat split.
    + eapply FSFacts.write_file_same; eauto.
    + intros q x Hq Hne. eapply FSFacts.write_file_other; eauto.
    + intros q Hq. eapply FSFacts.write_file_dir; eauto.
Qed.

Section ExtractionLoop.

Variable ms : list member.
Variable dest : path.

Lemma for_each_cons_ok (name : string) (names : list string) (w w' : world) :
  for_each (name :: names) (fun file => extract ms file dest) w = (Ok tt, w') ->
  exists w1, (fun file => extract ms file dest) name w = (Ok tt, w1) /\ for_each names (fun file => extract ms file dest) w1 = (Ok tt, w').
Proof.
  simpl. intros H. apply bind_inv in H.
  destruct H as [([] & w1 & H1 & H) | (e & _ & E)]; [eauto | discriminate].
Qed.

(** Directories stay, and a directory member leaves one at its target. *)
Lemma loop_dir (names : list string) (w w' : world) (t : path) :
  for_each names (fun file => extract ms file dest) w = (Ok tt, w') ->
  FS.is_dir (fs w) t = true
  \/ (exists name, In name names /\ target dest name = t
                   /\ member_is_dir name = true) ->
  FS.is_dir (fs w') t = true.
Proof.
  revert w. induction names as [|name names IH]; intros w H Hd.
  - inversion H; subst w'. destruct Hd as [Hd | (name & [] & _)]. exact Hd.
  - apply for_each_cons_ok in H. destruct H as (w1 & H1 & H).
    apply (IH w1 H). apply extract_ok in H1. destruct H1 as (data & _ & H1).
    destruct Hd as [Hd | (name' & [-> | Hin] & Ht & Hm)].
    + left. destruct (member_is_dir name).
      * destruct H1 as (_ & _ & D). now apply D.
      * destruct H1 as (_ & _ & D). now apply D.
    + left. rewrite Hm in H1. now rewrite <- Ht.
    + right. eauto.
Qed.

(** A file member leaves a file at its target, and when every file
    member with that target carries the same data, that data. *)
Lemma loop_file (names : list string) (w w' : world) (t : path) :
  for_each names (fun file => extract ms file dest) w = (Ok tt, w') ->
  (exists x, FS.lookup (fs w) t = Some (File x))
  \/ (exists name, In name names /\ target dest name = t
                   /\ member_is_dir name = false) ->
  exists x, FS.lookup (fs w') t = Some (File x).
Proof.
  revert w. induction names as [|name names IH]; intros w H Hf.
  - inversion H; subst w'. destruct Hf as [Hf | (name & [] & _)]. exact Hf.
  - apply for_each_cons_ok in H. destruct H as (w1 & H1 & H).
    apply (IH w1 H). apply extract_ok in H1. destruct H1 as (data & _ & H1).
    destruct Hf as [(x & Hx) | (name' & [-> | Hin] & Ht & Hm)].
    + left. destruct (member_is_dir name).
      * destruct H1 as (_ & F & _). eauto.
      * destruct H1 as (Hw & F & _).
        destruct (list_eq_dec string_dec t (target dest name)) as [-> | Hne]; eauto.
    + left. rewrite Hm in H1. destruct H1 as (Hw & _). rewrite <- Ht. eauto.
    + right. eauto.
Qed.

Lemma loop_file_data (names : list string) (w w' : world) (t : path) (data : filedata) :
  for_each names (fun file => extract ms file dest) w = (Ok tt, w') ->
  (forall name, In name names -> target dest name = t ->
                member_is_dir name = false -> getinfo ms name = Some data) ->
  FS.lookup (fs w) t = Some (File data)
  \/ (exists name, In name names /\ target dest name = t
                   /\ member_is_dir name = false) ->
  FS.lookup (fs w') t = Some (File data).
Proof.
  revert w. induction names as [|name names IH]; intros w H Hsame Hf.
  - inversion H; subst w'. destruct Hf as [Hf | (name & [] & _)]. exact Hf.
  - apply for_each_cons_ok in H. destruct H as (w1 & H1 & H).
    apply (IH w1 H); [intros; apply Hsame; auto; now right|].
    apply extract_ok in H1. destruct H1 as (data0 & Hg & H1).
    destruct Hf as [Hx | (name' & [-> | Hin] & Ht & Hm)].
    + left. destruct (member_is_dir name) eqn:Em.
      * destruct H1 as (_ & F & _). eauto.
      * destruct H1 as (Hw & F & _).
        destruct (list_eq_dec string_dec t (target dest name)) as [-> | Hne]; eauto.
        rewrite (Hsame name (or_introl eq_refl) eq_refl Em) in Hg.
        inversion Hg; subst data0. exact Hw.
    + left. rewrite Hm in H1. destruct H1 as (Hw & _). rewrite <- Ht.
      rewrite (Hsame name' (or_introl eq_refl) Ht Hm) in Hg.
      inversion Hg; subst data0. exact Hw.
    + right. eauto.
Qed.

End ExtractionLoop.

Lemma for_each_ext {A : Type} (xs : list A) (f g : A -> M unit) :
  (forall x, In x xs -> f x = g x) -> for_each xs f = for_each xs g.
Proof.
  induction xs as [|x xs IH]; intros H; simpl; [reflexivity|].
  rewrite (H x (or_introl eq_refl)), IH; [reflexivity|].
  intros; apply H; now right.
Qed.

Lemma file_list_spec (names : list string) (f : string) :
  In f (file_list names) <-> In f names /\ excluded f = false.
Proof.
  unfold file_list, excluded. rewrite filter_In.
  destruct (Str.startswith f "__MACOSX"), (Str.endswith f ".DS_Store");
    simpl; intuition congruence.
Qed.

Lemma file_list_kept (ms : list member) :
  file_list (namelist (kept_members ms)) = file_list (namelist ms).
Proof.
  unfold kept_members, namelist, file_list, excluded.
  induction ms as [|[k d] ms IH]; simpl; [reflexivity|].
  destruct (Str.startswith k "__MACOSX") eqn:E1,
           (Str.endswith k ".DS_Store") eqn:E2; simpl; rewrite ?E1, ?E2; simpl;
    now rewrite ?IH.
Qed.

Lemma getinfo_kept (ms : list member) (name : string) :
  excluded name = false -> getinfo (kept_members ms) name = getinfo ms name.
Proof.
  intros Hk. unfold kept_members.
  induction ms as [|[k d] ms IH]; simpl; [reflexivity|].
  destruct (excluded k) eqn:Ek; simpl.
  - rewrite IH. destruct (getinfo ms name); [reflexivity|].
    destruct (String.eqb name k) eqn:E; [|reflexivity].
    apply String.eqb_eq in E. congruence.
  - now rewrite IH.
Qed.

Lemma ZipFile_eq (z : path) (w : world) (ms : list member) :
  FS.lookup (fs w) z = Some (File (Archive ms)) -> ZipFile z w = (Ok ms, w).
Proof. intros H. unfold ZipFile, bind, get_fs. now rewrite H. Qed.

(** What [unpack] went through when it succeeds. *)
Lemma unpack_ok (z e : path) (w w1 : world) (ms : list member) :
  FS.lookup (fs w) z = Some (File (Archive ms)) ->
  unpack z e w = (Ok tt, w1) ->
  exists w0,
    for_each (file_list (namelist ms)) (fun file => extract ms file e) w0 = (Ok tt, w1).
Proof.
  intros Hz H. unfold unpack in H.
  rewrite (bind_ok _ (logger_eq _ _ _)) in H.
  apply bind_inv in H. destruct H as [([] & wa & Ha & H) | (ex & _ & E)];
    [|discriminate].
  apply fs_op_ok in Ha. destruct Ha as (n1 & Hm & ->).
  match type of H with
  | bind (ZipFile z) _ ?w0 = _ =>
      rewrite (bind_ok _ (ZipFile_eq z w0 ms
                 (FSFacts.makedirs_file _ _ _ _ _ Hm Hz))) in H
  end.
  eauto.
Qed.

(** ** Strings *)

Module StrFacts.

Lemma mem_app (c : ascii) (a b : string) :
  Str.mem c (a ++ b) = Str.mem c a || Str.mem c b.
Proof.
  unfold Str.mem. induction a as [|x a IH]; simpl; [reflexivity|].
  now rewrite IH, orb_assoc.
Qed.

Lemma mem_cons (c x : ascii) (s : string) :
  Str.mem c (String x s) = Ascii.eqb c x || Str.mem c s.
Proof. reflexivity. Qed.

Lemma split_none (c : ascii) (s : string) :
  Str.mem c s = false -> Str.split c s = [s].
Proof.
  induction s as [|x s IH]; simpl; [reflexivity|].
  rewrite mem_cons, orb_false_iff, Ascii.eqb_sym. intros [-> Hs].
  now rewrite (IH Hs).
Qed.

Lemma split_app (c : ascii) (a b : string) :
  Str.mem c a = false ->
  Str.split c (a ++ String c b) = a :: Str.split c b.
Proof.
  induction a as [|x a IH]; simpl.
  - intros _. now rewrite Ascii.eqb_refl.
  - rewrite mem_cons, orb_false_iff, Ascii.eqb_sym. intros [-> Ha].
    now rewrite (IH Ha).
Qed.

Lemma partition_none (c : ascii) (s : string) :
  Str.mem c s = false -> Str.partition c s = (s, None).
Proof.
  induction s as [|x s IH]; simpl; [reflexivity|].
  rewrite mem_cons, orb_false_iff, Ascii.eqb_sym. intros [-> Hs].
  now rewrite (IH Hs).
Qed.

Lemma partition_app (c : ascii) (a b : string) :
  Str.mem c a = false ->
  Str.partition c (a ++ String c b) = (a, Some b).
Proof.
  induction a as [|x a IH]; simpl.
  - intros _. now rewrite Ascii.eqb_refl.
  - rewrite mem_cons, orb_false_iff, Ascii.eqb_sym. intros [-> Ha].
    now rewrite (IH Ha).
Qed.

Lemma replace_none (a b : ascii) (s : string) :
  Str.mem a s = false -> Str.replace a b s = s.
Proof.
  unfold Str.replace. induction s as [|x s IH]; simpl; [reflexivity|].
  rewrite mem_cons, orb_false_iff, Ascii.eqb_sym. intros [-> Hs].
  now rewrite (IH Hs).
Qed.

Lemma append_assoc (a b c : string) : ((a ++ b) ++ c = a ++ (b ++ c))%string.
Proof. induction a as [|x a IH]; simpl; [reflexivity | now rewrite IH]. Qed.

Lemma append_nil_r (a : string) : (a ++ "" = a)%string.
Proof. induction a as [|x a IH]; simpl; [reflexivity | now rewrite IH]. Qed.

Lemma split_join (parts : list string) :
  parts <> [] -> Forall (fun c => Str.mem "/" c = false) parts ->
  Str.split "/" (Str.join "/" parts) = parts.
Proof.
  intros Hne H. induction H as [|c parts Hc H IH]; [easy|].
  destruct parts as [|c2 parts].
  - simpl. now apply split_none.
  - change (Str.join "/" (c :: c2 :: parts))
      with (c ++ String "/" (Str.join "/" (c2 :: parts)))%string.
    rewrite (split_app _ _ _ Hc), IH; [reflexivity | discriminate].
Qed.

End StrFacts.

Lemma arcname_join (parts : list string) :
  parts <> [] -> Forall plain_component parts ->
  arcname (Str.join "/" parts) = parts.
Proof.
  intros Hne H. unfold arcname. rewrite StrFacts.split_join.
  - clear Hne. induction H as [|c parts (H1 & H2 & H3 & _) _ IH]; [reflexivity|].
    cbn [filter]. unfold invalid_path_part at 1.
    apply String.eqb_neq in H1, H2, H3. rewrite H1, H2, H3. cbn [orb negb].
    now rewrite IH.
  - exact Hne.
  - eapply Forall_impl; [|exact H]. now intros c (_ & _ & _ & Hc).
Qed.

(** C4.  Of the archive's entries, [extract_zip] extracts those whose
    name neither starts with [__MACOSX] nor ends with [.DS_Store], and the
    extraction loop runs as it would on the archive without the others.
    When [extract_zip] returns, every entry that is not left out is
    there below the destination: a directory for a directory entry, a
    file for a file entry, which holds the entry's data when the entries
    written to that path all carry the same data.  The path is the
    destination followed by the components of the entry's name. *)
Theorem extract_zip_entries (zip_path extract_to : path) (w : world)
  (ms : list member) :
  FS.lookup (fs w) zip_path = Some (File (Archive ms)) ->
  (forall f, In f (file_list (namelist ms)) <->
             In f (namelist ms)
             /\ Str.startswith f "__MACOSX" = false
             /\ Str.endswith f ".DS_Store" = false)
  /\ (forall w0,
        for_each (file_list (namelist ms))
          (fun file => extract ms file extract_to) w0
        = for_each (file_list (namelist (kept_members ms)))
            (fun file => extract (kept_members ms) file extract_to) w0)
  /\ (forall p w',
        extract_zip zip_path extract_to w = (Ok p, w') ->
        forall name,
          In name (namelist ms) -> excluded name = false ->
          if member_is_dir name
          then FS.is_dir (fs w') (target extract_to name) = true
          else (exists data,
                  FS.lookup (fs w') (target extract_to name) = Some (File data))
               /\ forall data,
                    (forall name', In name' (file_list (namelist ms)) ->
                       target extract_to name' = target extract_to name ->
                       member_is_dir name' = false ->
                       getinfo ms name' = Some data) ->
                    FS.lookup (fs w') (target extract_to name) = Some (File data))
  /\ (forall parts,
        parts <> [] -> Forall plain_component parts ->
        target extract_to (Str.join "/" parts) = (extract_to ++ parts)%list).
Proof.
  intros Hz. split; [|split; [|split]].
  - intros f. rewrite file_list_spec. unfold excluded.
    rewrite orb_false_iff. tauto.
  - intros w0. rewrite file_list_kept.
    erewrite for_each_ext; [reflexivity|].
    intros name Hin. apply file_list_spec in Hin. destruct Hin as [_ Hk].
    unfold extract. now rewrite (getinfo_kept ms name Hk).
  - intros p w' H name Hin Hk.
    rewrite extract_zip_unpack in H.
    destruct (unpack zip_path extract_to w) as [[[] | ex] w1] eqn:Hu;
      [|discriminate].
    assert (Hfs : fs w' = fs w1).
    { destruct (FS.exists_ (fs w1) (extract_to // "Data")); now inversion H. }
    rewrite Hfs. clear H Hfs.
    destruct (unpack_ok _ _ _ _ ms Hz Hu) as (w0 & Hloop).
    assert (Hin' : In name (file_list (namelist ms)))
      by (apply file_list_spec; now split).
    destruct (member_is_dir name) eqn:Em.
    + eapply loop_dir; [exact Hloop|]. right. eauto.
    + split.
      * eapply loop_file; [exact Hloop|]. right. eauto.
      * intros data Hsame. eapply loop_file_data; [exact Hloop | |].
        -- intros. now apply Hsame.
        -- right. eauto.
  - intros parts Hne Hp. unfold target. now rewrite arcname_join.
Qed.

(** ** The query dictionary *)

Module DictFacts.

Import Urllib.

Lemma dict_get_add_same (k v : string) (d : qdict) :
  dict_get k (dict_add k v d)
  = Some (match dict_get k d with Some vs => vs ++ [v] | None => [v] end)%list.
Proof.
  induction d as [|[k' vs] d IH]; simpl.
  - now rewrite String.eqb_refl.
  - destruct (String.eqb k k') eqn:E; simpl; rewrite E; [reflexivity | exact IH].
Qed.

Lemma dict_get_add_other (k k' v : string) (d : qdict) :
  String.eqb k k' = false -> dict_get k (dict_add k' v d) = dict_get k d.
Proof.
  intros Hne. induction d as [|[k0 vs] d IH]; simpl.
  - now rewrite Hne.
  - destruct (String.eqb k' k0) eqn:E; simpl.
    + apply String.eqb_eq in E. subst k0. now rewrite Hne.
    + destruct (String.eqb k k0); [reflexivity | exact IH].
Qed.

Lemma dict_get_fold (k : string) (pairs : list (string * string)) (d : qdict) :
  dict_get k (fold_left (fun d nv => dict_add (fst nv) (snd nv) d) pairs d)
  = match values_of k pairs with
    | [] => dict_get k d
    | vs => Some (match dict_get k d with Some vs0 => vs0 ++ vs | None => vs end)%list
    end.
Proof.
  revert d. induction pairs as [|[n v] pairs IH]; intros d; [reflexivity|].
  simpl. rewrite IH. unfold values_of. simpl.
  destruct (String.eqb k n) eqn:E.
  - apply String.eqb_eq in E. subst n. rewrite dict_get_add_same. simpl.
    destruct (map snd (filter _ pairs)) as [|v' vs'].
    + now destruct (dict_get k d).
    + destruct (dict_get k d); [now rewrite <- app_assoc | reflexivity].
  - now rewrite (dict_get_add_other _ _ _ _ E).
Qed.

Lemma dict_get_parse_qs (lib : urllib) (k qs : string) :
  dict_get k (parse_qs lib qs)
  = match values_of k (parse_qsl lib qs) with
    | [] => None
    | vs => Some vs
    end.
Proof. unfold parse_qs. rewrite dict_get_fold. reflexivity. Qed.

Lemma values_of_app (k : string) (l1 l2 : list (string * string)) :
  values_of k (l1 ++ l2) = (values_of k l1 ++ values_of k l2)%list.
Proof. unfold values_of. now rewrite filter_app, map_app. Qed.

Lemma file_values_parse_qsl (lib : urllib) (qs : string) :
  values_of "file" (parse_qsl lib qs) = file_values lib qs.
Proof.
  unfold parse_qsl, file_values.
  assert (G : forall l,
    values_of "file"
      (flat_map
         (fun name_value =>
            if Str.is_empty name_value then []
            else match Str.partition "=" name_value with
                 | (_, None) => []
                 | (n, Some v) =>
                     if Str.is_empty v then []
                     else [(unquote lib (Str.replace "+" " " n),
                            unquote lib (Str.replace "+" " " v))]
                 end) l)
    = flat_map
        (fun field =>
           match Str.partition "=" field with
           | (n, Some v) =>
               if String.eqb "file" (decode lib n) && negb (Str.is_empty v)
               then [decode lib v] else []
           | (_, None) => []
           end) l).
  { induction l as [|x l IH]; [reflexivity|].
    cbn [flat_map]. rewrite values_of_app, IH. f_equal.
    destruct x as [|c x]; [reflexivity|]. cbn [Str.is_empty].
    destruct (Str.partition "=" (String c x)) as [n [v|]]; [|reflexivity].
    destruct v as [|c' v]; cbn [Str.is_empty negb].
    - now rewrite andb_false_r.
    - rewrite andb_true_r. unfold values_of, decode. cbn [filter fst].
      now destruct (String.eqb "file" _). }
  destruct qs as [|c qs]; [reflexivity|]. cbn [Str.is_empty]. apply G.
Qed.

End DictFacts.

(** Lines 36 to 48, read through [file_values]. *)
Lemma figshare_file_id_spec (lib : urllib) (url : string) (parsed : Urllib.ParseResult) :
  Urllib.urlparse lib url = Ok parsed ->
  figshare_file_id lib url
  = match file_values lib (Urllib.query parsed) with
    | v :: _ => Ok v
    | [] => path_segment_id url
    end.
Proof.
  intros H. unfold figshare_file_id. rewrite H.
  rewrite DictFacts.dict_get_parse_qs, DictFacts.file_values_parse_qsl.
  now destruct (file_values lib (Urllib.query parsed)).
Qed.

(** C9.  When the query string of the URL has a [file] parameter whose
    value is not empty, the file identifier is the first such value,
    decoded, whatever the rest of the URL holds and whether or not the
    value is a number.  The search for [/files/<digits>] decides only
    when the query string has no [file] parameter with a value. *)
Theorem query_parameter_precedence (lib : urllib) (url : string)
  (parsed : Urllib.ParseResult) :
  Urllib.urlparse lib url = Ok parsed ->
  match file_values lib (Urllib.query parsed) with
  | v :: _ => figshare_file_id lib url = Ok v
  | [] =>
      figshare_file_id lib url
      = match re_search_files url with
        | Some file_id => Ok file_id
        | None =>
            Raised (Exn ValueError ("Could not extract file ID from URL: " ++ url))
        end
  end.
Proof.
  intros H. rewrite (figshare_file_id_spec lib url parsed H).
  now destruct (file_values lib (Urllib.query parsed)).
Qed.

(** ** The search for [/files/<digits>] *)

Module SearchFacts.

Lemma length_append (a b : string) :
  String.length (a ++ b) = String.length a + String.length b.
Proof. induction a as [|x a IH]; simpl; [reflexivity | now rewrite IH]. Qed.

Lemma strip_prefix_some (p s r : string) :
  Str.strip_prefix p s = Some r -> s = (p ++ r)%string.
Proof.
  revert s. induction p as [|a p IH]; intros s H; simpl in *.
  - now inversion H.
  - destruct s as [|b s]; [discriminate|].
    destruct (Ascii.eqb a b) eqn:E; [|discriminate].
    apply Ascii.eqb_eq in E. subst b. now rewrite (IH s H).
Qed.

Lemma strip_prefix_app_some (p u t r : string) :
  Str.strip_prefix p u = Some r -> Str.strip_prefix p (u ++ t) = Some (r ++ t)%string.
Proof.
  revert u. induction p as [|a p IH]; intros u H; simpl in *.
  - now inversion H.
  - destruct u as [|b u]; [discriminate|]. simpl.
    destruct (Ascii.eqb a b); [now apply IH | discriminate].
Qed.

Lemma strip_prefix_app_none (p u t : string) :
  Str.strip_prefix p u = None -> String.length p <= String.length u ->
  Str.strip_prefix p (u ++ t) = None.
Proof.
  revert u. induction p as [|a p IH]; intros u H Hlen; simpl in *.
  - discriminate.
  - destruct u as [|b u]; simpl in *; [lia|].
    destruct (Ascii.eqb a b); [apply IH; [exact H | lia] | reflexivity].
Qed.

Lemma span_app (f : ascii -> bool) (id rest : string) :
  Str.forallb f id = true ->
  rest = EmptyString \/ (exists c r, rest = String c r /\ f c = false) ->
  Str.span f (id ++ rest) = id.
Proof.
  intros Hid Hrest. induction id as [|x id IH]; simpl in *.
  - destruct Hrest as [-> | (c & r & -> & Hc)]; simpl; [reflexivity | now rewrite Hc].
  - apply andb_true_iff in Hid. destruct Hid as [-> Hid]. now rewrite IH.
Qed.

Lemma re_search_unfold (c : ascii) (s : string) :
  re_search_files (String c s)
  = match match_at (String c s) with
    | EmptyString => re_search_files s
    | digits => Some digits
    end.
Proof.
  unfold match_at. cbn [re_search_files].
  destruct (Str.strip_prefix "/files/" (String c s)); [|reflexivity].
  now destruct (Str.span Str.is_digit s0).
Qed.

Lemma match_at_extend (u t : string) :
  match_at u = EmptyString -> 8 <= String.length u ->
  match_at (u ++ t) = EmptyString.
Proof.
  unfold match_at. intros H Hlen.
  destruct (Str.strip_prefix "/files/" u) as [r|] eqn:E.
  - rewrite (strip_prefix_app_some _ _ t _ E).
    apply strip_prefix_some in E. subst u. rewrite length_append in Hlen.
    destruct r as [|d r]; simpl in Hlen; [lia|].
    simpl in *. destruct (Str.is_digit d); [discriminate | reflexivity].
  - rewrite strip_prefix_app_none; [reflexivity | exact E | simpl; lia].
Qed.

(** The leftmost [/files/<digits>] is the one that the search returns. *)
Lemma first_segment (pre id rest : string) :
  re_search_files (pre ++ "/files/") = None ->
  id <> EmptyString -> Str.forallb Str.is_digit id = true ->
  rest = EmptyString \/ (exists c r, rest = String c r /\ Str.is_digit c = false) ->
  re_search_files (pre ++ "/files/" ++ id ++ rest) = Some id.
Proof.
  intros Hpre Hne Hid Hrest. induction pre as [|c pre IH].
  - change ("" ++ "/files/" ++ id ++ rest)%string
      with (String "/" ("files/" ++ id ++ rest)).
    rewrite re_search_unfold. unfold match_at.
    change (String "/" ("files/" ++ id ++ rest))
      with ("/files/" ++ (id ++ rest))%string.
    replace (Str.strip_prefix "/files/" ("/files/" ++ (id ++ rest)))
      with (Some (id ++ rest)%string) by reflexivity.
    rewrite (span_app _ _ _ Hid Hrest). now destruct id.
  - change (String c pre ++ "/files/")%string
      with (String c (pre ++ "/files/")) in Hpre.
    rewrite re_search_unfold in Hpre.
    destruct (match_at (String c (pre ++ "/files/"))) eqn:Em; [|discriminate].
    change (String c pre ++ "/files/" ++ id ++ rest)%string
      with (String c (pre ++ "/files/" ++ id ++ rest)).
    rewrite re_search_unfold.
    replace (String c (pre ++ "/files/" ++ id ++ rest))
      with (String c (pre ++ "/files/") ++ (id ++ rest))%string
      by (simpl; now rewrite StrFacts.append_assoc).
    rewrite match_at_extend; [now apply IH | exact Em |].
    simpl. rewrite length_append. simpl. lia.
Qed.

(** Without any [/files/<digit>] the search finds nothing. *)
Lemma no_segment (url : string) :
  (forall pre d rest,
     url = (pre ++ "/files/" ++ String d rest)%string -> Str.is_digit d = false) ->
  re_search_files url = None.
Proof.
  induction url as [|c url IH]; intros H; [reflexivity|].
  rewrite re_search_unfold.
  assert (Em : match_at (String c url) = EmptyString).
  { unfold match_at.
    destruct (Str.strip_prefix "/files/" (String c url)) as [r|] eqn:E;
      [|reflexivity].
    apply strip_prefix_some in E. destruct r as [|d r]; [reflexivity|].
    simpl. now rewrite (H EmptyString d r E). }
  rewrite Em. apply IH. intros pre d rest E.
  apply (H (String c pre) d rest). simpl. now rewrite E.
Qed.

(** Conversely, a [/files/<digit>] somewhere makes the search succeed. *)
Lemma search_none (url : string) :
  re_search_files url = None ->
  forall pre d rest,
    url = (pre ++ "/files/" ++ String d rest)%string -> Str.is_digit d = false.
Proof.
  intros H pre. revert url H. induction pre as [|c pre IH]; intros url H d rest E.
  - subst url. simpl in H. destruct (Str.is_digit d); [discriminate | reflexivity].
  - subst url.
    change (String c pre ++ "/files/" ++ String d rest)%string
      with (String c (pre ++ "/files/" ++ String d rest)) in H.
    rewrite re_search_unfold in H.
    destruct (match_at _); [|discriminate].
    eapply IH; [exact H | reflexivity].
Qed.

End SearchFacts.

(** ** Where [urlsplit] finds the query string *)

Module UrlFacts.

Import Urllib.

Lemma partition_some (c : ascii) (s x y : string) :
  Str.partition c s = (x, Some y) -> s = (x ++ String c y)%string.
Proof.
  revert x. induction s as [|a s IH]; intros x H; simpl in H; [discriminate|].
  destruct (Ascii.eqb a c) eqn:E.
  - apply Ascii.eqb_eq in E. subst a. now inversion H.
  - destruct (Str.partition c s) as [l r]. inversion H; subst x r.
    simpl. now rewrite (IH l eq_refl).
Qed.

Lemma partition_left (c : ascii) (a b : string) :
  Str.mem c a = true ->
  Str.partition c (a ++ b)
  = (fst (Str.partition c a),
     option_map (fun y => (y ++ b)%string) (snd (Str.partition c a))).
Proof.
  induction a as [|x a IH]; simpl; [discriminate|].
  rewrite StrFacts.mem_cons, Ascii.eqb_sym.
  destruct (Ascii.eqb x c); [reflexivity|]. simpl. intros H.
  rewrite (IH H). now destruct (Str.partition c a).
Qed.

Lemma partition_right (c : ascii) (a b : string) :
  Str.mem c a = false ->
  Str.partition c (a ++ b)
  = ((a ++ fst (Str.partition c b))%string, snd (Str.partition c b)).
Proof.
  induction a as [|x a IH]; simpl.
  - intros _. now destruct (Str.partition c b).
  - rewrite StrFacts.mem_cons, Ascii.eqb_sym.
    destruct (Ascii.eqb x c); [discriminate|]. simpl. intros H.
    now rewrite (IH H).
Qed.

Lemma partition_cons_other (c a : ascii) (s : string) :
  Ascii.eqb a c = false ->
  Str.partition c (String a s)
  = (String a (fst (Str.partition c s)), snd (Str.partition c s)).
Proof. intros H. cbn [Str.partition]. rewrite H. now destruct (Str.partition c s). Qed.

Lemma forallb_app (f : ascii -> bool) (a b : string) :
  Str.forallb f (a ++ b) = Str.forallb f a && Str.forallb f b.
Proof.
  induction a as [|x a IH]; simpl; [reflexivity|].
  now rewrite IH, andb_assoc.
Qed.

Lemma lstrip_printable (url : string) :
  printable url = true -> Str.lstrip c0_control_or_space url = url.
Proof.
  unfold printable. destruct url as [|c url]; simpl; [reflexivity|].
  now destruct (c0_control_or_space c).
Qed.

Lemma unsafe_is_c0 (c : ascii) :
  unsafe_url_byte c = true -> c0_control_or_space c = true.
Proof.
  unfold unsafe_url_byte. intros H.
  apply orb_true_iff in H. destruct H as [H | H];
    [apply orb_true_iff in H; destruct H as [H | H]|];
    apply Ascii.eqb_eq in H; subst c; reflexivity.
Qed.

Lemma filter_printable (url : string) :
  printable url = true ->
  Str.filter (fun c => negb (unsafe_url_byte c)) url = url.
Proof.
  unfold printable. induction url as [|c url IH]; simpl; [reflexivity|].
  intros H. apply andb_true_iff in H. destruct H as [Hc H].
  destruct (unsafe_url_byte c) eqn:E.
  - apply unsafe_is_c0 in E. rewrite E in Hc. discriminate.
  - simpl. now rewrite (IH H).
Qed.

Lemma split_scheme_query (url q : string) :
  before_query url q -> before_query (snd (split_scheme url)) q.
Proof.
  intros (pre & -> & Hq & Hh). unfold split_scheme.
  destruct (Str.mem ":" pre) eqn:Hc.
  - rewrite (partition_left _ _ _ Hc).
    destruct (Str.partition ":" pre) as [before [after|]] eqn:Ep; simpl.
    + apply partition_some in Ep. subst pre.
      rewrite StrFacts.mem_app, StrFacts.mem_cons in Hq, Hh.
      apply orb_false_iff in Hq, Hh. destruct Hq as [Hq1 Hq2], Hh as [Hh1 Hh2].
      simpl in Hq2, Hh2.
      destruct before as [|c0 before'].
      * exists (String ":" after). simpl.
        rewrite !StrFacts.mem_cons. simpl. now rewrite Hq2, Hh2.
      * destruct (Str.is_ascii c0 && Str.is_alpha c0
                  && Str.forallb scheme_char (String c0 before')); simpl.
        -- exists after. now repeat split.
        -- exists (String c0 before' ++ String ":" after)%string.
           split; [reflexivity|].
           rewrite !StrFacts.mem_app, Hq1, Hh1, !StrFacts.mem_cons, Hq2, Hh2.
           now split.
    + exists pre. now repeat split.
  - rewrite (partition_right _ _ _ Hc).
    assert (Hbad : Str.forallb scheme_char
                     (pre ++ fst (Str.partition ":" (String "?" q))) = false).
    { rewrite forallb_app. simpl.
      destruct (Str.partition ":" q). simpl. apply andb_false_r. }
    revert Hbad.
    generalize (pre ++ fst (Str.partition ":" (String "?" q)))%string.
    intros before Hbad.
    destruct (snd (Str.partition ":" (String "?" q))); cbv beta iota;
      [|exists pre; now repeat split].
    destruct before as [|c0 s0]; [exists pre; now repeat split|].
    rewrite Hbad, andb_false_r. exists pre. now repeat split.
Qed.

Lemma splitnetloc_query (s q : string) :
  before_query s q -> before_query (snd (splitnetloc s)) q.
Proof.
  intros (pre & -> & Hq & Hh). revert Hq Hh.
  induction pre as [|c pre IH]; intros Hq Hh.
  - exists EmptyString. now repeat split.
  - change (String c pre ++ String "?" q)%string
      with (String c (pre ++ String "?" q)).
    cbn [splitnetloc]. destruct (netloc_delim c).
    + exists (String c pre). now repeat split.
    + rewrite StrFacts.mem_cons in Hq, Hh.
      apply orb_false_iff in Hq, Hh.
      specialize (IH (proj2 Hq) (proj2 Hh)).
      destruct (splitnetloc (pre ++ String "?" q)) as [n r]. exact IH.
Qed.

Lemma strip_slashes_query (s q rest : string) :
  before_query s q -> Str.strip_prefix "//" s = Some rest -> before_query rest q.
Proof.
  intros (pre & -> & Hq & Hh) H.
  destruct pre as [|a [|b pre]]; cbn [Str.strip_prefix String.append] in H.
  - change (Ascii.eqb "/" "?") with false in H. discriminate.
  - destruct (Ascii.eqb "/" a); [|discriminate].
    change (Ascii.eqb "/" "?") with false in H. discriminate.
  - destruct (Ascii.eqb "/" a); [|discriminate].
    destruct (Ascii.eqb "/" b); [|discriminate].
    inversion H; subst rest. exists pre.
    rewrite !StrFacts.mem_cons in Hq, Hh.
    apply orb_false_iff in Hq, Hh. destruct Hq as [_ Hq], Hh as [_ Hh].
    apply orb_false_iff in Hq, Hh. now repeat split.
Qed.

(** The query string of a printable URL is what lies between its first
    question mark and the hash that follows, when no hash comes first. *)
Lemma urlsplit_query (lib : urllib) (url q : string) (r : SplitResult) :
  printable url = true -> before_query url q ->
  urlsplit lib url = Ok r -> sr_query r = fst (Str.partition "#" q).
Proof.
  intros Hp Hb H. unfold urlsplit in H.
  rewrite (lstrip_printable _ Hp), (filter_printable _ Hp) in H.
  apply split_scheme_query in Hb.
  destruct (split_scheme url) as [sch u1]. simpl in Hb.
  assert (Hb2 : before_query
                  (snd (match Str.strip_prefix "//" u1 with
                        | Some rest => splitnetloc rest
                        | None => (EmptyString, u1)
                        end)) q).
  { destruct (Str.strip_prefix "//" u1) as [rest|] eqn:E; [|exact Hb].
    apply splitnetloc_query. eapply strip_slashes_query; eauto. }
  destruct (match Str.strip_prefix "//" u1 with
            | Some rest => splitnetloc rest
            | None => (EmptyString, u1)
            end) as [nl u2]. simpl in Hb2.
  destruct Hb2 as (pre & -> & Hq & Hh).
  destruct (_ || _); [discriminate|].
  destruct (_ && _ && _); [discriminate|].
  rewrite (partition_right _ _ _ Hh) in H.
  rewrite (partition_cons_other "#" "?" q eq_refl) in H.
  destruct (Str.partition "#" q) as [q1 [f|]]; cbn [fst snd] in H |- *;
    rewrite (StrFacts.partition_app "?" pre q1 Hq) in H;
    destruct (checknetloc lib nl); inversion H; reflexivity.
Qed.

Lemma urlparse_query (lib : urllib) (url q : string) (parsed : ParseResult) :
  printable url = true -> before_query url q ->
  urlparse lib url = Ok parsed -> query parsed = fst (Str.partition "#" q).
Proof.
  intros Hp Hb H. unfold urlparse in H.
  destruct (urlsplit lib url) as [r|] eqn:E; [|discriminate].
  rewrite <- (urlsplit_query lib url q r Hp Hb E).
  destruct (existsb _ _ && _); [destruct (splitparams _)|]; now inversion H.
Qed.

(** *** URLs that [urlsplit] accepts *)

Section Sub.

Variable P : ascii -> bool.

Lemma forallb_lstrip (f : ascii -> bool) (s : string) :
  Str.forallb P s = true -> Str.forallb P (Str.lstrip f s) = true.
Proof.
  induction s as [|c s IH]; simpl; [reflexivity|].
  intros H. destruct (f c); [|exact H].
  apply andb_true_iff in H. now apply IH.
Qed.

Lemma forallb_filter (f : ascii -> bool) (s : string) :
  Str.forallb P s = true -> Str.forallb P (Str.filter f s) = true.
Proof.
  induction s as [|c s IH]; simpl; [reflexivity|].
  intros H. apply andb_true_iff in H. destruct H as [Hc H].
  destruct (f c); simpl; [rewrite Hc|]; now apply IH.
Qed.

Lemma forallb_split_scheme (s : string) :
  Str.forallb P s = true -> Str.forallb P (snd (split_scheme s)) = true.
Proof.
  intros H. unfold split_scheme.
  destruct (Str.partition ":" s) as [before [after|]] eqn:E; [|exact H].
  destruct before as [|c0 before]; [exact H|].
  destruct (_ && _ && _); [|exact H]. simpl.
  apply partition_some in E. subst s.
  rewrite forallb_app in H. apply andb_true_iff in H. destruct H as [_ H].
  simpl in H. now apply andb_true_iff in H.
Qed.

Lemma forallb_strip_prefix (p s r : string) :
  Str.forallb P s = true -> Str.strip_prefix p s = Some r -> Str.forallb P r = true.
Proof.
  intros H E. apply SearchFacts.strip_prefix_some in E. subst s.
  rewrite forallb_app in H. now apply andb_true_iff in H.
Qed.

Lemma forallb_splitnetloc (s : string) :
  Str.forallb P s = true -> Str.forallb P (fst (splitnetloc s)) = true.
Proof.
  induction s as [|c s IH]; simpl; [reflexivity|].
  intros H. apply andb_true_iff in H. destruct H as [Hc H].
  destruct (netloc_delim c); [reflexivity|].
  specialize (IH H). destruct (splitnetloc s). simpl in *. now rewrite Hc.
Qed.

End Sub.

Lemma plain_host_no_bracket (s : string) :
  Str.forallb plain_host_char s = true ->
  Str.mem "[" s = false /\ Str.mem "]" s = false /\ Str.forallb Str.is_ascii s = true.
Proof.
  unfold Str.mem, plain_host_char.
  induction s as [|c s IH]; cbn [Str.forallb Str.existsb]; [easy|].
  intros H. apply andb_true_iff in H. destruct H as [Hc H].
  destruct (IH H) as (H1 & H2 & H3). rewrite H1, H2, H3.
  apply andb_true_iff in Hc. destruct Hc as [Hc Hr].
  apply andb_true_iff in Hc. destruct Hc as [Ha Hl].
  rewrite Ha. rewrite (Ascii.eqb_sym "[" c), (Ascii.eqb_sym "]" c).
  apply negb_true_iff in Hl, Hr. now rewrite Hl, Hr.
Qed.

(** An ASCII URL without square brackets is accepted, whatever the
    library's checks of the host are. *)
Lemma urlparse_accepts (lib : urllib) (url : string) :
  Str.forallb plain_host_char url = true ->
  exists parsed, urlparse lib url = Ok parsed.
Proof.
  intros H. unfold urlparse.
  assert (E : exists r, urlsplit lib url = Ok r).
  { unfold urlsplit.
    apply (forallb_lstrip plain_host_char c0_control_or_space) in H.
    apply (forallb_filter plain_host_char (fun c => negb (unsafe_url_byte c))) in H.
    apply forallb_split_scheme in H.
    destruct (split_scheme _) as [sch u1]. simpl in H.
    assert (Hn : Str.forallb plain_host_char
                   (fst (match Str.strip_prefix "//" u1 with
                         | Some rest => splitnetloc rest
                         | None => (EmptyString, u1)
                         end)) = true).
    { destruct (Str.strip_prefix "//" u1) as [rest|] eqn:E; [|reflexivity].
      apply forallb_splitnetloc. eapply forallb_strip_prefix; eauto. }
    destruct (match Str.strip_prefix "//" u1 with
              | Some rest => splitnetloc rest
              | None => (EmptyString, u1)
              end) as [nl u2]. simpl in Hn.
    destruct (plain_host_no_bracket nl Hn) as (H1 & H2 & H3).
    rewrite H1, H2. cbn [andb orb negb].
    destruct (Str.partition "#" u2) as [u3 [f|]];
      destruct (Str.partition "?" u3) as [u4 [q|]];
      unfold checknetloc; rewrite H3, orb_true_r; eauto. }
  destruct E as (r & ->).
  destruct (existsb _ _ && _); [destruct (splitparams _)|]; eauto.
Qed.

End UrlFacts.

(** ** The fetcher *)

Lemma offline_raise_for_status r : offline (raise_for_status r).
Proof. unfold raise_for_status. combinators. Qed.

#[export] Hint Resolve offline_raise_for_status : offline.

(** Once the identifier is known, the one request goes to its download
    URL. *)
Lemma download_requests (lib : urllib) (url : string) (output_path : path)
  (chunk_size : N) (w : world) (file_id : string) :
  figshare_file_id lib url = Ok file_id ->
  requests (snd (download_from_figshare lib url output_path chunk_size w))
  = (requests w ++ [download_url_of file_id])%list.
Proof.
  intros H. unfold download_from_figshare.
  assert (L : lift (figshare_file_id lib url) w = (Ok file_id, w))
    by (unfold lift; now rewrite H).
  rewrite (bind_ok _ L), (bind_ok _ (logger_eq _ _ _)). cbv zeta.
  match goal with |- context [bind (requests_get ?u) ?k ?w1] =>
    assert (Hk : forall r, offline (k r)) by (intros r; combinators);
    unfold bind at 1; unfold requests_get at 1;
    destruct (remote w1 u) as [r | e]; [rewrite (Hk r)|]; reflexivity
  end.
Qed.

(** Without an identifier nothing happens at all. *)
Lemma download_raised (lib : urllib) (url : string) (output_path : path)
  (chunk_size : N) (w : world) (e : exn) :
  figshare_file_id lib url = Raised e ->
  download_from_figshare lib url output_path chunk_size w = (Raised e, w).
Proof.
  intros H. unfold download_from_figshare.
  apply bind_raised. unfold lift. now rewrite H.
Qed.

(** A query string that starts with [file=<id>]. *)
Lemma file_values_head (lib : urllib) (id rest : string) :
  id <> EmptyString ->
  Str.mem "&" id = false -> Str.mem "%" id = false -> Str.mem "+" id = false ->
  rest = EmptyString \/ (exists r, rest = String "&" r) ->
  exists vs, file_values lib ("file=" ++ id ++ rest) = id :: vs.
Proof.
  intros Hne Hamp Hpct Hplus Hrest.
  assert (Hfield : forall vs,
    (match Str.partition "=" ("file=" ++ id) with
     | (n, Some v) =>
         if String.eqb "file" (decode lib n) && negb (Str.is_empty v)
         then [decode lib v] else []
     | (_, None) => []
     end ++ vs)%list = id :: vs).
  { intros vs.
    change ("file=" ++ id)%string with ("file" ++ String "=" id)%string.
    rewrite StrFacts.partition_app by reflexivity.
    replace (decode lib "file") with "file" by reflexivity.
    assert (Hd : decode lib id = id).
    { unfold decode, Urllib.unquote.
      now rewrite (StrFacts.replace_none _ _ _ Hplus), Hpct. }
    rewrite Hd. destruct id; [contradiction | reflexivity]. }
  assert (Hmem : Str.mem "&" ("file=" ++ id) = false)
    by (rewrite StrFacts.mem_app, Hamp; reflexivity).
  unfold file_values. destruct Hrest as [-> | (r & ->)].
  - rewrite StrFacts.append_nil_r, (StrFacts.split_none _ _ Hmem).
    cbn [flat_map]. eauto.
  - replace ("file=" ++ id ++ String "&" r)%string
      with (("file=" ++ id) ++ String "&" r)%string
      by (now rewrite StrFacts.append_assoc).
    rewrite (StrFacts.split_app _ _ _ Hmem). cbn [flat_map]. eauto.
Qed.

(** The same for a URL in which [?file=<id>] opens the query string. *)
Lemma file_values_of_url (lib : urllib) (pre id rest : string)
  (parsed : Urllib.ParseResult) :
  printable (pre ++ "?file=" ++ id ++ rest) = true ->
  Str.mem "?" pre = false -> Str.mem "#" pre = false ->
  id <> EmptyString ->
  Str.mem "&" id = false -> Str.mem "%" id = false -> Str.mem "+" id = false ->
  Str.mem "#" id = false ->
  rest = EmptyString
  \/ (exists c r, rest = String c r /\ (c = "&"%char \/ c = "#"%char)) ->
  Urllib.urlparse lib (pre ++ "?file=" ++ id ++ rest) = Ok parsed ->
  exists vs, file_values lib (Urllib.query parsed) = id :: vs.
Proof.
  intros Hp Hq Hh Hne Hamp Hpct Hplus Hhash Hrest H.
  assert (Hb : before_query (pre ++ "?file=" ++ id ++ rest) ("file=" ++ id ++ rest))
    by (exists pre; now repeat split).
  rewrite (UrlFacts.urlparse_query lib _ _ parsed Hp Hb H).
  replace ("file=" ++ id ++ rest)%string with (("file=" ++ id) ++ rest)%string
    by (now rewrite StrFacts.append_assoc).
  rewrite UrlFacts.partition_right
    by (rewrite StrFacts.mem_app, Hhash; reflexivity).
  cbn [fst]. rewrite StrFacts.append_assoc.
  apply file_values_head; try assumption.
  destruct Hrest as [-> | (c & r & -> & [-> | ->])].
  - now left.
  - right. rewrite (UrlFacts.partition_cons_other "#" "&" r eq_refl). cbn [fst]. eauto.
  - now left.
Qed.

(** C1.  A URL in which [?file=<id>] opens the query string, alone or
    followed by further parameters or a fragment, resolves to [<id>]; a
    URL without a [file] parameter resolves to the digits of its first
    [/files/<digits>] segment; in both cases the request goes to the
    download URL of that identifier.  A URL with neither makes
    [download_from_figshare] raise [ValueError] with the state as it was:
    no request is issued. *)
Theorem file_id_resolution (lib : urllib) (url : string) (output_path : path)
  (chunk_size : N) (w : world) :
  (forall parsed pre id rest,
     Urllib.urlparse lib url = Ok parsed ->
     url = pre ++ "?file=" ++ id ++ rest ->
     printable url = true ->
     Str.mem "?" pre = false -> Str.mem "#" pre = false ->
     id <> EmptyString ->
     Str.mem "&" id = false -> Str.mem "%" id = false -> Str.mem "+" id = false ->
     Str.mem "#" id = false ->
     rest = EmptyString
     \/ (exists c r, rest = String c r /\ (c = "&"%char \/ c = "#"%char)) ->
     figshare_file_id lib url = Ok id
     /\ requests (snd (download_from_figshare lib url output_path chunk_size w))
        = (requests w ++ [download_url_of id])%list)
  /\
  (forall parsed pre id rest,
     Urllib.urlparse lib url = Ok parsed ->
     file_values lib (Urllib.query parsed) = [] ->
     url = pre ++ "/files/" ++ id ++ rest ->
     id <> EmptyString -> Str.forallb Str.is_digit id = true ->
     rest = EmptyString \/ (exists c r, rest = String c r /\ Str.is_digit c = false) ->
     re_search_files (pre ++ "/files/") = None ->
     figshare_file_id lib url = Ok id
     /\ requests (snd (download_from_figshare lib url output_path chunk_size w))
        = (requests w ++ [download_url_of id])%list)
  /\
  ((forall parsed,
      Urllib.urlparse lib url = Ok parsed ->
      file_values lib (Urllib.query parsed) = []) ->
   (forall pre d rest,
      url = pre ++ "/files/" ++ String d rest -> Str.is_digit d = false) ->
   exists msg,
     download_from_figshare lib url output_path chunk_size w
     = (Raised (Exn ValueError msg), w)).
Proof.
  split; [|split].
  - intros parsed pre id rest Hp Hurl Hpr Hq Hh Hne Hamp Hpct Hplus Hhash Hrest.
    assert (E : figshare_file_id lib url = Ok id).
    { rewrite (figshare_file_id_spec lib url parsed Hp). subst url.
      destruct (file_values_of_url lib pre id rest parsed Hpr Hq Hh Hne Hamp Hpct
                  Hplus Hhash Hrest Hp) as (vs & ->).
      reflexivity. }
    split; [exact E | now apply download_requests].
  - intros parsed pre id rest Hp Hq Hurl Hne Hid Hrest Hfirst.
    assert (E : figshare_file_id lib url = Ok id).
    { rewrite (figshare_file_id_spec lib url parsed Hp), Hq.
      unfold path_segment_id. subst url.
      now rewrite (SearchFacts.first_segment pre id rest Hfirst Hne Hid Hrest). }
    split; [exact E | now apply download_requests].
  - intros Hq Hnone.
    assert (E : exists msg, figshare_file_id lib url = Raised (Exn ValueError msg)).
    { destruct (Urllib.urlparse lib url) as [parsed | e] eqn:Hp.
      - rewrite (figshare_file_id_spec lib url parsed Hp), (Hq parsed eq_refl).
        unfold path_segment_id. rewrite (SearchFacts.no_segment url Hnone).
        eexists. reflexivity.
      - unfold figshare_file_id. rewrite Hp.
        unfold Urllib.urlparse in Hp.
        destruct (Urllib.urlsplit lib url) as [r | e'] eqn:Hs.
        + destruct (existsb _ _ && _); [destruct (Urllib.splitparams _)|];
            discriminate.
        + inversion Hp; subst e'. clear Hp. unfold Urllib.urlsplit in Hs.
          repeat match type of Hs with
                 | context [let '(_, _) := ?x in _] => destruct x
                 | context [if ?b then _ else _] => destruct b
                 end; inversion Hs; eexists; reflexivity. }
    destruct E as (msg & E). exists msg. now apply download_raised.
Qed.

(** * The claims at sample states *)

Example process_dataset_sample :
  fst (process_dataset Sample.raw_zip Sample.processed Sample.extracted
         Sample.downloaded) = Ok tt
  /\ FS.scandir
       (fs (snd (process_dataset Sample.raw_zip Sample.processed Sample.extracted
                   Sample.downloaded)))
       Sample.processed
     = ["prevalence_data.csv"; "adjacency_matrices_metadata.csv"]
  /\ FS.scandir
       (fs (snd (process_dataset Sample.raw_zip Sample.processed Sample.extracted
                   Sample.downloaded)))
       Sample.data_dir
     = ["1.Prevalence"; "3.AdjacencyMatrices"].
Proof. repeat split; vm_compute; reflexivity. Qed.

Example urlparse_sample :
  Urllib.urlparse Sample.lib "http://Example.org/a;b?file=1&x=#top"
  = Ok {| Urllib.scheme := "http"; Urllib.netloc := "Example.org";
          Urllib.path := "/a"; Urllib.params := "b";
          Urllib.query := "file=1&x="; Urllib.fragment := "top" |}
  /\ Urllib.parse_qs Sample.lib "file=1&x=&file=2+3" = [("file", ["1"; "2 3"])]
  /\ Urllib.urlparse Sample.lib "http://[::1/?file=1" = Raised Urllib.invalid_ipv6.
Proof. repeat split; vm_compute; reflexivity. Qed.

Lemma run_download_step_witness :
  requests (snd (run Sample.lib Sample.figshare_url Sample.raw_zip
                   Sample.extracted Sample.processed false Sample.downloaded)) = []
  /\ fst (run Sample.lib Sample.figshare_url Sample.raw_zip
            Sample.extracted Sample.processed true Sample.empty)
     = Raised (Exn FileNotFoundError
                 "Download file not found: /raw/comorbidity_networks_data.zip").
Proof.
  destruct (run_download_step Sample.lib Sample.figshare_url Sample.raw_zip
              Sample.extracted Sample.processed Sample.downloaded) as [Ha _].
  destruct (run_download_step Sample.lib Sample.figshare_url Sample.raw_zip
              Sample.extracted Sample.processed Sample.empty) as [_ Hb].
  split.
  - destruct (Ha eq_refl) as (_ & _ & _ & R). exact R.
  - rewrite (Hb eq_refl). reflexivity.
Defined.

Lemma process_dataset_fatal_witness :
  fs (snd (process_dataset Sample.raw_zip Sample.processed Sample.extracted
             Sample.empty)) = Dir []
  /\ fst (process_dataset Sample.raw_zip Sample.processed Sample.extracted
            Sample.not_an_archive)
     = Raised (Exn BadZipFile "File is not a zip file").
Proof.
  destruct (process_dataset_fatal Sample.raw_zip Sample.processed Sample.extracted
              Sample.empty) as [Ha _].
  destruct (process_dataset_fatal Sample.raw_zip Sample.processed Sample.extracted
              Sample.not_an_archive) as [_ Hb].
  split.
  - destruct (Ha eq_refl) as (_ & R). exact R.
  - destruct (Hb eq_refl) as (R & _).
    rewrite (R (Exn BadZipFile "File is not a zip file")
               (snd (extract_zip Sample.raw_zip Sample.extracted
                       (Sample.started Sample.not_an_archive)))).
    + reflexivity.
    + vm_compute. reflexivity.
Defined.

Lemma sampling_tolerates_load_failure_witness :
  sample_matrices Sample.data_dir [["missing.csv"]; ["other.csv"]] [] Sample.empty
  = sample_matrices Sample.data_dir [["other.csv"]] []
      (add_log Sample.empty
         (WARNING, "Error processing missing.csv: [Errno 2] No such file or directory: /missing.csv")).
Proof.
  destruct (sampling_tolerates_load_failure Sample.data_dir ["missing.csv"]
              [["other.csv"]] [] Sample.empty Sample.empty
              (FS.enoent ["missing.csv"])) as (R & _).
  - vm_compute. reflexivity.
  - exact R.
Defined.

Lemma query_parameter_precedence_witness :
  figshare_file_id Sample.lib "https://figshare.com/files/1?file=abc&file=2" = Ok "abc".
Proof.
  apply (query_parameter_precedence Sample.lib
           "https://figshare.com/files/1?file=abc&file=2"
           {| Urllib.scheme := "https"; Urllib.netloc := "figshare.com";
              Urllib.path := "/files/1"; Urllib.params := "";
              Urllib.query := "file=abc&file=2"; Urllib.fragment := "" |}).
  vm_compute. reflexivity.
Defined.

Lemma file_id_resolution_witness :
  figshare_file_id Sample.lib Sample.figshare_url = Ok "52015403"
  /\ figshare_file_id Sample.lib "https://figshare.com/ndownloader/files/52015403"
     = Ok "52015403"
  /\ fst (download_from_figshare Sample.lib
            "https://figshare.com/articles/dataset/27102553" Sample.raw_zip 8192
            Sample.empty)
     = Raised (Exn ValueError
                 "Could not extract file ID from URL: https://figshare.com/articles/dataset/27102553").
Proof.
  split; [|split].
  - destruct (file_id_resolution Sample.lib Sample.figshare_url Sample.raw_zip
                8192 Sample.empty) as (H & _).
    refine (proj1 (H {| Urllib.scheme := "https"; Urllib.netloc := "figshare.com";
                        Urllib.path := "/articles/dataset/Comorbidity_Networks_From_Population-Wide_Health_Data_Aggregated_Data_of_8_9M_Hospital_Patients_1997-2014_/27102553";
                        Urllib.params := ""; Urllib.query := "file=52015403";
                        Urllib.fragment := "" |}
                     "https://figshare.com/articles/dataset/Comorbidity_Networks_From_Population-Wide_Health_Data_Aggregated_Data_of_8_9M_Hospital_Patients_1997-2014_/27102553"
                     "52015403" EmptyString _ _ _ _ _ _ _ _ _ _ _));
      try (vm_compute; reflexivity); [discriminate | now left].
  - destruct (file_id_resolution Sample.lib
                "https://figshare.com/ndownloader/files/52015403" Sample.raw_zip
                8192 Sample.empty) as (_ & H & _).
    refine (proj1 (H {| Urllib.scheme := "https"; Urllib.netloc := "figshare.com";
                        Urllib.path := "/ndownloader/files/52015403";
                        Urllib.params := ""; Urllib.query := "";
                        Urllib.fragment := "" |}
                     "https://figshare.com/ndownloader" "52015403" EmptyString
                     _ _ _ _ _ _ _));
      try (vm_compute; reflexivity); [discriminate | now left].
  - destruct (file_id_resolution Sample.lib
                "https://figshare.com/articles/dataset/27102553" Sample.raw_zip
                8192 Sample.empty) as (_ & _ & H).
    destruct H as (msg & E).
    + intros parsed Hp. vm_compute in Hp. inversion Hp. reflexivity.
    + apply SearchFacts.search_none. vm_compute. reflexivity.
    + rewrite E. f_equal. f_equal.
      assert (X : download_from_figshare Sample.lib
                "https://figshare.com/articles/dataset/27102553" Sample.raw_zip
                8192 Sample.empty
              = (Raised (Exn ValueError
                   "Could not extract file ID from URL: https://figshare.com/articles/dataset/27102553"),
                 Sample.empty)) by (vm_compute; reflexivity).
      rewrite X in E. now inversion E.
Defined.

Lemma metadata_write_without_output_dir_witness :
  exists w',
    process_dataset Sample.raw_zip Sample.processed Sample.extracted
      Sample.downloaded_without_prevalence
    = (Raised (Exn OSError
                 "Cannot save file into a non-existent directory: '/processed'"), w')
    /\ FS.exists_ (fs w') (Sample.processed // metadata_name) = false.
Proof.
  destruct (metadata_write_without_output_dir
              Sample.raw_zip Sample.processed Sample.extracted Sample.data_dir
              Sample.downloaded_without_prevalence
              (snd (extract_zip Sample.raw_zip Sample.extracted
                      (Sample.started Sample.downloaded_without_prevalence)))
              "Adj_Matrix_Female_ICD_age_1.csv"
              ["A04"; "B37"; "C18"]
              [["0"; "1.2"; "0"]; ["1.2"; "0"; "3.4"]; ["0"; "3.4"; "0"]])
    as (_ & w' & H & _ & _ & Hm); try (vm_compute; reflexivity).
  - vm_compute. now left.
  - exists w'. split; [exact H | exact Hm].
Defined.

Lemma metadata_table_records_witness :
  exists w' table,
    process_dataset Sample.raw_zip Sample.processed Sample.extracted Sample.downloaded
    = (Ok tt, w')
    /\ FS.lookup (fs w') (Sample.processed // metadata_name)
       = Some (File (Table ["filename"; "shape"; "file_path"] table))
    /\ length table = 5.
Proof.
  destruct (metadata_table_records
              Sample.raw_zip Sample.processed Sample.extracted Sample.data_dir
              Sample.downloaded
              (snd (extract_zip Sample.raw_zip Sample.extracted
                      (Sample.started Sample.downloaded))))
    as (w' & table & H1 & H2 & _ & _ & H5 & _); try (vm_compute; reflexivity).
  - vm_compute. discriminate.
  - intros name Hin. vm_compute in Hin.
    repeat (destruct Hin as [<- | Hin];
            [eexists; eexists; vm_compute; reflexivity|]).
    destruct Hin.
  - exists w', table. split; [exact H1|]. split; [exact H2|].
    apply H5. vm_compute. lia.
Defined.

Lemma prevalence_copy_witness :
  FS.lookup
    (fs (snd (process_dataset Sample.raw_zip Sample.processed Sample.extracted
                Sample.downloaded)))
    (Sample.processed // prevalence_name)
  = Some (File Sample.prevalence_table).
Proof.
  destruct (prevalence_copy
              Sample.raw_zip Sample.processed Sample.extracted Sample.data_dir
              Sample.downloaded
              (snd (extract_zip Sample.raw_zip Sample.extracted
                      (Sample.started Sample.downloaded)))
              ["sex"; "age_group"; "year"; "icd_code"; "p"]
              [["Female"; "1"; "2003"; "A04"; "0.0012"];
               ["Male"; "1"; "2003"; "A04"; "0.0015"];
               ["Male"; "2"; "2005"; "B37"; "0.0003"]]
              (match FS.makedirs
                       (fs (snd (extract_zip Sample.raw_zip Sample.extracted
                                   (Sample.started Sample.downloaded))))
                       Sample.processed with
               | Ok n => n
               | Raised _ => Dir []
               end))
    as (copy & H & _ & E & _); [vm_compute; reflexivity .. |].
  rewrite H, E. reflexivity.
Defined.

Lemma extract_zip_entries_witness :
  FS.lookup
    (fs (snd (extract_zip Sample.raw_zip Sample.extracted Sample.downloaded)))
    (Sample.data_dir // "1.Prevalence" // "Prevalence_Sex_Age_Year_ICD.csv")
  = Some (File Sample.prevalence_table)
  /\ ~ In "Data/.DS_Store" (file_list (namelist Sample.archive)).
Proof.
  destruct (extract_zip_entries Sample.raw_zip Sample.extracted Sample.downloaded
              Sample.archive eq_refl) as (H1 & _ & H3 & _).
  split.
  - pose proof (H3 Sample.data_dir
                  (snd (extract_zip Sample.raw_zip Sample.extracted Sample.downloaded))
                  ltac:(vm_compute; reflexivity)
                  "Data/1.Prevalence/Prevalence_Sex_Age_Year_ICD.csv"
                  ltac:(vm_compute; tauto) eq_refl) as X.
    change (member_is_dir "Data/1.Prevalence/Prevalence_Sex_Age_Year_ICD.csv")
      with false in X. cbv iota in X. destruct X as (_ & X).
    apply (X Sample.prevalence_table).
    intros name' Hin Ht _. vm_compute in Hin.
    repeat (destruct Hin as [<- | Hin];
            [try (vm_compute; reflexivity); vm_compute in Ht; discriminate Ht|]).
    destruct Hin.
  - intros Hin. apply H1 in Hin. destruct Hin as (_ & _ & Hin).
    vm_compute in Hin. discriminate.
Defined.

(** * Further properties of the code *)

Open Scope list_scope.

(** ** Where files come from *)

Module FSBack.

Import FS.

Lemma lookup_fresh_no_file (p q : path) (d : filedata) :
  lookup_opt (Some (fresh_dirs p)) q = Some (File d) -> False.
Proof.
  revert q. induction p as [|c p IH]; intros q H.
  - destruct q as [|k q]; simpl in H; [discriminate|].
    now rewrite FSFacts.lookup_opt_none in H.
  - destruct q as [|k q]; simpl in H; [discriminate|].
    destruct (String.eqb k c); [eauto|].
    now rewrite FSFacts.lookup_opt_none in H.
Qed.

Lemma alter_back (full p : path) (g : option node -> result node)
  (o : option node) (x : node) (q : path) (d : filedata) :
  alter full p g o = Ok x ->
  lookup_opt (Some x) q = Some (File d) ->
  (exists y r, g (lookup_opt o p) = Ok y /\ q = p ++ r
               /\ lookup_opt (Some y) r = Some (File d))
  \/ lookup_opt o q = Some (File d).
Proof.
  revert o x q. induction p as [|c p IH]; intros o x q H Hq; simpl in *.
  - left. exists x, q. now repeat split.
  - destruct o as [[d0 | es]|]; try discriminate.
    destruct (alter full p g (assoc c es)) as [x' |] eqn:E; [|discriminate].
    inversion H; subst x.
    destruct q as [|k q]; [discriminate|]. simpl in Hq |- *.
    destruct (string_dec k c) as [-> | Hk].
    + rewrite FSFacts.assoc_put_same in Hq.
      destruct (IH _ _ _ E Hq) as [(y & r & Hy & -> & Hr) | Hold].
      * left. exists y, r. now repeat split.
      * now right.
    + rewrite FSFacts.assoc_put_other in Hq by assumption. now right.
Qed.

Lemma makedirs_opt_back (full p : path) (o : option node) (x : node)
  (q : path) (d : filedata) :
  makedirs_opt full p o = Ok x ->
  lookup_opt (Some x) q = Some (File d) -> lookup_opt o q = Some (File d).
Proof.
  revert o x q. induction p as [|c p IH]; intros o x q H Hq.
  - destruct o as [[d0 | es]|]; simpl in H; try discriminate.
    + now inversion H; subst x.
    + inversion H; subst x. now apply (lookup_fresh_no_file []) in Hq.
  - destruct o as [[d0 | es]|]; simpl in H; try discriminate.
    + destruct (makedirs_opt full p (assoc c es)) as [x' |] eqn:E; [|discriminate].
      inversion H; subst x.
      destruct q as [|k q]; [discriminate|]. simpl in Hq |- *.
      destruct (string_dec k c) as [-> | Hk].
      * rewrite FSFacts.assoc_put_same in Hq. eauto.
      * now rewrite FSFacts.assoc_put_other in Hq.
    + inversion H; subst x. now apply (lookup_fresh_no_file (c :: p)) in Hq.
Qed.

(** A file after [write_file] is the one written or was there before. *)
Lemma write_file_back (n n' : node) (p q : path) (d x : filedata) :
  write_file n p d = Ok n' -> lookup n' q = Some (File x) ->
  lookup n q = Some (File x) \/ (q = p /\ x = d).
Proof.
  intros H Hq.
  destruct (alter_back _ _ _ _ _ _ _ H Hq) as [(y & r & Hy & -> & Hr) | Hold];
    [|now left].
  right. assert (y = File d) by (destruct (lookup_opt (Some n) p) as [[|]|]; congruence).
  subst y. destruct r as [|k r]; simpl in Hr; [|discriminate].
  rewrite app_nil_r. split; congruence.
Qed.

(** [mkdir] and [makedirs] make no file. *)
Lemma mkdir_back (n n' : node) (p q : path) (x : filedata) :
  mkdir n p = Ok n' -> lookup n' q = Some (File x) -> lookup n q = Some (File x).
Proof.
  intros H Hq.
  destruct (alter_back _ _ _ _ _ _ _ H Hq) as [(y & r & Hy & -> & Hr) | Hold];
    [|exact Hold].
  exfalso. assert (y = Dir []) by (destruct (lookup_opt (Some n) p); congruence).
  subst y. now apply (lookup_fresh_no_file []) in Hr.
Qed.

Lemma makedirs_back (n n' : node) (p q : path) (x : filedata) :
  makedirs n p = Ok n' -> lookup n' q = Some (File x) -> lookup n q = Some (File x).
Proof. apply makedirs_opt_back. Qed.

Lemma is_prefix_app (p r : path) : is_prefix p (p ++ r) = true.
Proof.
  induction p as [|c p IH]; simpl; [reflexivity|].
  now rewrite String.eqb_refl.
Qed.

Lemma is_prefix_spec (p q : path) :
  is_prefix p q = true <-> exists r, q = p ++ r.
Proof.
  split.
  - revert q. induction p as [|c p IH]; intros q H; simpl in *; [eauto|].
    destruct q as [|k q]; [discriminate|].
    apply andb_true_iff in H. destruct H as [E H].
    apply String.eqb_eq in E. subst k.
    destruct (IH q H) as (r & ->). eauto.
  - intros (r & ->). apply is_prefix_app.
Qed.

End FSBack.

Lemma persists_refl (n : node) : persists n n.
Proof. split; eauto. Qed.

Lemma persists_trans (n1 n2 n3 : node) :
  persists n1 n2 -> persists n2 n3 -> persists n1 n3.
Proof.
  intros [F1 D1] [F2 D2]. split; [|auto].
  intros q x H. destruct (F1 q x H) as (x' & H'). eauto.
Qed.

Lemma extends_persists (n n' : node) : extends n n' -> persists n n'.
Proof. intros [F D]. split; eauto. Qed.

Lemma persists_write_file (n n' : node) (p : path) (d : filedata) :
  FS.write_file n p d = Ok n' -> persists n n'.
Proof.
  intros H. split.
  - intros q x Hq. destruct (list_eq_dec string_dec q p) as [-> | Hne].
    + exists d. eapply FSFacts.write_file_same; eauto.
    + exists x. eapply FSFacts.write_file_other; eauto.
  - intros q. eapply FSFacts.write_file_dir; eauto.
Qed.

Lemma new_files_refl (allowed : path -> Prop) (n : node) : new_files_in allowed n n.
Proof. intros q d H. now left. Qed.

Lemma new_files_trans (allowed : path -> Prop) (n1 n2 n3 : node) :
  new_files_in allowed n1 n2 -> new_files_in allowed n2 n3 ->
  new_files_in allowed n1 n3.
Proof.
  intros H1 H2 q d H. destruct (H2 q d H) as [H' | Ha]; [|now right].
  now apply H1.
Qed.

Create HintDb fsinv.

Section FsInvariants.

Context {A B : Type}.
Variable allowed : path -> Prop.

Lemma never_deletes_readonly (m : M A) : readonly m -> never_deletes m.
Proof. intros H w. rewrite H. apply persists_refl. Qed.

Lemma never_deletes_bind (m : M A) (k : A -> M B) :
  never_deletes m -> (forall a, never_deletes (k a)) -> never_deletes (bind m k).
Proof.
  intros Hm Hk w. unfold bind. specialize (Hm w).
  destruct (m w) as [[a | e] w1]; simpl in *; [|exact Hm].
  eapply persists_trans; [exact Hm | apply Hk].
Qed.

Lemma never_deletes_try (m : M A) (h : exn -> M A) :
  never_deletes m -> (forall e, never_deletes (h e)) -> never_deletes (try_except m h).
Proof.
  intros Hm Hh w. unfold try_except. specialize (Hm w).
  destruct (m w) as [[a | e] w1]; simpl in *; [exact Hm|].
  eapply persists_trans; [exact Hm | apply Hh].
Qed.

Lemma writes_only_readonly (m : M A) : readonly m -> writes_only allowed m.
Proof. intros H w. rewrite H. apply new_files_refl. Qed.

Lemma writes_only_bind (m : M A) (k : A -> M B) :
  writes_only allowed m -> (forall a, writes_only allowed (k a)) ->
  writes_only allowed (bind m k).
Proof.
  intros Hm Hk w. unfold bind. specialize (Hm w).
  destruct (m w) as [[a | e] w1]; simpl in *; [|exact Hm].
  eapply new_files_trans; [exact Hm | apply Hk].
Qed.

Lemma writes_only_try (m : M A) (h : exn -> M A) :
  writes_only allowed m -> (forall e, writes_only allowed (h e)) ->
  writes_only allowed (try_except m h).
Proof.
  intros Hm Hh w. unfold try_except. specialize (Hm w).
  destruct (m w) as [[a | e] w1]; simpl in *; [exact Hm|].
  eapply new_files_trans; [exact Hm | apply Hh].
Qed.

End FsInvariants.

Lemma writes_only_weaken {A : Type} (P Q : path -> Prop) (m : M A) :
  (forall q, P q -> Q q) -> writes_only P m -> writes_only Q m.
Proof.
  intros HPQ H w q d Hq. destruct (H w q d Hq); [now left | right; auto].
Qed.

Lemma never_deletes_fs_op (f : node -> result node) :
  (forall n n', f n = Ok n' -> persists n n') -> never_deletes (fs_op f).
Proof.
  intros H w. unfold fs_op, bind, get_fs.
  destruct (f (fs w)) as [n' |] eqn:E; simpl; [now apply H | apply persists_refl].
Qed.

Lemma writes_only_fs_op (allowed : path -> Prop) (f : node -> result node) :
  (forall n n', f n = Ok n' -> new_files_in allowed n n') ->
  writes_only allowed (fs_op f).
Proof.
  intros H w. unfold fs_op, bind, get_fs.
  destruct (f (fs w)) as [n' |] eqn:E; simpl; [now apply H | apply new_files_refl].
Qed.

Lemma never_deletes_mkdir_parents p : never_deletes (mkdir_parents p).
Proof.
  apply never_deletes_fs_op. intros n n' H.
  apply extends_persists. eapply extends_makedirs; eauto.
Qed.

Lemma writes_only_mkdir_parents allowed p : writes_only allowed (mkdir_parents p).
Proof.
  apply writes_only_fs_op. intros n n' H q d Hq. left.
  eapply FSBack.makedirs_back; eauto.
Qed.

Lemma never_deletes_write p d :
  never_deletes (fs_op (fun n => FS.write_file n p d)).
Proof. apply never_deletes_fs_op. intros n n'. apply persists_write_file. Qed.

Lemma writes_only_write (allowed : path -> Prop) p d :
  allowed p -> writes_only allowed (fs_op (fun n => FS.write_file n p d)).
Proof.
  intros Hp. apply writes_only_fs_op. intros n n' H q x Hq.
  destruct (FSBack.write_file_back _ _ _ _ _ _ H Hq) as [Hold | [-> _]]; auto.
Qed.

Lemma never_deletes_mkdir p : never_deletes (fs_op (fun n => FS.mkdir n p)).
Proof.
  apply never_deletes_fs_op. intros n n' H.
  apply extends_persists. eapply extends_mkdir; eauto.
Qed.

Lemma writes_only_mkdir allowed p :
  writes_only allowed (fs_op (fun n => FS.mkdir n p)).
Proof.
  apply writes_only_fs_op. intros n n' H q d Hq. left.
  eapply FSBack.mkdir_back; eauto.
Qed.

#[export] Hint Resolve never_deletes_mkdir_parents never_deletes_write
  never_deletes_mkdir writes_only_mkdir_parents writes_only_mkdir : fsinv.

(** Steps through a computation for [never_deletes] and [writes_only]. *)
Ltac fsinv :=
  repeat (intros;
          match goal with
          | |- never_deletes (bind _ _) => apply never_deletes_bind
          | |- never_deletes (try_except _ _) => apply never_deletes_try
          | |- writes_only _ (bind _ _) => apply writes_only_bind
          | |- writes_only _ (try_except _ _) => apply writes_only_try
          | |- context [match ?x with _ => _ end] => destruct x
          | |- never_deletes _ =>
              solve [auto with fsinv
                    | apply never_deletes_readonly; auto with readonly]
          | |- writes_only _ _ =>
              solve [auto with fsinv
                    | apply writes_only_readonly; auto with readonly]
          end).

Lemma readonly_requests_get u : readonly (requests_get u).
Proof. easy. Qed.

Lemma readonly_raise_for_status r : readonly (raise_for_status r).
Proof. unfold raise_for_status. combinators. Qed.

Lemma readonly_ZipFile p : readonly (ZipFile p).
Proof. unfold ZipFile. combinators. Qed.

#[export] Hint Resolve readonly_requests_get readonly_raise_for_status
  readonly_ZipFile : readonly.

Lemma never_deletes_for_each {A : Type} (xs : list A) (body : A -> M unit) :
  (forall x, never_deletes (body x)) -> never_deletes (for_each xs body).
Proof.
  intros H. induction xs; simpl.
  - apply never_deletes_readonly. auto with readonly.
  - apply never_deletes_bind; auto.
Qed.

Lemma writes_only_for_each {A : Type} allowed (xs : list A) (body : A -> M unit) :
  (forall x, writes_only allowed (body x)) -> writes_only allowed (for_each xs body).
Proof.
  intros H. induction xs; simpl.
  - apply writes_only_readonly. auto with readonly.
  - apply writes_only_bind; auto.
Qed.

Lemma never_deletes_extract ms name dest : never_deletes (extract ms name dest).
Proof. unfold extract. fsinv. Qed.

Lemma writes_only_extract ms name dest :
  writes_only (below dest) (extract ms name dest).
Proof.
  unfold extract. fsinv.
  apply writes_only_write. apply FSBack.is_prefix_app.
Qed.

#[export] Hint Resolve never_deletes_extract : fsinv.

Lemma never_deletes_extract_zip z e : never_deletes (extract_zip z e).
Proof.
  unfold extract_zip. fsinv.
  apply never_deletes_for_each. auto with fsinv.
Qed.

Lemma writes_only_extract_zip z e : writes_only (below e) (extract_zip z e).
Proof.
  unfold extract_zip. fsinv.
  apply writes_only_for_each. intros. apply writes_only_extract.
Qed.

Lemma never_deletes_to_csv df p i : never_deletes (to_csv df p i).
Proof. unfold to_csv. fsinv. Qed.

Lemma writes_only_to_csv (allowed : path -> Prop) df p i :
  allowed p -> writes_only allowed (to_csv df p i).
Proof. intros H. unfold to_csv. fsinv. now apply writes_only_write. Qed.

#[export] Hint Resolve never_deletes_extract_zip never_deletes_to_csv : fsinv.

Lemma never_deletes_process_prevalence p o : never_deletes (process_prevalence p o).
Proof. unfold process_prevalence. fsinv. Qed.

Lemma never_deletes_process_adjacency d a o : never_deletes (process_adjacency d a o).
Proof. unfold process_adjacency. fsinv. Qed.

#[export] Hint Resolve never_deletes_process_prevalence
  never_deletes_process_adjacency : fsinv.

Lemma never_deletes_process_dataset i o e : never_deletes (process_dataset i o e).
Proof. unfold process_dataset. fsinv. Qed.

Lemma never_deletes_download lib url p c :
  never_deletes (download_from_figshare lib url p c).
Proof. unfold download_from_figshare. fsinv. Qed.

#[export] Hint Resolve never_deletes_process_dataset never_deletes_download : fsinv.

(** The paths at which [process_dataset] may leave a new file. *)
Lemma writes_only_process_prevalence (allowed : path -> Prop) p o :
  allowed (o // prevalence_name) -> writes_only allowed (process_prevalence p o).
Proof. intros H. unfold process_prevalence. fsinv. now apply writes_only_to_csv. Qed.

Lemma writes_only_process_adjacency (allowed : path -> Prop) d a o :
  allowed (o // metadata_name) -> writes_only allowed (process_adjacency d a o).
Proof. intros H. unfold process_adjacency. fsinv. now apply writes_only_to_csv. Qed.

Lemma writes_only_process_dataset i o e :
  writes_only (process_outputs o e) (process_dataset i o e).
Proof.
  unfold process_dataset. fsinv.
  - apply (writes_only_weaken (below e)); [unfold process_outputs; tauto|].
    apply writes_only_extract_zip.
  - apply writes_only_process_prevalence. unfold process_outputs. tauto.
  - apply writes_only_process_adjacency. unfold process_outputs. tauto.
Qed.

Lemma writes_only_download lib url p c :
  writes_only (eq p) (download_from_figshare lib url p c).
Proof.
  unfold download_from_figshare. fsinv; now apply writes_only_write.
Qed.

Lemma never_deletes_run lib url dp et od skip :
  never_deletes (run lib url dp et od skip).
Proof. unfold run. fsinv. Qed.

Lemma writes_only_run lib url dp et od skip :
  writes_only (run_outputs dp et od) (run lib url dp et od skip).
Proof.
  unfold run. fsinv.
  - apply (writes_only_weaken (eq dp)); [unfold run_outputs; intros; now left|].
    apply writes_only_download.
  - apply (writes_only_weaken (process_outputs od et));
      [unfold run_outputs; intros; now right|].
    apply writes_only_process_dataset.
Qed.

(** X1.  Whatever the names of the archive's entries, and whether
    [extract_zip] returns or raises, a file that is there afterwards and
    was not there before with the same data lies below the destination:
    no entry is written outside [extract_to]. *)
Theorem extract_zip_stays_below (zip_path extract_to : path) (w : world)
  (q : path) (d : filedata) :
  FS.lookup (fs (snd (extract_zip zip_path extract_to w))) q = Some (File d) ->
  FS.lookup (fs w) q = Some (File d) \/ exists r, q = extract_to ++ r.
Proof.
  intros H. destruct (writes_only_extract_zip zip_path extract_to w q d H) as [Hold | Hb].
  - now left.
  - right. now apply FSBack.is_prefix_spec.
Qed.

(** X2.  [process_dataset] leaves new or changed files only below
    [extract_to] and at the two output files, whether it returns or
    raises. *)
Theorem process_dataset_writes_only (input_path output_dir extract_to : path)
  (w : world) (q : path) (d : filedata) :
  FS.lookup (fs (snd (process_dataset input_path output_dir extract_to w))) q
  = Some (File d) ->
  FS.lookup (fs w) q = Some (File d)
  \/ (exists r, q = extract_to ++ r)
  \/ q = output_dir // "prevalence_data.csv"
  \/ q = output_dir // "adjacency_matrices_metadata.csv".
Proof.
  intros H.
  destruct (writes_only_process_dataset input_path output_dir extract_to w q d H)
    as [Hold | [Hb | Ho]]; [now left | | now (right; right)].
  right. left. now apply FSBack.is_prefix_spec.
Qed.

(** X3.  [download_from_figshare] leaves a new or changed file at
    [output_path] only, whether it returns or raises. *)
Theorem download_writes_only (lib : urllib) (url : string) (output_path : path)
  (chunk_size : N) (w : world) (q : path) (d : filedata) :
  FS.lookup (fs (snd (download_from_figshare lib url output_path chunk_size w))) q
  = Some (File d) ->
  FS.lookup (fs w) q = Some (File d) \/ q = output_path.
Proof.
  intros H.
  destruct (writes_only_download lib url output_path chunk_size w q d H); auto.
Qed.

(** X4.  The whole pipeline deletes nothing: after [run], after
    [process_dataset] and after [download_from_figshare], returned or
    raised, every file that was there is still a file and every directory
    still a directory. *)
Theorem pipeline_never_deletes (lib : urllib) (url : string)
  (download_path extract_to output_dir : path) (skip_download : bool)
  (chunk_size : N) (w : world) :
  persists (fs w)
    (fs (snd (run lib url download_path extract_to output_dir skip_download w)))
  /\ persists (fs w)
       (fs (snd (process_dataset download_path output_dir extract_to w)))
  /\ persists (fs w)
       (fs (snd (download_from_figshare lib url download_path chunk_size w))).
Proof.
  split; [apply never_deletes_run|].
  split; [apply never_deletes_process_dataset | apply never_deletes_download].
Qed.

(** X5.  When [run] ends, returned or raised, a file that is new or has
    changed is the download path, lies below [extract_to] or is one of the
    two output files. *)
Theorem run_writes_only (lib : urllib) (url : string)
  (download_path extract_to output_dir : path) (skip_download : bool)
  (w : world) (q : path) (d : filedata) :
  FS.lookup
    (fs (snd (run lib url download_path extract_to output_dir skip_download w))) q
  = Some (File d) ->
  FS.lookup (fs w) q = Some (File d)
  \/ q = download_path
  \/ (exists r, q = extract_to ++ r)
  \/ q = output_dir // "prevalence_data.csv"
  \/ q = output_dir // "adjacency_matrices_metadata.csv".
Proof.
  intros H.
  destruct (writes_only_run lib url download_path extract_to output_dir
              skip_download w q d H) as [Hold | [Hd | [Hb | Ho]]];
    [now left | now (right; left) | | now (right; right; right)].
  right. right. left. now apply FSBack.is_prefix_spec.
Qed.

(** ** The fetcher after the identifier *)

Open Scope string_scope.

(** [download_from_figshare] up to the moment the response is accepted. *)
Lemma download_accepts (lib : urllib) (url : string) (p : path) (chunk_size : N)
  (w : world) (file_id : string) (r : response) :
  figshare_file_id lib url = Ok file_id ->
  remote w (download_url_of file_id) = Ok r ->
  error_status r = false ->
  content_length r <> Some None ->
  download_from_figshare lib url p chunk_size w
  = (mkdir_parents (Path.parent p) ;;
     fs_op (fun n => FS.write_file n p (Opaque "")) ;;
     match broken_stream r with
     | Some (received, e) =>
         fs_op (fun n => FS.write_file n p (Opaque received)) ;; raise e
     | None => fs_op (fun n => FS.write_file n p (body r))
     end ;;
     logger SUCCESS ("Downloaded " ++ Path.name p ++ " to "
                     ++ Path.str (Path.parent p))) (announced w file_id).
Proof.
  intros Hid Hr Hs Hc. unfold download_from_figshare.
  assert (L : lift (figshare_file_id lib url) w = (Ok file_id, w))
    by (unfold lift; now rewrite Hid).
  rewrite (bind_ok _ L), (bind_ok _ (logger_eq _ _ _)). cbv zeta.
  assert (G : requests_get (download_url_of file_id)
                (add_log w (INFO, "Downloading file ID " ++ file_id
                                  ++ " from figshare..."))
              = (Ok r, announced w file_id))
    by (unfold requests_get, announced; cbn [remote add_log]; now rewrite Hr).
  rewrite (bind_ok _ G).
  assert (S : raise_for_status r (announced w file_id) = (Ok tt, announced w file_id)).
  { unfold raise_for_status. unfold error_status in Hs. now rewrite Hs. }
  rewrite (bind_ok _ S).
  destruct (content_length r) as [[n|]|]; try congruence; reflexivity.
Qed.

(** The stream once the parent directory can be made and the path is free. *)
Lemma download_stream (lib : urllib) (url : string) (parent : path) (name : string)
  (chunk_size : N) (w : world) (file_id : string) (r : response) (made : node) :
  figshare_file_id lib url = Ok file_id ->
  remote w (download_url_of file_id) = Ok r ->
  error_status r = false ->
  content_length r <> Some None ->
  FS.makedirs (fs w) parent = Ok made ->
  FS.is_dir made (parent // name) = false ->
  exists w',
    download_from_figshare lib url (parent // name) chunk_size w
    = (match broken_stream r with
       | Some (_, e) => Raised e
       | None => Ok tt
       end, w')
    /\ FS.lookup (fs w') (parent // name) = Some (File (received_data r))
    /\ requests w' = (requests w ++ [download_url_of file_id])%list.
Proof.
  intros Hid Hr Hs Hc Hm Ht.
  rewrite (download_accepts lib url _ chunk_size w file_id r Hid Hr Hs Hc).
  rewrite FSFacts.parent_div.
  assert (M : mkdir_parents parent (announced w file_id)
              = (Ok tt, with_fs (announced w file_id) made)).
  { unfold mkdir_parents, fs_op, bind, get_fs. cbn [fs announced add_request add_log].
    now rewrite Hm. }
  rewrite (bind_ok _ M).
  pose proof (FSFacts.makedirs_is_dir _ _ _ Hm) as Hd.
  destruct (FSFacts.write_file_succeeds made parent name (Opaque "") Hd Ht)
    as (n2 & H2).
  assert (W2 : fs_op (fun n => FS.write_file n (parent // name) (Opaque ""))
                 (with_fs (announced w file_id) made)
               = (Ok tt, with_fs (with_fs (announced w file_id) made) n2)).
  { unfold fs_op, bind, get_fs. cbn [fs with_fs]. unfold Path.div. now rewrite H2. }
  rewrite (bind_ok _ W2).
  assert (Hd2 : FS.is_dir n2 parent = true)
    by (eapply FSFacts.write_file_dir; eauto).
  assert (Ht2 : FS.is_dir n2 (parent // name) = false)
    by (eapply file_not_dir, FSFacts.write_file_same; eauto).
  destruct (FSFacts.write_file_succeeds n2 parent name (received_data r) Hd2 Ht2)
    as (n3 & H3).
  assert (W3 : fs_op (fun n => FS.write_file n (parent // name) (received_data r))
                 (with_fs (with_fs (announced w file_id) made) n2)
               = (Ok tt, with_fs (with_fs (with_fs (announced w file_id) made) n2) n3)).
  { unfold fs_op, bind, get_fs. cbn [fs with_fs]. unfold Path.div. now rewrite H3. }
  apply FSFacts.write_file_same in H3.
  unfold received_data in *.
  destruct (broken_stream r) as [[received e]|].
  - assert (R : (fs_op (fun n => FS.write_file n (parent // name) (Opaque received)) ;;
                 @raise unit e)
                  (with_fs (with_fs (announced w file_id) made) n2)
                = (Raised e,
                   with_fs (with_fs (with_fs (announced w file_id) made) n2) n3))
      by (now rewrite (bind_ok _ W3)).
    eexists. rewrite (bind_raised _ R).
    split; [reflexivity|]. split; [exact H3 | reflexivity].
  - eexists. rewrite (bind_ok _ W3), logger_eq.
    split; [reflexivity|]. split; [exact H3 | reflexivity].
Qed.

(** X6.  When the identifier is resolved, the server answers without an
    error status and with a readable or absent [content-length], the
    stream completes, the parent directory can be made and the output path
    is not a directory, [download_from_figshare] returns, the output path
    holds the body, and the one request went to the download URL. *)
Theorem download_stores_body (lib : urllib) (url : string) (parent : path)
  (name : string) (chunk_size : N) (w : world) (file_id : string) (r : response)
  (made : node) :
  figshare_file_id lib url = Ok file_id ->
  remote w (download_url_of file_id) = Ok r ->
  error_status r = false ->
  content_length r <> Some None ->
  broken_stream r = None ->
  FS.makedirs (fs w) parent = Ok made ->
  FS.is_dir made (parent // name) = false ->
  exists w',
    download_from_figshare lib url (parent // name) chunk_size w = (Ok tt, w')
    /\ FS.lookup (fs w') (parent // name) = Some (File (body r))
    /\ FS.exists_ (fs w') (parent // name) = true
    /\ requests w' = (requests w ++ [download_url_of file_id])%list.
Proof.
  intros Hid Hr Hs Hc Hb Hm Ht.
  destruct (download_stream lib url parent name chunk_size w file_id r made
              Hid Hr Hs Hc Hm Ht) as (w' & H & Hl & Hq).
  unfold received_data in Hl. rewrite Hb in H, Hl.
  exists w'. repeat split; try assumption.
  unfold FS.exists_. now rewrite Hl.
Qed.

(** X7.  Under the same conditions, when the stream breaks,
    [download_from_figshare] raises the stream's exception and leaves at
    the output path a file with the bytes that arrived: nothing removes
    the truncated file. *)
Theorem download_leaves_truncated_file (lib : urllib) (url : string)
  (parent : path) (name : string) (chunk_size : N) (w : world)
  (file_id : string) (r : response) (made : node) (received : string) (e : exn) :
  figshare_file_id lib url = Ok file_id ->
  remote w (download_url_of file_id) = Ok r ->
  error_status r = false ->
  content_length r <> Some None ->
  broken_stream r = Some (received, e) ->
  FS.makedirs (fs w) parent = Ok made ->
  FS.is_dir made (parent // name) = false ->
  exists w',
    download_from_figshare lib url (parent // name) chunk_size w = (Raised e, w')
    /\ FS.lookup (fs w') (parent // name) = Some (File (Opaque received))
    /\ FS.exists_ (fs w') (parent // name) = true.
Proof.
  intros Hid Hr Hs Hc Hb Hm Ht.
  destruct (download_stream lib url parent name chunk_size w file_id r made
              Hid Hr Hs Hc Hm Ht) as (w' & H & Hl & Hq).
  unfold received_data in Hl. rewrite Hb in H, Hl.
  exists w'. repeat split; try assumption.
  unfold FS.exists_. now rewrite Hl.
Qed.

(** X8.  A failure of the request, an error status and an unreadable
    [content-length] each make [download_from_figshare] raise before it
    touches the file system: the state differs from the initial one by
    the log line and the request only, and no directory has been made. *)
Theorem download_fails_before_writing (lib : urllib) (url : string)
  (output_path : path) (chunk_size : N) (w : world) (file_id : string) :
  figshare_file_id lib url = Ok file_id ->
  fs (announced w file_id) = fs w
  /\ match remote w (download_url_of file_id) with
     | Raised e =>
         download_from_figshare lib url output_path chunk_size w
         = (Raised e, announced w file_id)
     | Ok r =>
         if error_status r
         then download_from_figshare lib url output_path chunk_size w
              = (Raised (Exn HTTPError (Str.of_nat (status_code r) ++ " Error")),
                 announced w file_id)
         else content_length r = Some None ->
              download_from_figshare lib url output_path chunk_size w
              = (Raised (Exn ValueError "invalid literal for int() with base 10"),
                 announced w file_id)
     end.
Proof.
  intros Hid. split; [reflexivity|].
  unfold download_from_figshare.
  assert (L : lift (figshare_file_id lib url) w = (Ok file_id, w))
    by (unfold lift; now rewrite Hid).
  rewrite (bind_ok _ L), (bind_ok _ (logger_eq _ _ _)). cbv zeta.
  assert (G : requests_get (download_url_of file_id)
                (add_log w (INFO, "Downloading file ID " ++ file_id
                                  ++ " from figshare..."))
              = (remote w (download_url_of file_id), announced w file_id))
    by reflexivity.
  destruct (remote w (download_url_of file_id)) as [r | e].
  - rewrite (bind_ok _ G). unfold error_status.
    destruct ((400 <=? status_code r)%nat && (status_code r <? 600)%nat) eqn:Es.
    + apply bind_raised. unfold raise_for_status. now rewrite Es.
    + intros Hc.
      assert (S : raise_for_status r (announced w file_id)
                  = (Ok tt, announced w file_id))
        by (unfold raise_for_status; now rewrite Es).
      rewrite (bind_ok _ S), Hc. reflexivity.
  - now rewrite (bind_raised _ G).
Qed.

(** ** The identifier *)

Lemma span_spec (f : ascii -> bool) (s : string) :
  exists rest,
    s = Str.span f s ++ rest
    /\ Str.forallb f (Str.span f s) = true
    /\ (rest = EmptyString \/ exists c r, rest = String c r /\ f c = false).
Proof.
  induction s as [|c s (rest & E & Hf & Hr)]; simpl.
  - exists EmptyString. auto.
  - destruct (f c) eqn:Ec.
    + exists rest. simpl. rewrite Ec, Hf. repeat split; [now rewrite <- E | exact Hr].
    + exists (String c s). repeat split. right. eauto.
Qed.

Lemma match_at_restrict (u t : string) :
  match_at (u ++ t) = EmptyString -> match_at u = EmptyString.
Proof.
  unfold match_at. intros H.
  destruct (Str.strip_prefix "/files/" u) as [r|] eqn:E; [|reflexivity].
  rewrite (SearchFacts.strip_prefix_app_some _ _ t _ E) in H.
  destruct r as [|d r]; [reflexivity|]. simpl in *.
  destruct (Str.is_digit d); [discriminate | reflexivity].
Qed.

(** What the search returns is the digits of the leftmost
    [/files/<digits>]. *)
Lemma re_search_sound (url id : string) :
  re_search_files url = Some id ->
  exists pre rest,
    url = pre ++ "/files/" ++ id ++ rest
    /\ id <> EmptyString
    /\ Str.forallb Str.is_digit id = true
    /\ (rest = EmptyString
        \/ exists c r, rest = String c r /\ Str.is_digit c = false)
    /\ re_search_files (pre ++ "/files/") = None.
Proof.
  induction url as [|c url IH]; intros H; [discriminate|].
  rewrite SearchFacts.re_search_unfold in H.
  destruct (match_at (String c url)) as [|d ds] eqn:Em.
  - destruct (IH H) as (pre & rest & E & Hne & Hd & Hr & Hfirst).
    exists (String c pre), rest. repeat split; try assumption.
    + simpl. now rewrite E.
    + change (String c pre ++ "/files/") with (String c (pre ++ "/files/")).
      rewrite SearchFacts.re_search_unfold, Hfirst.
      subst url.
      replace (String c (pre ++ "/files/" ++ id ++ rest))
        with (String c (pre ++ "/files/") ++ (id ++ rest)) in Em
        by (simpl; now rewrite StrFacts.append_assoc).
      now rewrite (match_at_restrict _ _ Em).
  - inversion H; subst id. clear H. unfold match_at in Em.
    destruct (Str.strip_prefix "/files/" (String c url)) as [r|] eqn:E;
      [|discriminate].
    apply SearchFacts.strip_prefix_some in E.
    destruct (span_spec Str.is_digit r) as (rest & Er & Hd & Hr).
    rewrite Em in Er, Hd.
    exists EmptyString, rest. repeat split; try assumption.
    + rewrite E, Er. reflexivity.
    + discriminate.
Qed.

Lemma urlparse_raises_value_error (lib : urllib) (url : string) (e : exn) :
  Urllib.urlparse lib url = Raised e -> exn_cls e = ValueError.
Proof.
  intros Hp. unfold Urllib.urlparse in Hp.
  destruct (Urllib.urlsplit lib url) as [r | e'] eqn:Hs.
  - destruct (existsb _ _ && _); [destruct (Urllib.splitparams _)|]; discriminate.
  - inversion Hp; subst e'. clear Hp. unfold Urllib.urlsplit in Hs.
    repeat match type of Hs with
           | context [let '(_, _) := ?x in _] => destruct x
           | context [if ?b then _ else _] => destruct b
           end; inversion Hs; reflexivity.
Qed.

(** X9.  Whatever the URL, lines 36 to 48 end with an identifier or with
    a [ValueError]: the index [0] into the values of [file] never fails,
    because [parse_qs] keeps no name without a value. *)
Theorem file_id_raises_value_error_only (lib : urllib) (url : string) (e : exn) :
  figshare_file_id lib url = Raised e -> exn_cls e = ValueError.
Proof.
  intros H. destruct (Urllib.urlparse lib url) as [parsed | e'] eqn:Hp.
  - rewrite (figshare_file_id_spec lib url parsed Hp) in H.
    destruct (file_values lib (Urllib.query parsed)); [|discriminate].
    unfold path_segment_id in H.
    destruct (re_search_files url); inversion H. reflexivity.
  - unfold figshare_file_id in H. rewrite Hp in H. inversion H; subst e'.
    eapply urlparse_raises_value_error; eauto.
Qed.

(** X10.  An identifier that does not come from the query string is a
    non-empty run of digits that follows the leftmost [/files/] with a
    digit after it: the match is greedy and takes the first segment. *)
Theorem path_identifier_is_numeric (lib : urllib) (url : string)
  (parsed : Urllib.ParseResult) (id : string) :
  Urllib.urlparse lib url = Ok parsed ->
  file_values lib (Urllib.query parsed) = [] ->
  figshare_file_id lib url = Ok id ->
  exists pre rest,
    url = pre ++ "/files/" ++ id ++ rest
    /\ id <> EmptyString
    /\ Str.forallb Str.is_digit id = true
    /\ (rest = EmptyString
        \/ exists c r, rest = String c r /\ Str.is_digit c = false)
    /\ re_search_files (pre ++ "/files/") = None.
Proof.
  intros Hp Hq H. rewrite (figshare_file_id_spec lib url parsed Hp), Hq in H.
  unfold path_segment_id in H.
  destruct (re_search_files url) as [id'|] eqn:E; inversion H; subst id'.
  now apply re_search_sound.
Qed.

(** ** The sampling loop *)

Open Scope list_scope.

Lemma sample_matrices_eq (d : path) (files : list path)
  (acc : list matrix_record) (w : world) :
  sample_matrices d files acc w
  = (Ok (acc ++ loaded (fs w) d files), add_logs w (load_warnings (fs w) d files)).
Proof.
  revert acc w. induction files as [|f files IH]; intros acc w.
  - simpl. now rewrite app_nil_r.
  - cbn [sample_matrices]. unfold bind at 1. rewrite sample_matrix_eq.
    unfold loaded, load_warnings. cbn [flat_map].
    destruct (load_matrix (fs w) d f) as [r | e].
    + rewrite IH. unfold loaded, load_warnings.
      now rewrite <- app_assoc.
    + rewrite IH. reflexivity.
Qed.

Lemma loaded_count (n : node) (d : path) (files : list path) :
  length (loaded n d files) + length (load_warnings n d files) = length files.
Proof.
  unfold loaded, load_warnings.
  induction files as [|f files IH]; [reflexivity|]. cbn [flat_map].
  destruct (load_matrix n d f); cbn [app length]; lia.
Qed.

Lemma sampled_length (n : node) (d : path) : length (sampled n d) <= 5.
Proof.
  unfold sampled. rewrite length_map, length_firstn. lia.
Qed.

(** X11.  The sampling loop of lines 184 to 195 never raises and keeps
    the order of the files: the list ends up with one record for each
    file that loads, the log with one warning for each file that does
    not, and the file system is not touched. *)
Theorem sampling_partitions_files (data_dir : path) (files : list path)
  (processed_matrices : list matrix_record) (w : world) :
  sample_matrices data_dir files processed_matrices w
  = (Ok (processed_matrices ++ loaded (fs w) data_dir files),
     add_logs w (load_warnings (fs w) data_dir files))
  /\ length (loaded (fs w) data_dir files)
     + length (load_warnings (fs w) data_dir files) = length files
  /\ Forall (fun entry => fst entry = WARNING) (load_warnings (fs w) data_dir files)
  /\ fs (add_logs w (load_warnings (fs w) data_dir files)) = fs w.
Proof.
  repeat split.
  - apply sample_matrices_eq.
  - apply loaded_count.
  - unfold load_warnings. apply Forall_flat_map, Forall_forall. intros f _.
    destruct (load_matrix (fs w) data_dir f); repeat constructor.
  - apply fs_add_logs.
Qed.

(** ** The metadata table *)

Open Scope string_scope.

Lemma sampled_eq (d : path) (w : world) :
  firstn 5 (map (fun name => adj_matrices_dir_of d // name)
              (csv_names (fs w) (adj_matrices_dir_of d)))
  = sampled (fs w) d.
Proof. unfold sampled. now rewrite firstn_map. Qed.

Lemma process_adjacency_eq (d o : path) (w : world) :
  process_adjacency d (adj_matrices_dir_of d) o w
  = if FS.exists_ (fs w) (adj_matrices_dir_of d)
    then
      let w1 := add_log w (INFO, "Processing adjacency matrices...") in
      match csv_names (fs w) (adj_matrices_dir_of d) with
      | [] => (Ok tt, add_log w1 (WARNING, "No adjacency matrix CSV files found"))
      | _ :: _ =>
          let w2 :=
            add_logs
              (add_log w1
                 (INFO, "Found "
                        ++ Str.of_nat (length (csv_names (fs w) (adj_matrices_dir_of d)))
                        ++ " adjacency matrix files"))
              (load_warnings (fs w) d (sampled (fs w) d)) in
          match loaded (fs w) d (sampled (fs w) d) with
          | [] => (Ok tt, w2)
          | recs =>
              (to_csv (DataFrame_of_records recs) (o // metadata_name) false ;;
               logger SUCCESS ("Saved adjacency matrices metadata to "
                               ++ Path.str (o // metadata_name))) w2
          end
      end
    else (Ok tt, w).
Proof.
  unfold process_adjacency. unfold bind at 1. rewrite path_exists_eq.
  destruct (FS.exists_ (fs w) (adj_matrices_dir_of d)); [|reflexivity].
  unfold bind at 1. rewrite logger_eq. unfold bind at 1. rewrite glob_csv_eq.
  cbn [fs add_log].
  remember (csv_names (fs w) (adj_matrices_dir_of d)) as all eqn:En.
  destruct all as [|name names]; [reflexivity|].
  cbn [map]. unfold bind at 1. rewrite logger_eq. unfold bind at 1.
  change (adj_matrices_dir_of d // name
          :: map (fun name0 => adj_matrices_dir_of d // name0) names)%list
    with (map (fun name0 => adj_matrices_dir_of d // name0) (name :: names)).
  rewrite length_map, En, sampled_eq, sample_matrices_eq.
  cbn [fs add_log app].
  destruct (loaded (fs w) d (sampled (fs w) d)); reflexivity.
Qed.

Lemma sampled_nil (n : node) (d : path) :
  csv_names n (adj_matrices_dir_of d) = [] -> sampled n d = [].
Proof. unfold sampled. now intros ->. Qed.

Lemma sampled_absent (n : node) (d : path) :
  FS.exists_ n (adj_matrices_dir_of d) = false -> sampled n d = [].
Proof.
  intros H. apply sampled_nil.
  destruct (csv_names n (adj_matrices_dir_of d)) as [|name names] eqn:E;
    [reflexivity|].
  rewrite (csv_names_exists n (adj_matrices_dir_of d) name) in H;
    [discriminate | rewrite E; now left].
Qed.

(** X12.  The metadata table of lines 197 to 202 has one row for each of
    the first five CSV files that loads, in listing order, whatever
    happens to the others.  When none of them loads, or there is none,
    step 3 returns without writing anything, also where the output
    directory is missing. *)
Theorem metadata_lists_loadable_matrices (data_dir output_dir : path) (w : world) :
  let recs := loaded (fs w) data_dir (sampled (fs w) data_dir) in
  (recs = [] ->
   exists w',
     process_adjacency data_dir (adj_matrices_dir_of data_dir) output_dir w
     = (Ok tt, w')
     /\ fs w' = fs w)
  /\ (recs <> [] ->
      FS.is_dir (fs w) output_dir = true ->
      FS.is_dir (fs w) (output_dir // metadata_name) = false ->
      exists w',
        process_adjacency data_dir (adj_matrices_dir_of data_dir) output_dir w
        = (Ok tt, w')
        /\ FS.write_file (fs w) (output_dir // metadata_name)
             (Table ["filename"; "shape"; "file_path"] (metadata_rows recs))
           = Ok (fs w')
        /\ FS.lookup (fs w') (output_dir // metadata_name)
           = Some (File (Table ["filename"; "shape"; "file_path"]
                           (metadata_rows recs)))
        /\ 1 <= length (metadata_rows recs) <= 5).
Proof.
  intros recs. split.
  - intros Hnil. rewrite process_adjacency_eq.
    destruct (FS.exists_ (fs w) (adj_matrices_dir_of data_dir)); [|eauto].
    destruct (csv_names (fs w) (adj_matrices_dir_of data_dir)); [eauto|].
    cbv zeta. fold recs. rewrite Hnil.
    eexists. split; [reflexivity|]. now rewrite fs_add_logs.
  - intros Hne Hdir Hfile. rewrite process_adjacency_eq.
    destruct (FS.exists_ (fs w) (adj_matrices_dir_of data_dir)) eqn:Ex.
    2:{ exfalso. apply Hne. unfold recs. now rewrite sampled_absent. }
    destruct (csv_names (fs w) (adj_matrices_dir_of data_dir)) as [|nm nms] eqn:En.
    1:{ exfalso. apply Hne. unfold recs. now rewrite sampled_nil. }
    cbv zeta. fold recs.
    destruct recs as [|r rs] eqn:Er; [congruence|]. rewrite <- Er.
    match goal with
    | |- context [bind _ _ ?w2] =>
        destruct (to_csv_ok (DataFrame_of_records recs) output_dir metadata_name
                    false w2) as (n' & Hto & Hw);
        [now rewrite fs_add_logs | now rewrite fs_add_logs |];
        rewrite (bind_ok _ Hto); rewrite fs_add_logs in Hw
    end.
    rewrite logger_eq. eexists. split; [reflexivity|]. cbn [fs add_log with_fs].
    repeat split.
    + exact Hw.
    + exact (FSFacts.write_file_same _ _ _ _ Hw).
    + unfold metadata_rows. rewrite length_map, Er. simpl. lia.
    + unfold metadata_rows. rewrite length_map. unfold recs.
      unfold loaded.
      pose proof (loaded_count (fs w) data_dir (sampled (fs w) data_dir)).
      pose proof (sampled_length (fs w) data_dir). unfold loaded in *. lia.
Qed.

(** ** A prevalence table that cannot be processed *)

Lemma read_csv_world (p : path) (w0 w : world) :
  fs w0 = fs w -> read_csv p w0 = (fst (read_csv p w), w0).
Proof. intros E. now rewrite !read_csv_eq, E. Qed.

Lemma process_prevalence_unreadable (pp o : path) (w : world) (e : exn) :
  FS.exists_ (fs w) pp = true ->
  fst (read_csv pp w) = Raised e ->
  process_prevalence pp o w
  = (Ok tt,
     add_logs w [(INFO, "Processing prevalence data...");
                 (ERROR, "Error processing prevalence data: " ++ exn_msg e)]).
Proof.
  intros Hex Hr. unfold process_prevalence. unfold bind at 1.
  rewrite path_exists_eq, Hex. unfold bind at 1. rewrite logger_eq.
  unfold try_except.
  rewrite (bind_raised _ (w' := add_log w (INFO, "Processing prevalence data..."))
             (e := e)).
  - reflexivity.
  - rewrite (read_csv_world pp _ w) by reflexivity. now rewrite Hr.
Qed.

Lemma process_prevalence_no_output_dir (pp o : path) (w : world)
  (cols : list string) (rows : list (list string)) (e : exn) :
  FS.lookup (fs w) pp = Some (File (Table cols rows)) ->
  FS.makedirs (fs w) o = Raised e ->
  process_prevalence pp o w
  = (Ok tt,
     add_logs w [(INFO, "Processing prevalence data...");
                 (INFO, "Loaded prevalence data: " ++ Str.of_nat (length rows)
                        ++ " rows, " ++ Str.of_nat (length cols) ++ " columns");
                 (ERROR, "Error processing prevalence data: " ++ exn_msg e)]).
Proof.
  intros Hl Hm. unfold process_prevalence. unfold bind at 1.
  rewrite path_exists_eq. unfold FS.exists_. rewrite Hl.
  unfold bind at 1. rewrite logger_eq. unfold try_except.
  rewrite (bind_ok _ (read_csv_table pp
                        (add_log w (INFO, "Processing prevalence data..."))
                        cols rows Hl)).
  unfold bind at 1. rewrite logger_eq. cbn [df_rows df_columns].
  rewrite (bind_raised _ (w' := add_logs w
             [(INFO, "Processing prevalence data...");
              (INFO, "Loaded prevalence data: " ++ Str.of_nat (length rows)
                     ++ " rows, " ++ Str.of_nat (length cols) ++ " columns")])
             (e := e)).
  - reflexivity.
  - unfold mkdir_parents, fs_op, bind, get_fs. cbn [fs add_log]. now rewrite Hm.
Qed.

(** X13.  A prevalence file that is there and cannot be processed does
    not stop [process_dataset] (lines 162 to 172): when it does not
    parse, or the output directory cannot be made, the step logs one
    error, writes nothing, and the adjacency step and the report run as
    they would have. *)
Theorem prevalence_failure_is_contained
  (input_path output_dir extract_to data_dir : path) (w w1 : world) (e : exn) :
  FS.exists_ (fs w) input_path = true ->
  extract_zip input_path extract_to
    (add_log w (INFO, "Starting dataset processing...")) = (Ok data_dir, w1) ->
  FS.exists_ (fs w1) (prevalence_path_of data_dir) = true ->
  fst (read_csv (prevalence_path_of data_dir) w1) = Raised e
  \/ (fst (mkdir_parents output_dir w1) = Raised e
      /\ exists df, fst (read_csv (prevalence_path_of data_dir) w1) = Ok df) ->
  exists w2,
    process_prevalence (prevalence_path_of data_dir) output_dir w1 = (Ok tt, w2)
    /\ fs w2 = fs w1
    /\ last (logged w2) (INFO, "")
       = (ERROR, "Error processing prevalence data: " ++ exn_msg e)
    /\ process_dataset input_path output_dir extract_to w
       = (process_adjacency data_dir (adj_matrices_dir_of data_dir) output_dir ;;
          report_structure data_dir (prevalence_path_of data_dir)
            (adj_matrices_dir_of data_dir) output_dir) w2.
Proof.
  intros Hin Hex Hpp Hfail.
  assert (exists w2,
            process_prevalence (prevalence_path_of data_dir) output_dir w1 = (Ok tt, w2)
            /\ fs w2 = fs w1
            /\ last (logged w2) (INFO, "")
               = (ERROR, "Error processing prevalence data: " ++ exn_msg e))
    as (w2 & Hp & Hfs & Hlog).
  { destruct Hfail as [Hr | (Hm & df & Hr)].
    - rewrite (process_prevalence_unreadable _ _ _ _ Hpp Hr).
      eexists. split; [reflexivity|]. split; [apply fs_add_logs|].
      cbn [add_logs fold_left add_log logged]. now rewrite last_last.
    - rewrite read_csv_eq in Hr. cbn [fst] in Hr.
      destruct (FS.lookup (fs w1) (prevalence_path_of data_dir))
        as [[[bytes | cols rows | ms] | es]|] eqn:Hl; try discriminate.
      assert (Hm' : FS.makedirs (fs w1) output_dir = Raised e).
      { unfold mkdir_parents, fs_op, bind, get_fs in Hm.
        destruct (FS.makedirs (fs w1) output_dir); [discriminate|].
        cbn in Hm. now inversion Hm. }
      clear Hm.
      rewrite (process_prevalence_no_output_dir _ _ _ _ _ _ Hl Hm').
      eexists. split; [reflexivity|]. split; [apply fs_add_logs|].
      cbn [add_logs fold_left add_log logged]. now rewrite last_last. }
  exists w2. repeat split; try assumption.
  rewrite (process_dataset_steps _ _ _ _ _ _ Hin Hex).
  now rewrite (bind_ok _ Hp).
Qed.

(** ** Nothing to process *)

Lemma process_prevalence_absent (pp o : path) (w : world) :
  FS.exists_ (fs w) pp = false -> process_prevalence pp o w = (Ok tt, w).
Proof.
  intros H. unfold process_prevalence. unfold bind at 1.
  now rewrite path_exists_eq, H.
Qed.

Lemma process_adjacency_nothing (d o : path) (w : world) :
  loaded (fs w) d (sampled (fs w) d) = [] ->
  exists w', process_adjacency d (adj_matrices_dir_of d) o w = (Ok tt, w')
             /\ fs w' = fs w.
Proof.
  intros Hnil. rewrite process_adjacency_eq.
  destruct (FS.exists_ (fs w) (adj_matrices_dir_of d)); [|eauto].
  destruct (csv_names (fs w) (adj_matrices_dir_of d)); [eauto|].
  cbv zeta. rewrite Hnil.
  eexists. split; [reflexivity|]. now rewrite fs_add_logs.
Qed.

(** X14.  An archive that brings no prevalence table and no adjacency
    matrix that loads is processed without an error and without a
    result: [process_dataset] returns, and the file system is as the
    extraction left it, so that the output directory is not even
    made. *)
Theorem process_dataset_without_tables
  (input_path output_dir extract_to data_dir : path) (w w1 : world) :
  FS.exists_ (fs w) input_path = true ->
  extract_zip input_path extract_to
    (add_log w (INFO, "Starting dataset processing...")) = (Ok data_dir, w1) ->
  FS.exists_ (fs w1) (prevalence_path_of data_dir) = false ->
  loaded (fs w1) data_dir (sampled (fs w1) data_dir) = [] ->
  exists w',
    process_dataset input_path output_dir extract_to w = (Ok tt, w')
    /\ fs w' = fs w1
    /\ FS.exists_ (fs w') (output_dir // prevalence_name)
       = FS.exists_ (fs w1) (output_dir // prevalence_name)
    /\ FS.exists_ (fs w') (output_dir // metadata_name)
       = FS.exists_ (fs w1) (output_dir // metadata_name).
Proof.
  intros Hin Hex Hpp Hnil.
  rewrite (process_dataset_steps _ _ _ _ _ _ Hin Hex).
  rewrite (bind_ok _ (process_prevalence_absent _ output_dir _ Hpp)).
  destruct (process_adjacency_nothing data_dir output_dir w1 Hnil) as (w2 & Ha & Hfs).
  rewrite (bind_ok _ Ha).
  destruct (total_readonly
              (report_structure data_dir (prevalence_path_of data_dir)
                 (adj_matrices_dir_of data_dir) output_dir) w2
              (total_report_structure _ _ _ _) (readonly_report_structure _ _ _ _))
    as ([] & w3 & Hr & Hfs3).
  exists w3. rewrite Hr. rewrite Hfs3, Hfs. now repeat split.
Qed.

(** ** The orchestrator, step by step *)

Lemma requests_run_epilogue (dp e o : path) (w : world) :
  requests (snd (run_epilogue dp e o (process_dataset dp o e w))) = requests w.
Proof.
  pose proof (offline_process_dataset dp o e w) as Hp.
  destruct (process_dataset dp o e w) as [[[] | ex] w2]; simpl in *; exact Hp.
Qed.

Lemma run_existing (lib : urllib) (url : string) (dp e o : path) (w : world) :
  FS.exists_ (fs w) dp = true ->
  run lib url dp e o false w
  = run_epilogue dp e o
      (process_dataset dp o e
         (add_logs w
            (app run_download_log
               [(WARNING, "File already exists: " ++ Path.str dp);
                (INFO, "Skipping download, using existing file.");
                (INFO, "To force re-download, delete the file or use --skip-download=False");
                (INFO, newline ++ "[Step 2/2] Processing dataset...")]))).
Proof.
  intros H. unfold run, run_epilogue.
  cbv beta iota delta [bind logger path_exists get_fs ret try_except negb].
  cbn [fs add_log]. rewrite H.
  cbv beta iota delta [bind logger ret].
  unfold run_download_log, run_prologue, add_logs. cbv beta iota delta [app fold_left].
  destruct (process_dataset _ _ _ _) as [[[] | ex] w2]; reflexivity.
Qed.

Lemma run_skipping (lib : urllib) (url : string) (dp e o : path) (w : world) :
  FS.exists_ (fs w) dp = true ->
  run lib url dp e o true w
  = run_epilogue dp e o
      (process_dataset dp o e
         (add_logs w
            (app run_prologue
               [(INFO, newline ++ "[Step 1/2] Skipping download (skip_download=True)");
                (INFO, newline ++ "[Step 2/2] Processing dataset...")]))).
Proof.
  intros H. unfold run, run_epilogue.
  cbv beta iota delta [bind logger path_exists get_fs ret try_except negb].
  cbn [fs add_log]. rewrite H.
  cbv beta iota delta [bind logger ret negb].
  unfold run_prologue, add_logs. cbv beta iota delta [app fold_left].
  destruct (process_dataset _ _ _ _) as [[[] | ex] w2]; reflexivity.
Qed.

Lemma run_skipping_absent (lib : urllib) (url : string) (dp e o : path) (w : world) :
  FS.exists_ (fs w) dp = false ->
  run lib url dp e o true w
  = (Raised (Exn FileNotFoundError ("Download file not found: " ++ Path.str dp)),
     add_logs w
       (app run_prologue
          [(INFO, newline ++ "[Step 1/2] Skipping download (skip_download=True)");
           (ERROR, "Download file not found: " ++ Path.str dp);
           (INFO, "Set skip_download=False or download the file first.")])).
Proof.
  intros H. unfold run.
  cbv beta iota delta [bind logger path_exists get_fs ret try_except negb raise].
  cbn [fs add_log]. rewrite H. reflexivity.
Qed.

Lemma run_downloading (lib : urllib) (url : string) (dp e o : path) (w : world) :
  FS.exists_ (fs w) dp = false ->
  run lib url dp e o false w
  = match download_from_figshare lib url dp 8192%N (add_logs w run_download_log) with
    | (Ok _, w1) =>
        run_epilogue dp e o (process_dataset dp o e (add_logs w1 run_downloaded_log))
    | (Raised ex, w1) =>
        (Raised ex, add_log w1 (ERROR, "Download failed: " ++ exn_msg ex))
    end.
Proof.
  intros H. unfold run, run_epilogue.
  cbv beta iota delta [bind logger path_exists get_fs ret try_except negb raise].
  cbn [fs add_log]. rewrite H.
  cbv beta iota delta [bind logger ret raise].
  unfold run_download_log, run_downloaded_log, run_prologue, add_logs.
  cbv beta iota delta [app fold_left].
  destruct (download_from_figshare _ _ _ _ _) as [[[] | ex] w1]; [|reflexivity].
  destruct (process_dataset _ _ _ _) as [[[] | ex] w2]; reflexivity.
Qed.

(** X15.  With [skip_download] false and nothing at the download path,
    [run] calls [download_from_figshare] once (lines 54 to 59).  When
    that raises, [run] logs the failure and raises the same exception:
    nothing of step 2 happens.  When it returns, [process_dataset] runs
    on the state the download left, and its outcome is that of
    [run]. *)
Theorem run_download_branch (lib : urllib) (url : string)
  (download_path extract_to output_dir : path) (w : world) :
  FS.exists_ (fs w) download_path = false ->
  match download_from_figshare lib url download_path 8192%N
          (add_logs w run_download_log) with
  | (Ok _, w1) =>
      run lib url download_path extract_to output_dir false w
      = run_epilogue download_path extract_to output_dir
          (process_dataset download_path output_dir extract_to
             (add_logs w1 run_downloaded_log))
  | (Raised ex, w1) =>
      run lib url download_path extract_to output_dir false w
      = (Raised ex, add_log w1 (ERROR, "Download failed: " ++ exn_msg ex))
      /\ fs (snd (run lib url download_path extract_to output_dir false w)) = fs w1
  end.
Proof.
  intros H. rewrite (run_downloading lib url _ extract_to output_dir w H).
  destruct (download_from_figshare _ _ _ _ _) as [[[] | ex] w1]; [reflexivity|].
  split; reflexivity.
Qed.

Lemma run_existing_requests (lib : urllib) (url : string) (dp e o : path)
  (skip_download : bool) (w : world) :
  FS.exists_ (fs w) dp = true ->
  requests (snd (run lib url dp e o skip_download w)) = requests w.
Proof.
  intros H. destruct skip_download.
  - rewrite (run_skipping lib url dp e o w H), requests_run_epilogue.
    apply requests_add_logs.
  - rewrite (run_existing lib url dp e o w H), requests_run_epilogue.
    apply requests_add_logs.
Qed.

(** X16.  [run] issues at most one request.  It issues none when
    [skip_download] is true or the download path exists, and none when
    the URL gives no identifier; otherwise the one request goes to the
    download address of the identifier. *)
Theorem run_requests_at_most_one (lib : urllib) (url : string)
  (download_path extract_to output_dir : path) (skip_download : bool) (w : world) :
  let after :=
    requests (snd (run lib url download_path extract_to output_dir skip_download w)) in
  if skip_download || FS.exists_ (fs w) download_path
  then after = requests w
  else match figshare_file_id lib url with
       | Ok file_id => after = (requests w ++ [download_url_of file_id])%list
       | Raised _ => after = requests w
       end.
Proof.
  cbv zeta. destruct (FS.exists_ (fs w) download_path) eqn:H.
  - rewrite orb_true_r. now apply run_existing_requests.
  - destruct skip_download; cbn [orb].
    + rewrite (run_skipping_absent lib url _ extract_to output_dir w H).
      apply requests_add_logs.
    + rewrite (run_downloading lib url _ extract_to output_dir w H).
      destruct (figshare_file_id lib url) as [file_id | ex] eqn:Hid.
      * pose proof (download_requests lib url download_path 8192%N
                      (add_logs w run_download_log) file_id Hid) as Hr.
        rewrite requests_add_logs in Hr.
        destruct (download_from_figshare _ _ _ _ _) as [[[] | ex] w1];
          cbn [snd] in Hr.
        -- now rewrite requests_run_epilogue, requests_add_logs.
        -- exact Hr.
      * rewrite (download_raised lib url download_path 8192%N _ ex Hid).
        apply requests_add_logs.
Qed.

(** ** Running again *)

Lemma persists_exists (n n' : node) (p : path) :
  persists n n' -> FS.exists_ n p = true -> FS.exists_ n' p = true.
Proof.
  intros [Hf Hd] H. unfold FS.exists_ in *.
  destruct (FS.lookup n p) as [[x | es]|] eqn:E; [| |discriminate].
  - destruct (Hf p x E) as (x' & ->). reflexivity.
  - specialize (Hd p). unfold FS.is_dir in Hd. rewrite E in Hd.
    specialize (Hd eq_refl). now destruct (FS.lookup n' p).
Qed.

Lemma process_dataset_ok_input (i o e : path) (w w' : world) :
  process_dataset i o e w = (Ok tt, w') -> FS.exists_ (fs w) i = true.
Proof.
  intros H. destruct (FS.exists_ (fs w) i) eqn:E; [reflexivity|].
  unfold process_dataset in H. unfold bind at 1 in H.
  rewrite path_exists_eq, E in H. discriminate.
Qed.

Lemma run_epilogue_ok (dp e o : path) (r : result unit * world) (w' : world) :
  run_epilogue dp e o r = (Ok tt, w') ->
  exists w3, r = (Ok tt, w3) /\ fs w' = fs w3.
Proof.
  destruct r as [[[] | ex] w3]; unfold run_epilogue; intros H; [|discriminate].
  exists w3. split; [reflexivity|].
  apply (f_equal (fun r => fs (snd r))) in H. cbn [snd] in H.
  rewrite <- H. apply fs_add_logs.
Qed.

(** X17.  When [run] has returned, the download path exists, and a
    second [run] on the state it left issues no request, whatever
    [skip_download] is: the download is made once. *)
Theorem rerun_makes_no_request (lib : urllib) (url : string)
  (download_path extract_to output_dir : path) (skip_download : bool)
  (w w' : world) :
  run lib url download_path extract_to output_dir skip_download w = (Ok tt, w') ->
  FS.exists_ (fs w') download_path = true
  /\ forall again,
       requests (snd (run lib url download_path extract_to output_dir again w'))
       = requests w'.
Proof.
  intros H.
  assert (Hex : FS.exists_ (fs w') download_path = true).
  { destruct (FS.exists_ (fs w) download_path) eqn:E.
    - pose proof (never_deletes_run lib url download_path extract_to output_dir
                    skip_download w) as Hp.
      rewrite H in Hp. exact (persists_exists _ _ _ Hp E).
    - destruct skip_download.
      + rewrite (run_skipping_absent lib url _ extract_to output_dir w E) in H.
        discriminate.
      + rewrite (run_downloading lib url _ extract_to output_dir w E) in H.
        destruct (download_from_figshare _ _ _ _ _) as [[[] | ex] w1];
          [|discriminate].
        apply run_epilogue_ok in H. destruct H as (w3 & Hp & Hfs).
        rewrite Hfs.
        pose proof (never_deletes_process_dataset download_path output_dir
                      extract_to (add_logs w1 run_downloaded_log)) as Hk.
        rewrite Hp in Hk.
        exact (persists_exists _ _ _ Hk (process_dataset_ok_input _ _ _ _ _ Hp)). }
  split; [exact Hex|]. intros again. now apply run_existing_requests.
Qed.

(** ** The destination of the extraction *)

Lemma extract_zip_fs (z e : path) (w : world) :
  fs (snd (extract_zip z e w)) = fs (snd (unpack z e w)).
Proof.
  rewrite extract_zip_unpack.
  destruct (unpack z e w) as [[[] | ex] w1]; [|reflexivity].
  destruct (FS.exists_ (fs w1) (e // "Data")); reflexivity.
Qed.

Lemma unpack_after_makedirs (z e : path) (w : world) (made : node) :
  FS.makedirs (fs w) e = Ok made ->
  unpack z e w
  = (zip_ref <- ZipFile z ;;
     for_each (file_list (namelist zip_ref)) (fun file => extract zip_ref file e))
      (with_fs (add_log w (INFO, "Extracting " ++ Path.name z ++ " to "
                                 ++ Path.str e ++ "...")) made).
Proof.
  intros H. unfold unpack. unfold bind at 1. rewrite logger_eq.
  unfold bind at 1. unfold mkdir_parents, fs_op, bind at 1, get_fs.
  cbn [fs add_log]. rewrite H. reflexivity.
Qed.

(** X18.  [extract_zip] makes the destination before it opens the
    archive (lines 108 and 110).  A destination that cannot be made
    fails the call with the file system untouched, whatever the archive
    is.  Otherwise the destination is a directory when the call ends,
    returned or raised; and an archive that is missing, a directory or
    not a zip file raises with nothing but the destination made. *)
Theorem extract_zip_makes_destination_first (zip_path extract_to : path) (w : world) :
  let w0 := add_log w (INFO, "Extracting " ++ Path.name zip_path ++ " to "
                             ++ Path.str extract_to ++ "...") in
  match FS.makedirs (fs w) extract_to with
  | Raised ex => extract_zip zip_path extract_to w = (Raised ex, w0)
  | Ok made =>
      FS.is_dir (fs (snd (extract_zip zip_path extract_to w))) extract_to = true
      /\ match FS.lookup made zip_path with
         | Some (File (Archive _)) => True
         | Some (File _) =>
             extract_zip zip_path extract_to w
             = (Raised (Exn BadZipFile "File is not a zip file"), with_fs w0 made)
         | Some (Dir _) =>
             extract_zip zip_path extract_to w
             = (Raised (FS.eisdir zip_path), with_fs w0 made)
         | None =>
             extract_zip zip_path extract_to w
             = (Raised (FS.enoent zip_path), with_fs w0 made)
         end
  end.
Proof.
  cbv zeta. destruct (FS.makedirs (fs w) extract_to) as [made | ex] eqn:Hm.
  - split.
    + rewrite extract_zip_fs, (unpack_after_makedirs _ _ _ _ Hm).
      assert (Hk : never_deletes
                     (zip_ref <- ZipFile zip_path ;;
                      for_each (file_list (namelist zip_ref))
                        (fun file => extract zip_ref file extract_to))).
      { fsinv. intros ms. apply never_deletes_for_each. auto with fsinv. }
      match goal with
      | |- context [bind _ _ ?w1] => destruct (Hk w1) as [_ Hd]
      end.
      apply Hd. cbn [fs with_fs]. exact (FSFacts.makedirs_is_dir _ _ _ Hm).
    + destruct (FS.lookup made zip_path) as [[[bytes | cols rows | ms] | es]|] eqn:E;
        try exact I;
        rewrite extract_zip_unpack, (unpack_after_makedirs _ _ _ _ Hm);
        unfold ZipFile, get_fs, raise, bind; cbn [fs with_fs];
        rewrite E; reflexivity.
  - rewrite extract_zip_unpack. unfold unpack. unfold bind at 1.
    rewrite logger_eq. unfold bind at 1.
    unfold mkdir_parents, fs_op, bind at 1, get_fs. cbn [fs add_log].
    rewrite Hm. reflexivity.
Qed.

(** X19.  [extract_zip] looks for [Data] after the extraction, not in
    the archive (line 124): where the destination already has an entry
    of that name, a call that returns returns its path, whatever the
    archive brought. *)
Theorem extract_zip_returns_existing_data (zip_path extract_to p : path)
  (w w' : world) :
  FS.exists_ (fs w) (extract_to // "Data") = true ->
  extract_zip zip_path extract_to w = (Ok p, w') ->
  p = extract_to // "Data"
  /\ last (logged w') (INFO, "")
     = (SUCCESS, "Extracted data to " ++ Path.str (extract_to // "Data")).
Proof.
  intros Hex H.
  pose proof (never_deletes_extract_zip zip_path extract_to w) as Hp.
  rewrite extract_zip_fs in Hp. rewrite extract_zip_unpack in H.
  destruct (unpack zip_path extract_to w) as [[[] | ex] w1]; [|discriminate].
  cbn [snd] in Hp. rewrite (persists_exists _ _ _ Hp Hex) in H.
  inversion H. split; [reflexivity|]. cbn [logged add_log]. apply last_last.
Qed.

(** ** After a broken download *)

Lemma remote_add_logs (w : world) (l : list (level * string)) :
  remote (add_logs w l) = remote w.
Proof. revert w. induction l as [|x l IH]; intros w; [easy|]. simpl. now rewrite IH. Qed.

(** X20.  A download that breaks in the middle is not made again: [run]
    raises the stream's exception and leaves the truncated file at the
    download path, and since the next [run] only asks whether that path
    exists (line 49), it issues no request and works on the truncated
    file. *)
Theorem broken_download_is_not_retried (lib : urllib) (url : string)
  (parent : path) (name : string) (extract_to output_dir : path) (w : world)
  (file_id : string) (r : response) (made : node) (received : string) (e : exn) :
  FS.exists_ (fs w) (parent // name) = false ->
  figshare_file_id lib url = Ok file_id ->
  remote w (download_url_of file_id) = Ok r ->
  error_status r = false ->
  content_length r <> Some None ->
  broken_stream r = Some (received, e) ->
  FS.makedirs (fs w) parent = Ok made ->
  FS.is_dir made (parent // name) = false ->
  exists w',
    run lib url (parent // name) extract_to output_dir false w = (Raised e, w')
    /\ FS.lookup (fs w') (parent // name) = Some (File (Opaque received))
    /\ forall again,
         requests (snd (run lib url (parent // name) extract_to output_dir again w'))
         = requests w'.
Proof.
  intros Hex Hid Hr Hs Hc Hb Hm Ht.
  rewrite (run_downloading lib url _ extract_to output_dir w Hex).
  assert (Hr0 : remote (add_logs w run_download_log) (download_url_of file_id) = Ok r)
    by now rewrite remote_add_logs.
  assert (Hm0 : FS.makedirs (fs (add_logs w run_download_log)) parent = Ok made)
    by now rewrite fs_add_logs.
  destruct (download_stream lib url parent name 8192%N
              (add_logs w run_download_log) file_id r made Hid Hr0 Hs Hc Hm0 Ht)
    as (w1 & H & Hl & _).
  unfold received_data in Hl. rewrite Hb in H, Hl. rewrite H.
  eexists. split; [reflexivity|]. cbn [fs add_log]. split; [exact Hl|].
  intros again. apply run_existing_requests. cbn [fs add_log].
  unfold FS.exists_. now rewrite Hl.
Qed.

(** * The further properties on sample states *)

Lemma extract_zip_stays_below_witness :
  FS.lookup
    (fs (snd (extract_zip Sample.raw_zip Sample.extracted Cases.hostile_download)))
    (Sample.extracted ++ ["etc"; "passwd"])%list
  = Some (File (Opaque "root::0:0"))
  /\ (FS.lookup (fs Cases.hostile_download) (Sample.extracted ++ ["etc"; "passwd"])%list
      = Some (File (Opaque "root::0:0"))
      \/ exists r, (Sample.extracted ++ ["etc"; "passwd"] = Sample.extracted ++ r)%list).
Proof.
  split; [vm_compute; reflexivity|].
  apply (extract_zip_stays_below Sample.raw_zip Sample.extracted
           Cases.hostile_download).
  vm_compute. reflexivity.
Defined.

Lemma process_dataset_writes_only_witness :
  FS.lookup
    (fs (snd (process_dataset Sample.raw_zip Sample.processed Sample.extracted
                Sample.downloaded)))
    (Sample.processed // "prevalence_data.csv")
  = Some (File Sample.prevalence_table)
  /\
  (FS.lookup (fs Sample.downloaded) (Sample.processed // "prevalence_data.csv")
  = Some (File Sample.prevalence_table)
  \/ (exists r, (Sample.processed // "prevalence_data.csv" = Sample.extracted ++ r)%list)
  \/ Sample.processed // "prevalence_data.csv"
     = Sample.processed // "prevalence_data.csv"
  \/ Sample.processed // "prevalence_data.csv"
     = Sample.processed // "adjacency_matrices_metadata.csv").
Proof.
  split; [vm_compute; reflexivity|].
  apply (process_dataset_writes_only Sample.raw_zip Sample.processed
           Sample.extracted Sample.downloaded).
  vm_compute. reflexivity.
Defined.

Lemma download_writes_only_witness :
  FS.lookup
    (fs (snd (download_from_figshare Sample.lib Sample.figshare_url Sample.raw_zip
                8192 (Cases.serving Cases.archive_response))))
    Sample.raw_zip
  = Some (File (Archive Sample.archive))
  /\ (FS.lookup (fs (Cases.serving Cases.archive_response)) Sample.raw_zip
      = Some (File (Archive Sample.archive))
      \/ Sample.raw_zip = Sample.raw_zip).
Proof.
  split; [vm_compute; reflexivity|].
  apply (download_writes_only Sample.lib Sample.figshare_url Sample.raw_zip
           8192 (Cases.serving Cases.archive_response)).
  vm_compute. reflexivity.
Defined.

Lemma run_writes_only_witness :
  FS.lookup
    (fs (snd (run Sample.lib Sample.figshare_url Sample.raw_zip Sample.extracted
                Sample.processed false (Cases.serving Cases.archive_response))))
    (Sample.processed // "prevalence_data.csv")
  = Some (File Sample.prevalence_table)
  /\
  (FS.lookup (fs (Cases.serving Cases.archive_response))
    (Sample.processed // "prevalence_data.csv")
  = Some (File Sample.prevalence_table)
  \/ Sample.processed // "prevalence_data.csv" = Sample.raw_zip
  \/ (exists r, (Sample.processed // "prevalence_data.csv" = Sample.extracted ++ r)%list)
  \/ Sample.processed // "prevalence_data.csv"
     = Sample.processed // "prevalence_data.csv"
  \/ Sample.processed // "prevalence_data.csv"
     = Sample.processed // "adjacency_matrices_metadata.csv").
Proof.
  split; [vm_compute; reflexivity|].
  apply (run_writes_only Sample.lib Sample.figshare_url Sample.raw_zip
           Sample.extracted Sample.processed false
           (Cases.serving Cases.archive_response)).
  vm_compute. reflexivity.
Defined.

Lemma download_stores_body_witness :
  exists w',
    download_from_figshare Sample.lib Sample.figshare_url Sample.raw_zip 8192
      (Cases.serving Cases.archive_response) = (Ok tt, w')
    /\ FS.lookup (fs w') Sample.raw_zip = Some (File (Archive Sample.archive))
    /\ FS.exists_ (fs w') Sample.raw_zip = true
    /\ requests w' = ["https://ndownloader.figshare.com/files/52015403"].
Proof.
  apply (download_stores_body Sample.lib Sample.figshare_url ["raw"]
           "comorbidity_networks_data.zip" 8192
           (Cases.serving Cases.archive_response) "52015403"
           Cases.archive_response (Dir [("raw", Dir [])]));
    try (vm_compute; reflexivity).
  discriminate.
Defined.

Lemma download_leaves_truncated_file_witness :
  exists w',
    download_from_figshare Sample.lib Sample.figshare_url Sample.raw_zip 8192
      (Cases.serving Cases.truncated_response)
    = (Raised (Exn ConnectionError "Connection broken"), w')
    /\ FS.lookup (fs w') Sample.raw_zip = Some (File (Opaque "PK"))
    /\ FS.exists_ (fs w') Sample.raw_zip = true.
Proof.
  apply (download_leaves_truncated_file Sample.lib Sample.figshare_url ["raw"]
           "comorbidity_networks_data.zip" 8192
           (Cases.serving Cases.truncated_response) "52015403"
           Cases.truncated_response (Dir [("raw", Dir [])]));
    try (vm_compute; reflexivity).
  discriminate.
Defined.

Lemma download_fails_before_writing_witness :
  download_from_figshare Sample.lib Sample.figshare_url Sample.raw_zip 8192
    (Cases.serving Cases.not_found_response)
  = (Raised (Exn HTTPError "404 Error"),
     announced (Cases.serving Cases.not_found_response) "52015403").
Proof.
  destruct (download_fails_before_writing Sample.lib Sample.figshare_url
              Sample.raw_zip 8192 (Cases.serving Cases.not_found_response)
              "52015403") as [_ H].
  - vm_compute. reflexivity.
  - exact H.
Defined.

Lemma file_id_raises_value_error_only_witness :
  figshare_file_id Sample.lib "http://[::1/?file=1" = Raised Urllib.invalid_ipv6
  /\ exn_cls Urllib.invalid_ipv6 = ValueError.
Proof.
  split; [vm_compute; reflexivity|].
  apply (file_id_raises_value_error_only Sample.lib "http://[::1/?file=1").
  vm_compute. reflexivity.
Defined.

Lemma path_identifier_is_numeric_witness :
  exists pre rest,
    "https://figshare.com/ndownloader/files/52015403/versions/2"
    = pre ++ "/files/" ++ "52015403" ++ rest
    /\ "52015403" <> EmptyString
    /\ Str.forallb Str.is_digit "52015403" = true
    /\ (rest = EmptyString
        \/ exists c r, rest = String c r /\ Str.is_digit c = false)
    /\ re_search_files (pre ++ "/files/") = None.
Proof.
  apply (path_identifier_is_numeric Sample.lib
           "https://figshare.com/ndownloader/files/52015403/versions/2"
           {| Urllib.scheme := "https"; Urllib.netloc := "figshare.com";
              Urllib.path := "/ndownloader/files/52015403/versions/2";
              Urllib.params := ""; Urllib.query := "";
              Urllib.fragment := "" |});
    vm_compute; reflexivity.
Defined.

Lemma metadata_lists_loadable_matrices_witness :
  (exists w',
     process_adjacency Sample.data_dir (adj_matrices_dir_of Sample.data_dir)
       Sample.processed Sample.empty = (Ok tt, w')
     /\ fs w' = Dir [])
  /\ exists w',
       process_adjacency ["data"] (adj_matrices_dir_of ["data"]) Sample.processed
         Cases.damaged = (Ok tt, w')
       /\ FS.lookup (fs w') (Sample.processed // metadata_name)
          = Some (File (Table ["filename"; "shape"; "file_path"]
                          [["b.csv"; "(3, 3)"; "3.AdjacencyMatrices/b.csv"]])).
Proof.
  split.
  - destruct (metadata_lists_loadable_matrices Sample.data_dir Sample.processed
                Sample.empty) as [H _].
    apply H. vm_compute. reflexivity.
  - destruct (metadata_lists_loadable_matrices ["data"] Sample.processed
                Cases.damaged) as [_ H].
    destruct H as (w' & Hr & _ & Hl & _);
      [vm_compute; discriminate | vm_compute; reflexivity
      | vm_compute; reflexivity |].
    exists w'. split; [exact Hr | exact Hl].
Defined.

Lemma prevalence_failure_is_contained_witness :
  exists w2,
    process_prevalence (prevalence_path_of Sample.data_dir) Sample.processed
      (snd (extract_zip Sample.raw_zip Sample.extracted
              (Sample.started Cases.corrupt_prevalence)))
    = (Ok tt, w2)
    /\ last (logged w2) (INFO, "")
       = (ERROR, "Error processing prevalence data: Error tokenizing data")
    /\ process_dataset Sample.raw_zip Sample.processed Sample.extracted
         Cases.corrupt_prevalence
       = (process_adjacency Sample.data_dir (adj_matrices_dir_of Sample.data_dir)
            Sample.processed ;;
          report_structure Sample.data_dir (prevalence_path_of Sample.data_dir)
            (adj_matrices_dir_of Sample.data_dir) Sample.processed) w2.
Proof.
  destruct (prevalence_failure_is_contained Sample.raw_zip Sample.processed
              Sample.extracted Sample.data_dir Cases.corrupt_prevalence
              (snd (extract_zip Sample.raw_zip Sample.extracted
                      (Sample.started Cases.corrupt_prevalence)))
              (Exn ParserError "Error tokenizing data"))
    as (w2 & Hp & _ & Hl & Hd);
    [vm_compute; reflexivity | vm_compute; reflexivity | vm_compute; reflexivity
    | left; vm_compute; reflexivity |].
  exists w2. split; [exact Hp|]. split; [exact Hl | exact Hd].
Defined.

Lemma process_dataset_without_tables_witness :
  exists w',
    process_dataset Sample.raw_zip Sample.processed Sample.extracted
      Cases.only_artifacts = (Ok tt, w')
    /\ FS.exists_ (fs w') Sample.processed = false.
Proof.
  destruct (process_dataset_without_tables Sample.raw_zip Sample.processed
              Sample.extracted Sample.data_dir Cases.only_artifacts
              (snd (extract_zip Sample.raw_zip Sample.extracted
                      (Sample.started Cases.only_artifacts))))
    as (w' & Hp & Hfs & _);
    [vm_compute; reflexivity .. |].
  exists w'. split; [exact Hp|]. rewrite Hfs. vm_compute. reflexivity.
Defined.

Lemma run_download_branch_witness :
  FS.exists_ (fs (Cases.serving Cases.not_found_response)) Sample.raw_zip = false
  /\ fst (run Sample.lib Sample.figshare_url Sample.raw_zip Sample.extracted
            Sample.processed false (Cases.serving Cases.not_found_response))
     = Raised (Exn HTTPError "404 Error").
Proof.
  split; [reflexivity|].
  pose proof (run_download_branch Sample.lib Sample.figshare_url Sample.raw_zip
                Sample.extracted Sample.processed
                (Cases.serving Cases.not_found_response) eq_refl) as H.
  destruct (download_from_figshare Sample.lib Sample.figshare_url Sample.raw_zip
              8192 (add_logs (Cases.serving Cases.not_found_response)
                      run_download_log)) as [[[] | ex] w1] eqn:D.
  - vm_compute in D. discriminate.
  - destruct H as [R _]. rewrite R. cbn [fst].
    vm_compute in D. inversion D. reflexivity.
Defined.

Lemma rerun_makes_no_request_witness :
  FS.exists_
    (fs (snd (run Sample.lib Sample.figshare_url Sample.raw_zip Sample.extracted
                Sample.processed false (Cases.serving Cases.archive_response))))
    Sample.raw_zip = true
  /\ forall again,
       requests
         (snd (run Sample.lib Sample.figshare_url Sample.raw_zip Sample.extracted
                 Sample.processed again
                 (snd (run Sample.lib Sample.figshare_url Sample.raw_zip
                         Sample.extracted Sample.processed false
                         (Cases.serving Cases.archive_response)))))
       = ["https://ndownloader.figshare.com/files/52015403"].
Proof.
  destruct (rerun_makes_no_request Sample.lib Sample.figshare_url Sample.raw_zip
              Sample.extracted Sample.processed false
              (Cases.serving Cases.archive_response)
              (snd (run Sample.lib Sample.figshare_url Sample.raw_zip
                      Sample.extracted Sample.processed false
                      (Cases.serving Cases.archive_response))))
    as [Hex Hreq].
  - vm_compute. reflexivity.
  - split; [exact Hex|]. intros again. rewrite Hreq. vm_compute. reflexivity.
Defined.

Lemma extract_zip_returns_existing_data_witness :
  fst (extract_zip Sample.raw_zip Sample.extracted Cases.stale)
  = Ok Sample.data_dir
  /\ Sample.data_dir = Sample.extracted // "Data".
Proof.
  split; [vm_compute; reflexivity|].
  apply (extract_zip_returns_existing_data Sample.raw_zip Sample.extracted
           Sample.data_dir Cases.stale
           (snd (extract_zip Sample.raw_zip Sample.extracted Cases.stale)));
    vm_compute; reflexivity.
Defined.

Lemma broken_download_is_not_retried_witness :
  exists w',
    run Sample.lib Sample.figshare_url Sample.raw_zip Sample.extracted
      Sample.processed false (Cases.serving Cases.truncated_response)
    = (Raised (Exn ConnectionError "Connection broken"), w')
    /\ FS.lookup (fs w') Sample.raw_zip = Some (File (Opaque "PK"))
    /\ forall again,
         requests (snd (run Sample.lib Sample.figshare_url Sample.raw_zip
                          Sample.extracted Sample.processed again w'))
         = requests w'.
Proof.
  apply (broken_download_is_not_retried Sample.lib Sample.figshare_url ["raw"]
           "comorbidity_networks_data.zip" Sample.extracted Sample.processed
           (Cases.serving Cases.truncated_response) "52015403"
           Cases.truncated_response (Dir [("raw", Dir [])]));
    try (vm_compute; reflexivity).
  discriminate.
Defined.
